(** * TelegramCopyTradeBot: signal normalisation, order sizing, execution and
      position monitoring, embedded from [trading_logic.py] and
      [exchange_execution.py].

    Conventions of the embedding.
    - Python [float] and [int] values are exact rationals ([Q]) and integers
      ([Z]): a single arithmetic operation is carried out without binary
      rounding, and the special values [nan] and [inf] and the overflow
      and underflow of an operation are not represented; [float] of an
      integer beyond the doubles raises [OverflowError].  Numbers are
      compared with [Qeq] ([==]).  In two places the rounding of doubles decides what the
      program does next at everyday inputs, and the outcome is a parameter
      of the model: the total that [sum] makes of the take-profit
      percentages, which is tested against 1 and divided by ([float_sum]),
      and the side to which a quantity halfway between two decimal numerals
      is formatted ([tie_rounds_up]).
    - Values decoded from JSON (the candidate produced by the text
      extraction, and the replies of the exchange library) are [json] trees.
    - An exception is an [exn]; code that can raise returns a [result], and
      stateful code threads its state explicitly and keeps the state reached
      when an exception is raised (Python does not roll back).
    - The exchange library (ccxt) and the wall clock are oracles: a reply is
      a function of the calls made so far, so every deterministic exchange
      is covered by quantifying over the oracle.
    - An [async] method runs to completion; two methods never interleave.
      Logging is left out. *)

From Stdlib Require Import ZArith QArith Qabs Qround Qminmax Lqa Lia.
From Stdlib Require Import Ascii String List Sorted.
From stdpp Require Import base option list gmap strings.
Import ListNotations.

Set Warnings "-register-all".
Local Open Scope string_scope.
Local Open Scope Z_scope.
Local Open Scope Q_scope.

(* ===================================================================== *)
(** ** Python values, exceptions and conversions *)
(* ===================================================================== *)

Module Py.

Inductive json : Type :=
| JNull
| JBool (b : bool)
| JNum (q : Q)
| JStr (s : string)
| JList (l : list json)
| JObj (kvs : list (string * json)).

(** A [dict] with string keys keeps insertion order; the first binding of
    a key is the live one. *)
Definition dict : Type := list (string * json).

Fixpoint dict_get (k : string) (d : dict) : option json :=
  match d with
  | [] => None
  | (k', v) :: d' => if String.eqb k k' then Some v else dict_get k d'
  end.

Definition dict_has (k : string) (d : dict) : bool :=
  match dict_get k d with Some _ => true | None => false end.

(** [d[k] = v]: overwrite in place, or append a new key. *)
Fixpoint dict_set (k : string) (v : json) (d : dict) : dict :=
  match d with
  | [] => [(k, v)]
  | (k', v') :: d' =>
      if String.eqb k k' then (k, v) :: d' else (k', v') :: dict_set k v d'
  end.

(** [d.pop(k)] for a key known to be present. *)
Fixpoint dict_pop (k : string) (d : dict) : dict :=
  match d with
  | [] => []
  | (k', v') :: d' =>
      if String.eqb k k' then dict_pop k d' else (k', v') :: dict_pop k d'
  end.

(** [d.update(extra)]: the live bindings of [extra], in their order, are
    written into [d]. *)
Fixpoint dict_update_from (seen : list string) (extra d : dict) : dict :=
  match extra with
  | [] => d
  | (k, v) :: rest =>
      if existsb (String.eqb k) seen then dict_update_from seen rest d
      else dict_update_from (k :: seen) rest (dict_set k v d)
  end.

Definition dict_update (d extra : dict) : dict := dict_update_from [] extra d.

(** [d.get(k, default)] *)
Definition dict_get_default (k : string) (default : json) (d : dict) : json :=
  match dict_get k d with Some v => v | None => default end.

Inductive exn_kind : Type :=
| KeyError | ValueError | TypeError | AttributeError | IndexError
| ZeroDivisionError | OverflowError
| OrderException
| ExchangeError.   (* anything raised inside the exchange library *)

Record exn : Type := Exn { exn_kind_of : exn_kind; exn_str : string }.

Inductive result (A : Type) : Type :=
| Ok (a : A)
| Raise (e : exn).
Arguments Ok {A} a.
Arguments Raise {A} e.

Definition rbind {A B} (m : result A) (k : A -> result B) : result B :=
  match m with Ok a => k a | Raise e => Raise e end.

Definition is_ok {A} (m : result A) : bool :=
  match m with Ok _ => true | Raise _ => false end.

Definition kind_in (ks : list exn_kind) (e : exn) : bool :=
  existsb (fun k => match k, exn_kind_of e with
                    | KeyError, KeyError | ValueError, ValueError
                    | TypeError, TypeError | AttributeError, AttributeError
                    | IndexError, IndexError
                    | ZeroDivisionError, ZeroDivisionError
                    | OverflowError, OverflowError
                    | OrderException, OrderException
                    | ExchangeError, ExchangeError => true
                    | _, _ => false
                    end) ks.

(** Truth value of a Python object ([if x:], [not x], [x or y]). *)
Definition truthy (v : json) : bool :=
  match v with
  | JNull => false
  | JBool b => b
  | JNum q => negb (Qeq_bool q 0)
  | JStr s => negb (String.eqb s "")
  | JList l => match l with [] => false | _ => true end
  | JObj d => match d with [] => false | _ => true end
  end.

(** [x or y] *)
Definition py_or (x y : json) : json := if truthy x then x else y.

Definition is_str (v : json) (s : string) : bool :=
  match v with JStr s' => String.eqb s' s | _ => false end.

Fixpoint contains (p s : string) : bool :=
  String.prefix p s ||
  match s with
  | EmptyString => false
  | String _ s' => contains p s'
  end.

(** [k in v] for a string [k]: key of a dict, substring of a string,
    element of a list; other objects are not containers. *)
Definition py_in (k : string) (v : json) : result bool :=
  match v with
  | JObj d => Ok (dict_has k d)
  | JStr s => Ok (contains k s)
  | JList l => Ok (existsb (fun x => is_str x k) l)
  | _ => Raise (Exn TypeError "argument is not iterable")
  end.

(** [repr(k)] of a key that holds no quote and no character to escape, as
    every key that the sources look up: the text of [KeyError(k)]. *)
Definition repr_key (k : string) : string := "'" ++ k ++ "'".

(** [v[k]] for a string [k]. *)
Definition getitem (v : json) (k : string) : result json :=
  match v with
  | JObj d => match dict_get k d with
              | Some x => Ok x
              | None => Raise (Exn KeyError (repr_key k))
              end
  | _ => Raise (Exn TypeError "object is not subscriptable by a string")
  end.

(** [v.get(k, default)]: only dicts have the method. *)
Definition py_get (v : json) (k : string) (default : json) : result json :=
  match v with
  | JObj d => Ok (dict_get_default k default d)
  | _ => Raise (Exn AttributeError "object has no attribute 'get'")
  end.

(** [int(x)] of a number truncates toward zero. *)
Definition trunc (q : Q) : Z := Z.quot (Qnum q) (Zpos (Qden q)).

(** The least integer that [float] refuses.  The doubles end below 2^1024
    and an integer is rounded to the nearest of them, so the integers from
    2^1024 - 2^970 on are out of their range. *)
Definition float_limit : Z := (2 ^ 1024 - 2 ^ 970)%Z.

Section Conversions.
(** Python's parsers of numerals, [float(s)] and [int(s)] on a [str];
    [None] stands for [ValueError]. *)
Variable float_of_str : string -> option Q.
Variable int_of_str : string -> option Z.

(** [float(x)].  A number that no double holds is an [int], and [float]
    raises [OverflowError] on it. *)
Definition py_float (v : json) : result Q :=
  match v with
  | JNum q =>
      if Qle_bool (inject_Z float_limit) (Qabs q)
      then Raise (Exn OverflowError "int too large to convert to float")
      else Ok q
  | JBool b => Ok (if b then 1 else 0)
  | JStr s => match float_of_str s with
              | Some q => Ok q
              | None => Raise (Exn ValueError "could not convert string to float")
              end
  | _ => Raise (Exn TypeError "float() argument must be a string or a real number")
  end.

Definition py_int (v : json) : result Z :=
  match v with
  | JNum q => Ok (trunc q)
  | JBool b => Ok (if b then 1%Z else 0%Z)
  | JStr s => match int_of_str s with
              | Some z => Ok z
              | None => Raise (Exn ValueError "invalid literal for int()")
              end
  | _ => Raise (Exn TypeError "int() argument must be a string or a real number")
  end.
End Conversions.

(** [a / b] on floats. *)
Definition py_div (a b : Q) : result Q :=
  if Qeq_bool b 0 then Raise (Exn ZeroDivisionError "float division by zero")
  else Ok (a / b).

Definition Qltb (a b : Q) : bool := negb (Qle_bool b a).

Definition sumQ (l : list Q) : Q := fold_left Qplus l 0.

(** [max(xs)] and [min(xs)] of a non-empty sequence. *)
Definition maxQ (x : Q) (xs : list Q) : Q :=
  fold_left (fun m y => if Qltb m y then y else m) xs x.
Definition minQ (x : Q) (xs : list Q) : Q :=
  fold_left (fun m y => if Qltb y m then y else m) xs x.

(** [math.isclose(a, b, rel_tol=rel_tol)] with the default [abs_tol=0]. *)
Definition isclose (a b rel_tol : Q) : bool :=
  Qle_bool (Qabs (a - b)) (rel_tol * Qmax (Qabs a) (Qabs b)).

(** [s.lower()] on ASCII letters. *)
Definition lower_ascii (c : ascii) : ascii :=
  let n := nat_of_ascii c in
  if (Nat.leb 65 n && Nat.leb n 90)%bool then ascii_of_nat (n + 32) else c.

Fixpoint lower (s : string) : string :=
  match s with
  | EmptyString => EmptyString
  | String c s' => String (lower_ascii c) (lower s')
  end.

End Py.

Import Py.

Notation "x <- m ;; k" := (rbind m (fun x => k))
(at level 100, m at next level, right associativity).

(* ===================================================================== *)
(** ** The signal model ([models.py]) *)
(* ===================================================================== *)

Module Models.

(** Modelled from the spec: [models.py] (EntryZone, TakeProfitLevel,
    TradingSignal, OrderResult and [TradingSignal.is_valid]) is not among
    the sources.  The records follow section 3 of the specification; the
    constructor calls in the sources fix the field names.  A list field
    that Python may hold as [None] is the empty list here: the sources
    only test such a field for truth before they iterate over it. *)
Record EntryZone : Type := mkEntryZone {
  zone_price : Q;
  zone_percentage : Q;
  zone_status : string;
  zone_order_id : option json
}.

(** [EntryZone(price=p, percentage=q)] *)
Definition new_zone (p q : Q) : EntryZone := mkEntryZone p q "PENDING" None.

(** Modelled from the spec: [TakeProfitLevel] of the missing [models.py]:
    price, percentage, [is_hit] and the optional [hit_time], a clock
    reading. *)
Record TakeProfitLevel : Type := mkTakeProfitLevel {
  tp_price : Q;
  tp_percentage : Q;
  is_hit : bool;
  hit_time : option Q
}.

(** [TakeProfitLevel(price, pct)]: not hit, no hit time. *)
Definition new_tp (p q : Q) : TakeProfitLevel := mkTakeProfitLevel p q false None.

(** Modelled from the spec: [TradingSignal] of the missing [models.py].
    Exchange, symbol and action are strings, as the specification types
    them and as [_validate_json_data] checks them; margin mode and risk
    level are whatever value the candidate holds. *)
Record TradingSignal : Type := mkTradingSignal {
  exchange : string;
  symbol : string;
  action : string;
  entry_price : option Q;
  entry_zones : list EntryZone;
  take_profit_levels : list TakeProfitLevel;
  stop_loss : option Q;
  position_size : Q;
  leverage : Z;
  margin_mode : json;
  confidence : Q;
  risk_level : json;
  dynamic_sl : bool;
  source_message : string
}.

(** Modelled from the spec: [TradingSignal.is_valid], section 4.1: "requires
    at least one of entry_price/entry_zones, at least one take-profit
    level, and a stop-loss, for any non-CLOSE action". *)
Definition is_valid (s : TradingSignal) : bool :=
  if String.eqb (action s) "CLOSE" then true
  else
    (match entry_price s, entry_zones s with
     | None, [] => false
     | _, _ => true
     end)
    && (match take_profit_levels s with [] => false | _ => true end)
    && (match stop_loss s with Some _ => true | None => false end).

Definition set_stop_loss (v : option Q) (s : TradingSignal) : TradingSignal :=
  mkTradingSignal (exchange s) (symbol s) (action s) (entry_price s)
    (entry_zones s) (take_profit_levels s) v (position_size s)
    (leverage s) (margin_mode s) (confidence s) (risk_level s)
    (dynamic_sl s) (source_message s).

Definition set_take_profit_levels (v : list TakeProfitLevel) (s : TradingSignal)
  : TradingSignal :=
  mkTradingSignal (exchange s) (symbol s) (action s) (entry_price s)
    (entry_zones s) v (stop_loss s) (position_size s)
    (leverage s) (margin_mode s) (confidence s) (risk_level s)
    (dynamic_sl s) (source_message s).

Definition set_entry_zones (v : list EntryZone) (s : TradingSignal)
  : TradingSignal :=
  mkTradingSignal (exchange s) (symbol s) (action s) (entry_price s)
    v (take_profit_levels s) (stop_loss s) (position_size s)
    (leverage s) (margin_mode s) (confidence s) (risk_level s)
    (dynamic_sl s) (source_message s).

End Models.
Import Models.

(* ===================================================================== *)
(** ** [trading_logic.py]: class TradingLogic *)
(* ===================================================================== *)

Module TradingLogic.
Section WithParsers.

Variable float_of_str : string -> option Q.
Variable int_of_str : string -> option Z.
(** The default of the [dynamic_sl] field of the missing dataclass. *)
Variable dynamic_sl_default : bool.
(** Python's [sum] of the take-profit percentages.  Every addition of
    doubles rounds, so the total that the program tests against 1 and
    divides by need not be the sum of the rationals: it is a non-zero
    number of the size of the rounding when the terms cancel (0.4, -0.35
    and -0.05 add up to 4.2e-17).  The total is therefore whatever this
    function says; [sumQ] is the instance without rounding. *)
Variable float_sum : list Q -> Q.

Let py_float := Py.py_float float_of_str.
Let py_int := Py.py_int int_of_str.

(** [all(k in item for k in ['price', 'percentage'])] *)
Definition item_has_fields (item : json) : result bool :=
  b <- py_in "price" item ;;
  if b then py_in "percentage" item else Ok false.

Fixpoint items_have_fields (l : list json) : result bool :=
  match l with
  | [] => Ok true
  | item :: l' =>
      b <- item_has_fields item ;;
      if b then items_have_fields l' else Ok false
  end.

Definition item_list_ok (key : string) (data : dict) : result bool :=
  match dict_get key data with
  | None => Ok true
  | Some (JList l) => items_have_fields l
  | Some _ => Ok false
  end.

Fixpoint numeric_fields_ok (fields : list string) (data : dict) : bool :=
  match fields with
  | [] => true
  | f :: fs =>
      match dict_get f data with
      | None => numeric_fields_ok fs data
      | Some v => if is_ok (py_float v) then numeric_fields_ok fs data else false
      end
  end.

Definition _validate_json_data (data : dict) : bool :=
  if negb (dict_has "exchange" data && dict_has "symbol" data
           && dict_has "action" data) then false
  else
    let ex := dict_get_default "exchange" JNull data in
    let sym := dict_get_default "symbol" JNull data in
    let act := dict_get_default "action" JNull data in
    if negb (is_str ex "BINANCE" || is_str ex "OKX") then false
    else if negb (match sym with JStr _ => truthy sym | _ => false end) then false
    else if negb (is_str act "OPEN_LONG" || is_str act "OPEN_SHORT"
                  || is_str act "CLOSE") then false
    else
      match item_list_ok "entry_zones" data with
      | Raise _ => false
      | Ok false => false
      | Ok true =>
          match item_list_ok "take_profit_levels" data with
          | Raise _ => false
          | Ok false => false
          | Ok true =>
              numeric_fields_ok ["position_size"; "leverage"; "confidence"] data
          end
      end.

(** [item[k] = float(item[k])]; the flag is false when the statement raised. *)
Definition normalize_field (k : string) (d : dict) : dict * bool :=
  match dict_get k d with
  | None => (d, false)
  | Some v =>
      match py_float v with
      | Ok q => (dict_set k (JNum q) d, true)
      | Raise _ => (d, false)
      end
  end.

Definition normalize_item (item : json) : json * bool :=
  match item with
  | JObj d =>
      let '(d1, ok1) := normalize_field "price" d in
      if ok1 then
        let '(d2, ok2) := normalize_field "percentage" d1 in (JObj d2, ok2)
      else (JObj d1, false)
  | _ => (item, false)
  end.

(** The loop mutates the item dicts in place and stops at the first
    exception, leaving the items already rewritten as they are. *)
Fixpoint normalize_items (l : list json) : list json * bool :=
  match l with
  | [] => ([], true)
  | item :: l' =>
      let '(item', ok) := normalize_item item in
      if ok then
        let '(l'', ok') := normalize_items l' in (item' :: l'', ok')
      else (item' :: l', false)
  end.

(** The items live in lists shared by [data] and its shallow copy, so the
    rewritten list is visible through both. *)
Definition normalize_item_list (key : string) (data : dict) : dict * bool :=
  match dict_get key data with
  | Some (JList l) =>
      let '(l', ok) := normalize_items l in (dict_set key (JList l') data, ok)
  | _ => (data, true)
  end.

(** A field that does not convert is removed when [float] raised
    [TypeError] or [ValueError]; any other exception leaves the loop. *)
Definition normalize_numeric (field : string) (normalized : dict) : result dict :=
  match dict_get field normalized with
  | None => Ok normalized
  | Some v =>
      match py_float v with
      | Ok q =>
          Ok (dict_set field
                (JNum (if String.eqb field "leverage" then inject_Z (trunc q) else q))
                normalized)
      | Raise e =>
          if kind_in [TypeError; ValueError] e then Ok (dict_pop field normalized)
          else Raise e
      end
  end.

Fixpoint normalize_fields (fields : list string) (normalized : dict) : result dict :=
  match fields with
  | [] => Ok normalized
  | field :: rest =>
      n <- normalize_numeric field normalized ;;
      normalize_fields rest n
  end.

(** When an exception leaves one of the loops the method returns [data]:
    what has been written to the fields of the copy is lost, and the
    items, which [data] shares with the copy, stay as they were rewritten. *)
Definition _normalize_numbers (data : dict) : dict :=
  let '(d1, ok1) := normalize_item_list "entry_zones" data in
  if negb ok1 then d1
  else
    let '(d2, ok2) := normalize_item_list "take_profit_levels" d1 in
    if negb ok2 then d2
    else
      match normalize_fields
              ["stop_loss"; "position_size"; "leverage"; "confidence"] d2 with
      | Ok normalized => normalized
      | Raise _ => d2
      end.

(** [float(item['price'])], [float(item['percentage'])], in this order. *)
Definition item_pair (item : json) : result (Q * Q) :=
  vp <- getitem item "price" ;;
  p <- py_float vp ;;
  vq <- getitem item "percentage" ;;
  q <- py_float vq ;;
  Ok (p, q).

(** A [KeyError] or [ValueError] skips the item; any other exception
    leaves the loop. *)
Fixpoint collect_pairs (l : list json) : result (list (Q * Q)) :=
  match l with
  | [] => Ok []
  | item :: l' =>
      match item_pair item with
      | Ok pq => r <- collect_pairs l' ;; Ok (pq :: r)
      | Raise e =>
          if kind_in [KeyError; ValueError] e then collect_pairs l' else Raise e
      end
  end.

Definition rel_tol : Q := 1 # 100000.

(** [tp.percentage = tp.percentage / total_percentage] for every level. *)
Fixpoint renormalize (total : Q) (l : list TakeProfitLevel)
  : result (list TakeProfitLevel) :=
  match l with
  | [] => Ok []
  | tp :: l' =>
      q <- py_div (tp_percentage tp) total ;;
      r <- renormalize total l' ;;
      Ok (mkTakeProfitLevel (tp_price tp) q (is_hit tp) (hit_time tp) :: r)
  end.

Definition str_field (k : string) (data : dict) : result string :=
  match dict_get k data with
  | Some (JStr s) => Ok s
  | Some _ => Raise (Exn TypeError k)
  | None => Raise (Exn KeyError (repr_key k))
  end.

(** The entry of the signal: the zones when [entry_zones] is a non-empty
    list, else the single price.  The outer [None] is the early
    [return None] on a price that does not convert. *)
Definition parse_entry (data : dict)
  : result (option (option Q * list EntryZone)) :=
  match dict_get "entry_zones" data with
  | Some (JList (z :: zs)) =>
      pairs <- collect_pairs (z :: zs) ;;
      Ok (Some (None, map (fun pq => new_zone (fst pq) (snd pq)) pairs))
  | _ =>
      match dict_get "entry_price" data with
      | Some JNull | None => Ok (Some (None, []))
      | Some v =>
          match py_float v with
          | Ok q => Ok (Some (Some q, []))
          | Raise _ => Ok None
          end
      end
  end.

Definition parse_take_profits (data : dict) : result (list TakeProfitLevel) :=
  let tp_data :=
    dict_get_default "take_profit_levels"
      (dict_get_default "take_profit" (JList []) data) data in
  match tp_data with
  | JList l =>
      pairs <- collect_pairs l ;;
      Ok (map (fun pq => new_tp (fst pq) (snd pq)) pairs)
  | _ => Ok []
  end.

(** The percentages are divided by their sum unless the sum is close to 1. *)
Definition normalize_percentages (tps : list TakeProfitLevel)
  : result (list TakeProfitLevel) :=
  match tps with
  | [] => Ok []
  | _ :: _ =>
      let total_percentage := float_sum (map tp_percentage tps) in
      if negb (isclose total_percentage 1 rel_tol)
      then renormalize total_percentage tps
      else Ok tps
  end.

(** A stop that does not convert is left out when [float] raised
    [TypeError] or [ValueError]; any other exception leaves the body. *)
Definition parse_stop_loss (data : dict) : result (option Q) :=
  match dict_get "stop_loss" data with
  | Some v =>
      match py_float v with
      | Ok q => Ok (Some q)
      | Raise e => if kind_in [TypeError; ValueError] e then Ok None else Raise e
      end
  | None => Ok None
  end.

(** The call of the [TradingSignal] constructor. *)
Definition build_signal (data : dict) (entry_price : option Q)
  (entry_zones : list EntryZone) (tps : list TakeProfitLevel)
  (stop_loss : option Q) : result TradingSignal :=
  ex <- str_field "exchange" data ;;
  sym <- str_field "symbol" data ;;
  act <- str_field "action" data ;;
  size <- py_float (dict_get_default "position_size" (JNum 50) data) ;;
  lev <- py_int (dict_get_default "leverage" (JNum 10) data) ;;
  conf <- py_float (dict_get_default "confidence" (JNum (8 # 10)) data) ;;
  Ok (mkTradingSignal ex sym act entry_price entry_zones tps
        stop_loss size lev
        (dict_get_default "margin_mode" (JStr "cross") data)
        conf
        (dict_get_default "risk_level" (JStr "MEDIUM") data)
        dynamic_sl_default "").

Definition convert_body (data : dict) : result (option TradingSignal) :=
  if negb (dict_has "exchange" data && dict_has "symbol" data
           && dict_has "action" data) then Ok None
  else
    entry <- parse_entry data ;;
    match entry with
    | None => Ok None
    | Some (None, []) => Ok None
    | Some (entry_price, entry_zones) =>
        tps <- parse_take_profits data ;;
        tps' <- normalize_percentages tps ;;
        stop_loss <- parse_stop_loss data ;;
        match build_signal data entry_price entry_zones tps' stop_loss with
        | Raise _ => Ok None
        | Ok signal => if is_valid signal then Ok (Some signal) else Ok None
        end
    end.

(** Every exception that leaves the body is caught and turned into [None].
    The dataclass of the specification types exchange, symbol and action
    as strings; a candidate that holds another kind of value there (which
    [process_message] never passes on, [_validate_json_data] having
    checked all three) cannot be represented and yields [None]. *)
Definition _convert_to_trading_signal (data : dict) : option TradingSignal :=
  match convert_body data with
  | Ok r => r
  | Raise _ => None
  end.

(** The entry reference that the risk and target computations share:
    [entry_price = signal.entry_price], replaced by the mean of the zone
    prices when it is [None] or zero and the signal has zones. *)
Definition entry_reference (signal : TradingSignal) : option Q :=
  let not_entry_price :=
    match entry_price signal with
    | None => true
    | Some e => Qeq_bool e 0
    end in
  match entry_zones signal with
  | _ :: _ =>
      if not_entry_price then
        let prices := map zone_price (entry_zones signal) in
        Some (sumQ prices / inject_Z (Z.of_nat (length prices)))
      else entry_price signal
  | [] => entry_price signal
  end.

Definition _calculate_default_stop_loss (signal : TradingSignal) : Q :=
  match entry_reference signal with
  | None => 0                       (* TypeError, caught: return 0 *)
  | Some entry_price =>
      let stop_distance := entry_price * (2 # 100) in
      if String.eqb (action signal) "OPEN_LONG"
      then entry_price - stop_distance
      else entry_price + stop_distance
  end.

Definition multipliers : list Q := [2; 3; 4].
Definition percentages : list Q := [4 # 10; 3 # 10; 3 # 10].

Definition _calculate_default_take_profits (signal : TradingSignal)
  : list TakeProfitLevel :=
  match entry_reference signal, stop_loss signal with
  | Some entry_price, Some sl =>
      let stop_distance := Qabs (entry_price - sl) in
      map (fun mp : Q * Q =>
             let (mult, pct) := mp in
             let price :=
               if String.eqb (action signal) "OPEN_LONG"
               then entry_price + stop_distance * mult
               else entry_price - stop_distance * mult in
             new_tp price pct)
          (combine multipliers percentages)
  | _, _ => []                      (* TypeError, caught: return [] *)
  end.

Definition _validate_risk_ratio (signal : TradingSignal) : bool :=
  if String.eqb (action signal) "CLOSE" then true
  else
    match stop_loss signal, take_profit_levels signal with
    | None, _ => false
    | _, [] => false
    | Some sl, tp :: tps =>
        if Qeq_bool sl 0 then false
        else
          match entry_reference signal with
          | None => false           (* TypeError, caught: return False *)
          | Some entry_price =>
              let '(reward, risk) :=
                if String.eqb (action signal) "OPEN_LONG" then
                  let highest_tp := maxQ (tp_price tp) (map tp_price tps) in
                  (highest_tp - entry_price, entry_price - sl)
                else
                  let lowest_tp := minQ (tp_price tp) (map tp_price tps) in
                  (entry_price - lowest_tp, sl - entry_price) in
              if Qltb 0 risk then Qle_bool (15 # 10) (reward / risk) else false
          end
    end.

Definition calculate_risk_reward_ratio (signal : TradingSignal) : Q :=
  match entry_reference signal, stop_loss signal, take_profit_levels signal with
  | Some entry_price, Some sl, tp :: tps =>
      let '(reward, risk) :=
        if String.eqb (action signal) "OPEN_LONG" then
          let highest_tp := maxQ (tp_price tp) (map tp_price tps) in
          (highest_tp - entry_price, entry_price - sl)
        else
          let lowest_tp := minQ (tp_price tp) (map tp_price tps) in
          (entry_price - lowest_tp, sl - entry_price) in
      if Qltb 0 risk then reward / risk else 0
  | _, _, _ => 0                    (* TypeError or AttributeError, caught *)
  end.

Definition falsy_price (p : option Q) : bool :=
  match p with None => true | Some q => Qeq_bool q 0 end.

Definition _validate_and_complete_signal (signal : TradingSignal)
  : option TradingSignal :=
  if negb (negb (String.eqb (exchange signal) "")
           && negb (String.eqb (symbol signal) "")
           && negb (String.eqb (action signal) "")) then None
  else if falsy_price (entry_price signal)
          && match entry_zones signal with [] => true | _ => false end
  then None
  else if negb (String.eqb (action signal) "OPEN_LONG"
                || String.eqb (action signal) "OPEN_SHORT"
                || String.eqb (action signal) "CLOSE") then None
  else
    let signal1 :=
      if falsy_price (stop_loss signal)
         && negb (String.eqb (action signal) "CLOSE")
      then set_stop_loss (Some (_calculate_default_stop_loss signal)) signal
      else signal in
    let signal2 :=
      if match take_profit_levels signal1 with [] => true | _ => false end
         && negb (String.eqb (action signal1) "CLOSE")
      then set_take_profit_levels (_calculate_default_take_profits signal1) signal1
      else signal1 in
    if negb (_validate_risk_ratio signal2) then None else Some signal2.

(** [process_message] from the point where the reply of the extraction
    has been decoded: [signal_dict] is what [_parse_response] returned
    ([None] when no candidate was found).  The text clean-up, the request
    to the language model and the JSON decoding are the external
    collaborator. *)
Definition process_message (signal_dict : option dict) : option TradingSignal :=
  match signal_dict with
  | Some d =>
      if truthy (JObj d) then
        if _validate_json_data d then
          let normalized_dict := _normalize_numbers d in
          match _convert_to_trading_signal normalized_dict with
          | Some signal =>
              if is_valid signal then
                let risk_ratio_valid := true in   (* #self._validate_risk_ratio(signal) *)
                if risk_ratio_valid then Some signal else None
              else None
          | None => None
          end
        else None
      else None
  | None => None
  end.

(** The three contributions to the risk score of [_assess_risk_level]. *)
Definition leverage_score (lev : Z) : Z :=
  if (20 <? lev)%Z then 3 else if (10 <? lev)%Z then 2
  else if (5 <? lev)%Z then 1 else 0.

Definition stop_distance_score (stop_distance : Q) : Z :=
  if Qltb stop_distance 1 then 3 else if Qltb stop_distance 2 then 2
  else if Qltb stop_distance 3 then 1 else 0.

Definition rr_score (rr_ratio : Q) : Z :=
  if Qltb rr_ratio (15 # 10) then 3 else if Qltb rr_ratio 2 then 2
  else if Qltb rr_ratio (25 # 10) then 1 else 0.

Definition _assess_risk_level (signal : TradingSignal) : string :=
  match entry_reference signal, stop_loss signal with
  | Some entry_price, Some sl =>
      match py_div (Qabs (entry_price - sl)) entry_price with
      | Raise _ => "MEDIUM"         (* ZeroDivisionError, caught *)
      | Ok d =>
          let stop_distance := d * 100 in
          let rr_ratio := calculate_risk_reward_ratio signal in
          let risk_score :=
            (leverage_score (leverage signal) + stop_distance_score stop_distance
             + rr_score rr_ratio)%Z in
          if (7 <=? risk_score)%Z then "HIGH"
          else if (4 <=? risk_score)%Z then "MEDIUM"
          else "LOW"
      end
  | _, _ => "MEDIUM"                (* TypeError, caught *)
  end.


(** [sorted(xs)] *)
Fixpoint insert_sorted (x : Q) (l : list Q) : list Q :=
  match l with
  | [] => [x]
  | y :: l' => if Qltb x y then x :: y :: l' else y :: insert_sorted x l'
  end.

Definition py_sorted (l : list Q) : list Q := fold_right insert_sorted [] l.

(** [abs(prices[i] - prices[i-1]) < min_price_distance] for some [i]. *)
Fixpoint too_close (min_price_distance : Q) (prices : list Q) : bool :=
  match prices with
  | a :: ((b :: _) as rest) =>
      Qltb (Qabs (b - a)) min_price_distance || too_close min_price_distance rest
  | _ => false
  end.

(** A comparison with an entry price that is [None] raises [TypeError],
    which the method turns into [False]. *)
Definition validate_technical_levels (signal : TradingSignal) : bool :=
  let entry_price := entry_reference signal in
  let long := String.eqb (action signal) "OPEN_LONG" in
  let stop_ok :=
    if falsy_price (stop_loss signal) then true
    else
      match entry_price, stop_loss signal with
      | Some e, Some sl => if long then Qltb sl e else Qltb e sl
      | _, _ => false
      end in
  let tp_ok :=
    match take_profit_levels signal with
    | [] => true
    | tps =>
        match entry_price with
        | Some e =>
            forallb (fun tp => if long then Qltb e (tp_price tp)
                               else Qltb (tp_price tp) e) tps
        | None => false
        end
    end in
  let min_price_distance := 1 # 1000 in
  stop_ok && tp_ok
  && negb (too_close min_price_distance
             (py_sorted (map zone_price (entry_zones signal)))).

(** [signal.entry_price or signal.entry_zones[0].price] *)
Definition first_entry (signal : TradingSignal) : result Q :=
  if falsy_price (entry_price signal) then
    match entry_zones signal with
    | zone :: _ => Ok (zone_price zone)
    | [] => Raise (Exn IndexError "list index out of range")
    end
  else Ok (default 0 (entry_price signal)).

(** [last_tp.price = price] for the last level of a non-empty list. *)
Fixpoint set_last_price (price : Q) (l : list TakeProfitLevel)
  : list TakeProfitLevel :=
  match l with
  | [] => []
  | [tp] => [mkTakeProfitLevel price (tp_percentage tp) (is_hit tp) (hit_time tp)]
  | tp :: l' => tp :: set_last_price price l'
  end.

(** The signal is changed in place: when the second step raises, the stop
    that the first step has set stays. *)
Definition adjust_for_market_conditions (signal : TradingSignal)
  (market_conditions : dict) : TradingSignal :=
  let long := String.eqb (action signal) "OPEN_LONG" in
  let volatility := dict_get_default "volatility" (JStr "NORMAL") market_conditions in
  let step1 : result TradingSignal :=
    if is_str volatility "HIGH" && negb (falsy_price (stop_loss signal)) then
      entry_price <- first_entry signal ;;
      let current_distance := Qabs (entry_price - default 0 (stop_loss signal)) in
      let adjusted_distance := current_distance * (12 # 10) in
      Ok (set_stop_loss
            (Some (if long then entry_price - adjusted_distance
                   else entry_price + adjusted_distance)) signal)
    else Ok signal in
  match step1 with
  | Raise _ => signal
  | Ok signal1 =>
      let trend_strength :=
        dict_get_default "trend_strength" (JStr "NORMAL") market_conditions in
      match last (take_profit_levels signal1) with
      | Some last_tp =>
          if is_str trend_strength "STRONG" then
            match first_entry signal1 with
            | Raise _ => signal1
            | Ok entry_price =>
                let current_distance := Qabs (entry_price - tp_price last_tp) in
                set_take_profit_levels
                  (set_last_price
                     (if long then entry_price + current_distance * (12 # 10)
                      else entry_price - current_distance * (12 # 10))
                     (take_profit_levels signal1))
                  signal1
            end
          else signal1
      | None => signal1
      end
  end.

End WithParsers.
End TradingLogic.

(* ===================================================================== *)
(** ** [exchange_execution.py]: constants and data classes *)
(* ===================================================================== *)

Module OrderSide.
Definition BUY : string := "buy".
Definition SELL : string := "sell".
End OrderSide.

Module OrderType.
Definition MARKET : string := "MARKET".
Definition LIMIT : string := "LIMIT".
Definition STOP : string := "STOP".
Definition STOP_MARKET : string := "STOP_MARKET".
Definition TAKE_PROFIT : string := "TAKE_PROFIT".
Definition TAKE_PROFIT_MARKET : string := "TAKE_PROFIT_MARKET".
End OrderType.

Module ExchangeData.

Inductive PositionSide : Type := LONG | SHORT.
Inductive MarginType : Type := CROSS | ISOLATED.

(** [not x] for an optional float: [None] and zero are false. *)
Definition not_price (p : option Q) : bool :=
  match p with None => true | Some q => Qeq_bool q 0 end.

Record OrderParams : Type := mkOrderParams {
  op_symbol : string;
  op_side : string;
  op_order_type : string;
  op_amount : Q;
  op_price : option Q;
  op_stop_price : option Q;
  op_reduce_only : bool;
  op_leverage : option Z;
  op_margin_mode : json;
  op_extra_params : dict
}.

(** [OrderParams.validate] *)
Definition validate (o : OrderParams) : bool :=
  if negb (negb (String.eqb (op_symbol o) "")
           && negb (String.eqb (op_side o) "")
           && negb (String.eqb (op_order_type o) "")
           && Qltb 0 (op_amount o)) then false
  else if String.eqb (op_order_type o) OrderType.LIMIT && not_price (op_price o)
  then false
  else if (String.eqb (op_order_type o) OrderType.STOP
           || String.eqb (op_order_type o) OrderType.TAKE_PROFIT)
          && not_price (op_stop_price o)
  then false
  else true.

(** The [timestamp] fields of the snapshots ([datetime.now] at construction)
    are never read by the code and are left out. *)
Record AccountBalance : Type := mkAccountBalance {
  total_equity : Q;
  used_margin : Q;
  free_margin : Q;
  margin_ratio : Q;
  unrealized_pnl : Q;
  realized_pnl : Q
}.

(** [AccountBalance()] *)
Definition AccountBalance_default : AccountBalance :=
  mkAccountBalance 0 0 0 0 0 0.

Record PositionInfo : Type := mkPositionInfo {
  pos_symbol : string;
  pos_side : PositionSide;
  pos_size : Q;
  pos_entry_price : Q;
  pos_margin_mode : MarginType;
  pos_leverage : Z;
  pos_liquidation_price : Q;
  pos_mark_price : Q;
  pos_break_even_price : Q;
  pos_initial_margin : Q;
  pos_maintenance_margin : Q;
  pos_position_initial_margin : Q;
  pos_open_order_initial_margin : Q;
  pos_isolated_margin : Q;
  pos_unrealized_pnl : Q;
  pos_realized_pnl : Q;
  pos_pnl_percentage : Q;
  pos_notional : Q;
  pos_collateral : Q
}.

Record MarketInfo : Type := mkMarketInfo {
  mi_symbol : json;
  mi_base : json;
  mi_quote : json;
  price_precision : Z;
  amount_precision : Z;
  min_amount : Q;
  min_cost : Q;
  market_type : json;
  contract_size : Q;
  last_price : option Q;
  mi_mark_price : option Q;
  mi_index_price : option Q
}.

(** The dict returned by [convert_amount_to_contracts]. *)
Record ConversionInfo : Type := mkConversionInfo {
  raw_quantity : Q;
  formatted_quantity : Q;
  initial_margin : Q;
  notional_value : Q;
  ci_price : Q;
  ci_leverage : Z
}.

(** Modelled from the spec: [OrderResult] of the missing [models.py],
    section 3: a success flag, the order id, the executed price and amount,
    or an error message; [extra_info] holds the raw reply of the exchange
    and the conversion details, as [create_order] fills it. *)
Record OrderResult : Type := mkOrderResult {
  success : bool;
  order_id : option json;
  executed_price : option Q;
  executed_amount : option Q;
  error_message : option string;
  extra_info : option (json * ConversionInfo)
}.

(** [OrderResult(success=False, error_message=msg)] *)
Definition failed (msg : string) : OrderResult :=
  mkOrderResult false None None None (Some msg) None.

Section WithParsers.

Variable float_of_str : string -> option Q.
Variable int_of_str : string -> option Z.

Let py_float := Py.py_float float_of_str.
Let py_int := Py.py_int int_of_str.

(** [float(d.get(k, 0) or 0)] *)
Definition float_get_or0 (d : json) (k : string) : result Q :=
  v <- py_get d k (JNum 0) ;;
  py_float (py_or v (JNum 0)).

(** [float(d.get(outer, {}).get('USDT', 0) or 0)] *)
Definition usdt_of (balance : json) (outer : string) : result Q :=
  inner <- py_get balance outer (JObj []) ;;
  float_get_or0 inner "USDT".

(** [AccountBalance.from_exchange_balance] *)
Definition from_exchange_balance (balance : json) : AccountBalance :=
  match
    (total <- usdt_of balance "total" ;;
     used <- usdt_of balance "used" ;;
     free <- usdt_of balance "free" ;;
     upnl <- float_get_or0 balance "unrealizedPnl" ;;
     rpnl <- float_get_or0 balance "realizedPnl" ;;
     Ok (mkAccountBalance total used free
           (if Qltb 0 total then used / total * 100 else 0)
           upnl rpnl))
  with
  | Ok b => b
  | Raise _ => AccountBalance_default
  end.

(** [PositionInfo.from_exchange_position].  The symbol of a position is a
    string in the replies of the exchange library; a reply that holds
    another kind of value there is not represented and converts to [None]. *)
Definition from_exchange_position (pos : json) : option PositionInfo :=
  match
    (c <- py_get pos "contracts" (JNum 0) ;;
     a <- py_get pos "positionAmt" (JNum 0) ;;
     position_amt <- py_float (py_or (py_or c a) (JNum 0)) ;;
     if Qeq_bool position_amt 0 then Ok None
     else
       sd <- py_get pos "side" JNull ;;
       mm <- py_get pos "marginMode" JNull ;;
       sym <- getitem pos "symbol" ;;
       entry <- float_get_or0 pos "entryPrice" ;;
       lv <- py_get pos "leverage" (JNum 1) ;;
       lev <- py_float (py_or lv (JNum 1)) ;;
       liq <- float_get_or0 pos "liquidationPrice" ;;
       mark <- float_get_or0 pos "markPrice" ;;
       bep <- float_get_or0 pos "breakEvenPrice" ;;
       im <- float_get_or0 pos "initialMargin" ;;
       mtm <- float_get_or0 pos "maintenanceMargin" ;;
       pim <- float_get_or0 pos "positionInitialMargin" ;;
       oim <- float_get_or0 pos "openOrderInitialMargin" ;;
       iso <- float_get_or0 pos "isolatedMargin" ;;
       u1 <- py_get pos "unrealizedPnl" (JNum 0) ;;
       u2 <- py_get pos "unRealizedProfit" (JNum 0) ;;
       upnl <- py_float (py_or (py_or u1 u2) (JNum 0)) ;;
       rpnl <- float_get_or0 pos "realizedPnl" ;;
       pct <- float_get_or0 pos "percentage" ;;
       ntl <- float_get_or0 pos "notional" ;;
       col <- float_get_or0 pos "collateral" ;;
       match sym with
       | JStr symbol =>
           Ok (Some (mkPositionInfo symbol
                       (if is_str sd "long" then LONG else SHORT)
                       (Qabs position_amt) entry
                       (if is_str mm "isolated" then ISOLATED else CROSS)
                       (trunc lev) liq mark bep im mtm pim oim iso
                       upnl rpnl pct ntl col))
       | _ => Ok None
       end)
  with
  | Ok r => r
  | Raise _ => None
  end.

(** [safe_float(value, default)]: the default stands in when [float]
    raises [TypeError] or [ValueError]. *)
Definition safe_float (value : json) (default : Q) : result Q :=
  match value with
  | JNull => Ok default
  | _ =>
      match py_float value with
      | Ok q => Ok q
      | Raise e => if kind_in [TypeError; ValueError] e then Ok default else Raise e
      end
  end.

(** [safe_float(d.get(outer, {}).get('min'))] *)
Definition limit_min (limits : json) (outer : string) : result Q :=
  inner <- py_get limits outer (JObj []) ;;
  m <- py_get inner "min" JNull ;;
  safe_float m 0.

(** [safe_float(ticker.get(k)) if ticker else None] *)
Definition ticker_price (ticker : option json) (k : string) : result (option Q) :=
  match ticker with
  | None => Ok None
  | Some t =>
      if truthy t then
        v <- py_get t k JNull ;;
        q <- safe_float v 0 ;;
        Ok (Some q)
      else Ok None
  end.

(** [MarketInfo.from_exchange_market] *)
Definition from_exchange_market (market : json) (ticker : option json)
  : option MarketInfo :=
  match
    (precision <- py_get market "precision" (JObj []) ;;
     limits <- py_get market "limits" (JObj []) ;;
     sym <- getitem market "symbol" ;;
     base <- py_get market "base" (JStr "") ;;
     quote <- py_get market "quote" (JStr "") ;;
     pp <- py_get precision "price" (JNum 8) ;;
     price_prec <- py_int pp ;;
     ap <- py_get precision "amount" (JNum 8) ;;
     amount_prec <- py_int ap ;;
     mn_amount <- limit_min limits "amount" ;;
     mn_cost <- limit_min limits "cost" ;;
     mtype <- py_get market "type" (JStr "spot") ;;
     cs <- py_get market "contractSize" JNull ;;
     contract_size <- safe_float cs 1 ;;
     last <- ticker_price ticker "last" ;;
     mark <- ticker_price ticker "mark" ;;
     index <- ticker_price ticker "index" ;;
     Ok (mkMarketInfo sym base quote price_prec amount_prec mn_amount mn_cost
           mtype contract_size last mark index))
  with
  | Ok m => Some m
  | Raise _ => None
  end.

End WithParsers.
End ExchangeData.
Import ExchangeData.

(* ===================================================================== *)
(** ** [exchange_execution.py]: class ExchangeClient *)
(* ===================================================================== *)

Module ExchangeClient.

(** The keyword arguments [params] that [create_order] hands to the
    [createOrder] method of the exchange library: a dict. *)
Definition OrderRequest : Type := dict.

(** What a request holds under the keys that [create_order] writes: a
    string, a number, a flag. *)
Definition rq_str (k : string) (params : OrderRequest) : string :=
  match dict_get k params with Some (JStr s) => s | _ => "" end.

Definition rq_num (k : string) (params : OrderRequest) : option Q :=
  match dict_get k params with Some (JNum q) => Some q | _ => None end.

Definition rq_symbol : OrderRequest -> string := rq_str "symbol".
Definition rq_type : OrderRequest -> string := rq_str "type".
Definition rq_side : OrderRequest -> string := rq_str "side".
Definition rq_amount : OrderRequest -> option Q := rq_num "amount".
Definition rq_price : OrderRequest -> option Q := rq_num "price".
Definition rq_stopPrice : OrderRequest -> option Q := rq_num "stopPrice".
Definition rq_reduceOnly (params : OrderRequest) : bool :=
  match dict_get "reduceOnly" params with Some v => truthy v | None => false end.

(** The methods of the exchange library that the client calls. *)
Inductive call : Type :=
| fetchBalance
| fetchPositions (symbols : option (list string))
| market (symbol : string)
| fetchTicker (symbol : string)
| fetchMarketLeverageTiers (symbol : string)
| setMarginMode (margin_mode : json) (symbol : string)
| setLeverage (leverage : Z) (symbol : string)
| createOrder (params : OrderRequest).

(** The exchange and the wall clock.  [reply history c] is what call [c]
    returns, or raises, after the calls in [history]; [time_at n] is the
    value of the [n]-th reading of the clock. *)
Record Exchange : Type := mkExchange {
  reply : list call -> call -> result json;
  time_at : nat -> Q
}.

(** A value of [_position_cache]: a position under its symbol, the whole
    result list under ['all'].  The lists that [get_positions] returns are
    made of the same two kinds of element. *)
Inductive cached_positions : Type :=
| OnePosition (p : PositionInfo)
| PositionList (l : list PositionInfo).

(** The attributes of a client, with the history of its calls to the
    exchange and the number of clock readings made so far.  Rate limiting
    only delays calls and is left out. *)
Record Client : Type := mkClient {
  exchange_name : string;
  _exchange : Exchange;
  _market_cache : gmap string MarketInfo;
  _market_cache_time : gmap string Q;
  _balance_cache : option AccountBalance;
  _balance_cache_time : Q;
  _position_cache : gmap string cached_positions;
  _position_cache_time : gmap string Q;
  calls : list call;
  clock_reads : nat
}.

Definition CACHE_DURATION : Q := 5.

Definition set_market_entry (symbol : string) (mi : MarketInfo) (now : Q)
  (c : Client) : Client :=
  mkClient (exchange_name c) (_exchange c)
    (<[symbol := mi]> (_market_cache c)) (<[symbol := now]> (_market_cache_time c))
    (_balance_cache c) (_balance_cache_time c)
    (_position_cache c) (_position_cache_time c) (calls c) (clock_reads c).

Definition set_balance_entry (b : AccountBalance) (now : Q) (c : Client) : Client :=
  mkClient (exchange_name c) (_exchange c)
    (_market_cache c) (_market_cache_time c) (Some b) now
    (_position_cache c) (_position_cache_time c) (calls c) (clock_reads c).

Definition set_position_entry (key : string) (v : cached_positions) (now : Q)
  (c : Client) : Client :=
  mkClient (exchange_name c) (_exchange c)
    (_market_cache c) (_market_cache_time c)
    (_balance_cache c) (_balance_cache_time c)
    (<[key := v]> (_position_cache c)) (<[key := now]> (_position_cache_time c))
    (calls c) (clock_reads c).

Definition set_calls (l : list call) (c : Client) : Client :=
  mkClient (exchange_name c) (_exchange c)
    (_market_cache c) (_market_cache_time c)
    (_balance_cache c) (_balance_cache_time c)
    (_position_cache c) (_position_cache_time c) l (clock_reads c).

Definition set_clock_reads (n : nat) (c : Client) : Client :=
  mkClient (exchange_name c) (_exchange c)
    (_market_cache c) (_market_cache_time c)
    (_balance_cache c) (_balance_cache_time c)
    (_position_cache c) (_position_cache_time c) (calls c) n.

(** Methods of the client: state passing, with exceptions. *)
Definition M (A : Type) : Type := Client -> result A * Client.

Definition ret {A} (a : A) : M A := fun c => (Ok a, c).
Definition raise {A} (e : exn) : M A := fun c => (Raise e, c).
Definition bind {A B} (m : M A) (k : A -> M B) : M B :=
  fun c => match m c with
           | (Ok a, c') => k a c'
           | (Raise e, c') => (Raise e, c')
           end.
Definition lift {A} (r : result A) : M A := fun c => (r, c).
Definition get : M Client := fun c => (Ok c, c).
Definition modify (f : Client -> Client) : M unit := fun c => (Ok tt, f c).

(** [try: m  except Exception as e: h e] *)
Definition catch {A} (m : M A) (h : exn -> M A) : M A :=
  fun c => match m c with
           | (Ok a, c') => (Ok a, c')
           | (Raise e, c') => h e c'
           end.

Notation "x <~ m ;; k" := (bind m (fun x => k))
  (at level 100, m at next level, right associativity).

(** [time.time()] and [datetime.now()] *)
Definition time_time : M Q :=
  fun c => (Ok (time_at (_exchange c) (clock_reads c)),
            set_clock_reads (S (clock_reads c)) c).

(** [await asyncio.to_thread(self._exchange.<method>, ...)] *)
Definition exchange_call (cl : call) : M json :=
  fun c => (reply (_exchange c) (calls c) cl, set_calls (calls c ++ [cl]) c).

(** [for x in v]: the elements of a list, the keys of a dict, the characters
    of a string. *)
Definition py_iter (v : json) : result (list json) :=
  match v with
  | JList l => Ok l
  | JObj d => Ok (map (fun kv => JStr (fst kv)) d)
  | JStr s => Ok (map (fun ch => JStr (String ch EmptyString)) (list_ascii_of_string s))
  | _ => Raise (Exn TypeError "object is not iterable")
  end.

Record LeverageInfo : Type := mkLeverageInfo {
  max_leverage : Z;
  tiers : list json
}.

(** The integer nearest to [x]; [up] settles a tie. *)
Definition round_nearest (up : bool) (x : Q) : Z :=
  let f := Qfloor x in
  let r := x - inject_Z f in
  if Qltb r (1 # 2) then f
  else if Qltb (1 # 2) r then (f + 1)%Z
  else if up then (f + 1)%Z else f.

Definition pow10 (p : Z) : Q := inject_Z (10 ^ p).

Section WithParsers.

Variable float_of_str : string -> option Q.
Variable int_of_str : string -> option Z.
(** How [format(amount, f'.{precision}f')] settles a tie.  The numeral is
    the one nearest to the double that holds the amount.  When the
    rational [amount] lies halfway between two numerals, the double lies
    above or below it (0.0205 is held by a double above 0.0205, and is
    formatted to 0.021 with three digits), or is that very number, and then
    the even last digit is taken: [tie_rounds_up amount precision] says
    whether the upper numeral is the result. *)
Variable tie_rounds_up : Q -> Z -> bool.

(** [float(format(amount, f'.{precision}f'))]: the decimal numeral with
    [precision] digits after the point nearest to [amount]; a negative
    precision is an invalid format. *)
Definition format_fixed (amount : Q) (precision : Z) : result Q :=
  if (precision <? 0)%Z then Raise (Exn ValueError "Invalid format specifier")
  else Ok (inject_Z (round_nearest (tie_rounds_up amount precision)
                       (amount * pow10 precision))
           / pow10 precision).

Let py_float := Py.py_float float_of_str.
Let py_int := Py.py_int int_of_str.

Definition fetch_positions (symbol : option string) : M (list PositionInfo) :=
  catch
    (positions <~ exchange_call
                    (fetchPositions
                       (match symbol with
                        | Some s => if String.eqb s "" then None else Some [s]
                        | None => None
                        end)) ;;
     items <~ lift (py_iter positions) ;;
     ret (omap (from_exchange_position float_of_str) items))
    (fun _ => ret []).

Definition fetch_balance : M AccountBalance :=
  catch
    (balance <~ exchange_call fetchBalance ;;
     ret (from_exchange_balance float_of_str balance))
    (fun _ => ret AccountBalance_default).

Definition get_market_info (symbol : string) : M (option MarketInfo) :=
  catch
    (now <~ time_time ;;
     c <~ get ;;
     let fetch : M (option MarketInfo) :=
       mk <~ exchange_call (market symbol) ;;
       ticker <~ exchange_call (fetchTicker symbol) ;;
       let market_info :=
         from_exchange_market float_of_str int_of_str mk (Some ticker) in
       _ <~ match market_info with
            | Some mi => modify (set_market_entry symbol mi now)
            | None => ret tt
            end ;;
       ret market_info in
     match _market_cache c !! symbol with
     | Some mi =>
         if Qltb (now - default 0 (_market_cache_time c !! symbol)) CACHE_DURATION
         then ret (Some mi)
         else fetch
     | None => fetch
     end)
    (fun _ => ret None).

Definition get_balance : M AccountBalance :=
  catch
    (now <~ time_time ;;
     c <~ get ;;
     let fetch : M AccountBalance :=
       balance <~ exchange_call fetchBalance ;;
       let balance_info := from_exchange_balance float_of_str balance in
       _ <~ modify (set_balance_entry balance_info now) ;;
       ret balance_info in
     match _balance_cache c with
     | Some b =>
         if Qltb (now - _balance_cache_time c) CACHE_DURATION then ret b else fetch
     | None => fetch
     end)
    (fun _ => ret AccountBalance_default).

(** The loop of [get_positions] over the reply of the exchange. *)
Fixpoint collect_positions (now : Q) (items : list json) (result : list PositionInfo)
  : M (list PositionInfo) :=
  match items with
  | [] => ret result
  | pos :: rest =>
      cv <~ lift (py_get pos "contracts" (JNum 0)) ;;
      contracts <~ lift (py_float cv) ;;
      if negb (Qeq_bool contracts 0) then
        match from_exchange_position float_of_str pos with
        | Some position_info =>
            _ <~ modify (set_position_entry (pos_symbol position_info)
                           (OnePosition position_info) now) ;;
            collect_positions now rest (result ++ [position_info])
        | None => collect_positions now rest result
        end
      else collect_positions now rest result
  end.

Definition get_positions (symbol : option string) : M (list cached_positions) :=
  catch
    (now <~ time_time ;;
     let no_symbol :=
       match symbol with Some s => String.eqb s "" | None => true end in
     let cache_key :=
       match symbol with
       | Some s => if String.eqb s "" then "all" else s
       | None => "all"
       end in
     c <~ get ;;
     let fetch : M (list cached_positions) :=
       positions <~ exchange_call
                      (fetchPositions (if no_symbol then None else Some [cache_key])) ;;
       items <~ lift (py_iter positions) ;;
       result <~ collect_positions now items [] ;;
       _ <~ (if no_symbol
             then modify (set_position_entry "all" (PositionList result) now)
             else ret tt) ;;
       ret (map OnePosition result) in
     match _position_cache c !! cache_key with
     | Some cached =>
         if Qltb (now - default 0 (_position_cache_time c !! cache_key)) CACHE_DURATION
         then ret [cached]
         else fetch
     | None => fetch
     end)
    (fun _ => ret []).

(** What [get_market_leverage_info] makes of the reply to
    [fetchMarketLeverageTiers]. *)
Definition leverage_info_default : LeverageInfo := mkLeverageInfo 1 [].

Definition leverage_info_of (r : result json) : LeverageInfo :=
  match r with
  | Ok (JList (first :: rest)) =>
      match (v <- py_get first "maxLeverage" (JNum 1) ;; py_int v) with
      | Ok m => mkLeverageInfo m (first :: rest)
      | Raise _ => leverage_info_default
      end
  | _ => leverage_info_default
  end.

Definition get_market_leverage_info (symbol : string) : M LeverageInfo :=
  fun c =>
    let '(r, c') := exchange_call (fetchMarketLeverageTiers symbol) c in
    (Ok (leverage_info_of r), c').

Definition set_leverage (symbol : string) (leverage : Z) (margin_mode : json)
  : M Z :=
  leverage_info <~ get_market_leverage_info symbol ;;
  let max_lev := max_leverage leverage_info in
  let actual_leverage := Z.min leverage max_lev in
  _ <~ exchange_call (setMarginMode margin_mode symbol) ;;
  _ <~ exchange_call (setLeverage actual_leverage symbol) ;;
  ret actual_leverage.

Definition _format_price (symbol : string) (price : Q) : Q := price.

Definition _format_amount (symbol : string) (amount : Q) (c : Client) : Q :=
  match _market_cache c !! symbol with
  | Some market_info =>
      match format_fixed amount (amount_precision market_info) with
      | Ok q => q
      | Raise _ => amount
      end
  | None => amount
  end.

Definition convert_amount_to_contracts (symbol : string) (usdt_amount price : Q)
  (leverage : Z) : M (Q * ConversionInfo) :=
  market_info <~ get_market_info symbol ;;
  match market_info with
  | None => raise (Exn ValueError ("Cannot get market info for " ++ symbol))
  | Some _ =>
      leverage_info <~ get_market_leverage_info symbol ;;
      let actual_leverage := Z.min leverage (max_leverage leverage_info) in
      let notional := usdt_amount * inject_Z actual_leverage in
      quantity <~ lift (py_div notional price) ;;
      c <~ get ;;
      let formatted := _format_amount symbol quantity c in
      actual_value <~ lift (py_div (formatted * price) (inject_Z actual_leverage)) ;;
      ret (formatted,
           mkConversionInfo quantity formatted actual_value
             (formatted * price) price actual_leverage)
  end.

(** [order.leverage or 50] *)
Definition order_leverage (order : OrderParams) : Z :=
  match op_leverage order with
  | Some l => if (l =? 0)%Z then 50%Z else l
  | None => 50%Z
  end.

(** The dict [params] that [create_order] builds for an order of quantity
    [quantity]: the four keys of every order, the price of a LIMIT order
    (which is there: [create_order] has raised otherwise), the stop price
    and the reduce-only flag when they are set, and then the extra
    parameters of the order, which overwrite a key they share. *)
Definition request_of (order : OrderParams) (quantity : Q) : OrderRequest :=
  let params : dict :=
    [("symbol", JStr (op_symbol order));
     ("type", JStr (lower (op_order_type order)));
     ("side", JStr (lower (op_side order)));
     ("amount", JNum quantity)] in
  let params :=
    if String.eqb (op_order_type order) OrderType.LIMIT
    then dict_set "price"
           (JNum (_format_price (op_symbol order) (default 0 (op_price order))))
           params
    else params in
  let params :=
    if not_price (op_stop_price order) then params
    else dict_set "stopPrice"
           (JNum (_format_price (op_symbol order) (default 0 (op_stop_price order))))
           params in
  let params :=
    if op_reduce_only order then dict_set "reduceOnly" (JBool true) params
    else params in
  dict_update params (op_extra_params order).

Definition create_order (order : OrderParams) : M OrderResult :=
  if negb (validate order)
  then raise (Exn OrderException "Invalid order parameters")
  else
    market_info <~ get_market_info (op_symbol order) ;;
    match market_info with
    | None => raise (Exn ValueError ("Cannot get market info for " ++ op_symbol order))
    | Some mi =>
        match last_price mi with
        | None => raise (Exn ValueError ("Cannot get market info for " ++ op_symbol order))
        | Some last =>
            if Qeq_bool last 0
            then raise (Exn ValueError ("Cannot get market info for " ++ op_symbol order))
            else
              let is_limit := String.eqb (op_order_type order) OrderType.LIMIT in
              let use_price :=
                match op_price order with
                | Some p => if is_limit && negb (Qeq_bool p 0) then p else last
                | None => last
                end in
              let leverage := order_leverage order in
              actual_leverage <~ set_leverage (op_symbol order) leverage
                                   (op_margin_mode order) ;;
              qc <~ convert_amount_to_contracts (op_symbol order) (op_amount order)
                      use_price actual_leverage ;;
              let '(quantity, conversion_info) := qc in
              if is_limit && not_price (op_price order)
              then raise (Exn OrderException "Price is required for limit orders")
              else
                let params := request_of order quantity in
                res <~ exchange_call (createOrder params) ;;
                id <~ lift (getitem res "id") ;;
                pv <~ lift (py_get res "price" (JNum 0)) ;;
                executed <~ lift (py_float (py_or pv (JNum use_price))) ;;
                ret (mkOrderResult true (Some id) (Some executed) (Some quantity)
                       None (Some (res, conversion_info)))
        end
    end.

(** The maximum leverage that [get_market_leverage_info] reports for a
    symbol when it asks exchange [ex] after the calls [h]. *)
Definition maximum_at (ex : Exchange) (h : list call) (symbol : string) : Z :=
  max_leverage (leverage_info_of (reply ex h (fetchMarketLeverageTiers symbol))).

End WithParsers.

(** The key under which [get_positions] caches: [symbol or 'all']. *)
Definition cache_key (symbol : option string) : string :=
  match symbol with
  | Some s => if String.eqb s "" then "all" else s
  | None => "all"
  end.

(** Whether the next call finds an unexpired entry in a cache: the entry
    exists and is younger than [CACHE_DURATION] at the next clock reading. *)
Definition balance_cache_fresh (c : Client) : bool :=
  match _balance_cache c with
  | Some _ =>
      Qltb (time_at (_exchange c) (clock_reads c) - _balance_cache_time c)
        CACHE_DURATION
  | None => false
  end.

Definition position_cache_fresh (key : string) (c : Client) : bool :=
  match _position_cache c !! key with
  | Some _ =>
      Qltb (time_at (_exchange c) (clock_reads c)
            - default 0 (_position_cache_time c !! key)) CACHE_DURATION
  | None => false
  end.

End ExchangeClient.

(* ===================================================================== *)
(** ** [exchange_execution.py]: class ExchangeManager *)
(* ===================================================================== *)

Module ExchangeManager.
Import ExchangeClient.

Record Manager : Type := mkManager {
  exchanges : gmap string Client;
  active_signals : gmap string TradingSignal
}.

Definition set_client (name : string) (c : Client) (m : Manager) : Manager :=
  mkManager (<[name := c]> (exchanges m)) (active_signals m).

(** [f"{exchange_name}_{symbol}"] *)
Definition signal_key (exchange_name symbol : string) : string :=
  exchange_name ++ "_" ++ symbol.

Definition is_long (signal : TradingSignal) : bool :=
  String.eqb (action signal) "OPEN_LONG".
Definition is_short (signal : TradingSignal) : bool :=
  String.eqb (action signal) "OPEN_SHORT".

(** The order that [execute_signal] builds for one entry zone. *)
Definition zone_order (signal : TradingSignal) (zone : EntryZone) : OrderParams :=
  mkOrderParams (symbol signal)
    (if is_long signal then OrderSide.BUY else OrderSide.SELL)
    OrderType.LIMIT
    (position_size signal * zone_percentage zone)
    (Some (zone_price zone)) None false
    (Some (leverage signal)) (margin_mode signal) [].

(** The order of a signal without zones. *)
Definition single_order (signal : TradingSignal) : OrderParams :=
  mkOrderParams (symbol signal)
    (if is_long signal then OrderSide.BUY else OrderSide.SELL)
    (if not_price (entry_price signal) then OrderType.MARKET else OrderType.LIMIT)
    (position_size signal)
    (entry_price signal) None false
    (Some (leverage signal)) (margin_mode signal) [].

(** The order that closes the share of a position owed to one level. *)
Definition take_profit_order (signal : TradingSignal) (symbol : string)
  (position : PositionInfo) (tp_level : TakeProfitLevel) : OrderParams :=
  mkOrderParams symbol
    (if is_long signal then OrderSide.SELL else OrderSide.BUY)
    OrderType.MARKET
    (pos_size position * tp_percentage tp_level)
    None None true None (JStr "cross") [].

(** The order that [_execute_take_profit] builds. *)
Definition market_close_order (symbol : string) (position : PositionInfo)
  (tp_level : TakeProfitLevel) : OrderParams :=
  mkOrderParams symbol
    (match pos_side position with LONG => "SELL" | SHORT => "BUY" end)
    "MARKET" (pos_size position * tp_percentage tp_level)
    None None true None (JStr "cross") [].

Definition mark_placed (id : option json) (zone : EntryZone) : EntryZone :=
  mkEntryZone (zone_price zone) (zone_percentage zone) "PLACED" id.

Definition mark_hit (now : Q) (tp_level : TakeProfitLevel) : TakeProfitLevel :=
  mkTakeProfitLevel (tp_price tp_level) (tp_percentage tp_level) true (Some now).

(** [is_hit] as computed in the loop of [_check_take_profit_levels]. *)
Definition triggered (signal : TradingSignal) (current_price : Q)
  (tp_level : TakeProfitLevel) : bool :=
  (is_long signal && Qle_bool (tp_price tp_level) current_price)
  || (is_short signal && Qle_bool current_price (tp_price tp_level)).

Section WithParsers.

Variable float_of_str : string -> option Q.
Variable int_of_str : string -> option Z.
Variable tie_rounds_up : Q -> Z -> bool.

Let create_order :=
  ExchangeClient.create_order float_of_str int_of_str tie_rounds_up.
Let get_market_info := ExchangeClient.get_market_info float_of_str int_of_str.
Let client_get_positions := ExchangeClient.get_positions float_of_str.

(** The loop of [execute_signal] over the zones.  The zones are objects of
    the signal and are updated in place, so the zones reached so far are
    returned also when an order raises. *)
Fixpoint place_zone_orders (signal : TradingSignal) (zones : list EntryZone)
  (c : Client) : result (list OrderResult) * list EntryZone * Client :=
  match zones with
  | [] => (Ok [], [], c)
  | zone :: rest =>
      match create_order (zone_order signal zone) c with
      | (Raise e, c1) => (Raise e, zone :: rest, c1)
      | (Ok res, c1) =>
          let zone' := if success res then mark_placed (order_id res) zone else zone in
          let '(r, rest', c2) := place_zone_orders signal rest c1 in
          (results <- r ;; Ok (res :: results), zone' :: rest', c2)
      end
  end.

Definition execute_signal (signal : TradingSignal) (m : Manager)
  : OrderResult * TradingSignal * Manager :=
  match exchanges m !! exchange signal with
  | None =>
      (failed ("Exchange " ++ exchange signal ++ " not configured"), signal, m)
  | Some c =>
      match entry_zones signal with
      | _ :: _ =>
          let '(r, zones', c') := place_zone_orders signal (entry_zones signal) c in
          let signal' := set_entry_zones zones' signal in
          let m' := set_client (exchange signal) c' m in
          match r with
          | Ok (first :: _) => (first, signal', m')
          | Ok [] => (failed "No orders created", signal', m')
          | Raise e => (failed (exn_str e), signal', m')
          end
      | [] =>
          match create_order (single_order signal) c with
          | (Ok res, c') => (res, signal, set_client (exchange signal) c' m)
          | (Raise e, c') =>
              (failed (exn_str e), signal, set_client (exchange signal) c' m)
          end
      end
  end.

(** The loop of [_check_take_profit_levels] over the levels of the signal,
    from the level of index [i] on.  Besides the levels as the loop leaves
    them, the function returns the record of the orders it asked for: the
    index of the level and what [create_order] returned or raised. *)
Fixpoint check_levels (signal : TradingSignal) (symbol : string)
  (position : PositionInfo) (current_price : Q) (i : nat)
  (levels : list TakeProfitLevel) (c : Client)
  : result unit * list TakeProfitLevel * list (nat * result OrderResult) * Client :=
  match levels with
  | [] => (Ok tt, [], [], c)
  | tp_level :: rest =>
      if is_hit tp_level then
        let '(r, rest', log, c') :=
          check_levels signal symbol position current_price (S i) rest c in
        (r, tp_level :: rest', log, c')
      else if triggered signal current_price tp_level then
        match create_order (take_profit_order signal symbol position tp_level) c with
        | (Raise e, c1) => (Raise e, tp_level :: rest, [(i, Raise e)], c1)
        | (Ok res, c1) =>
            let '(tp_level', c2) :=
              if success res then
                (mark_hit (time_at (_exchange c1) (clock_reads c1)) tp_level,
                 set_clock_reads (S (clock_reads c1)) c1)
              else (tp_level, c1) in
            let '(r, rest', log, c3) :=
              check_levels signal symbol position current_price (S i) rest c2 in
            (r, tp_level' :: rest', (i, Ok res) :: log, c3)
        end
      else
        let '(r, rest', log, c') :=
          check_levels signal symbol position current_price (S i) rest c in
        (r, tp_level :: rest', log, c')
  end.

(** One take-profit check of a position.  The second component is the
    record of the orders asked for during the check. *)
Definition _check_take_profit_levels (exchange_name symbol : string)
  (position : PositionInfo) (m : Manager)
  : Manager * list (nat * result OrderResult) :=
  match exchanges m !! exchange_name with
  | None => (m, [])
  | Some c =>
      match active_signals m !! signal_key exchange_name symbol with
      | None => (m, [])
      | Some signal =>
          match take_profit_levels signal with
          | [] => (m, [])
          | _ :: _ =>
              match get_market_info symbol c with
              | (Ok (Some market_info), c1) =>
                  if not_price (last_price market_info)
                  then (set_client exchange_name c1 m, [])
                  else
                    let current_price := default 0 (last_price market_info) in
                    let '(_, levels', log, c2) :=
                      check_levels signal symbol position current_price 0
                        (take_profit_levels signal) c1 in
                    (mkManager (<[exchange_name := c2]> (exchanges m))
                       (<[signal_key exchange_name symbol :=
                            set_take_profit_levels levels' signal]>
                          (active_signals m)),
                     log)
              | (_, c1) => (set_client exchange_name c1 m, [])
              end
          end
      end
  end.

(** [_execute_take_profit]: the level is returned as the call leaves it. *)
Definition _execute_take_profit (exchange_name symbol : string)
  (position : PositionInfo) (tp_level : TakeProfitLevel) (m : Manager)
  : TakeProfitLevel * Manager :=
  match exchanges m !! exchange_name with
  | None => (tp_level, m)
  | Some c =>
      match create_order (market_close_order symbol position tp_level) c with
      | (Ok res, c1) =>
          if success res then
            (mark_hit (time_at (_exchange c1) (clock_reads c1)) tp_level,
             set_client exchange_name (set_clock_reads (S (clock_reads c1)) c1) m)
          else (tp_level, set_client exchange_name c1 m)
      | (Raise _, c1) => (tp_level, set_client exchange_name c1 m)
      end
  end.

(** The stop or take-profit order of [modify_position]. *)
Definition protective_order (symbol order_type : string) (position : PositionInfo)
  (stop_price : option Q) : OrderParams :=
  mkOrderParams symbol
    (match pos_side position with SHORT => OrderSide.BUY | LONG => OrderSide.SELL end)
    order_type (pos_size position) None stop_price true None (JStr "cross") [].

(** [position = positions[0]]: its attributes are read only when an order
    is built; the element may be a list (see [get_positions]). *)
Definition as_position (entry : cached_positions) : result PositionInfo :=
  match entry with
  | OnePosition p => Ok p
  | PositionList _ => Raise (Exn AttributeError "'list' object has no attribute 'side'")
  end.

Definition modify_position_body (symbol : string) (stop_loss take_profit : option Q)
  : M bool :=
  positions <~ client_get_positions (Some symbol) ;;
  match positions with
  | [] => ret false
  | first :: _ =>
      s1 <~ (if not_price stop_loss then ret true
             else
               position <~ lift (as_position first) ;;
               res <~ create_order
                        (protective_order symbol OrderType.STOP_MARKET position stop_loss) ;;
               ret (success res)) ;;
      if not_price take_profit then ret s1
      else
        position <~ lift (as_position first) ;;
        res <~ create_order
                 (protective_order symbol OrderType.TAKE_PROFIT_MARKET position
                    take_profit) ;;
        ret (s1 && success res)
  end.

Definition modify_position (exchange symbol : string)
  (stop_loss take_profit : option Q) (m : Manager) : bool * Manager :=
  match exchanges m !! exchange with
  | None => (false, m)
  | Some c =>
      match modify_position_body symbol stop_loss take_profit c with
      | (Ok b, c') => (b, set_client exchange c' m)
      | (Raise _, c') => (false, set_client exchange c' m)
      end
  end.

Definition _check_dynamic_stop_loss (exchange_name symbol : string)
  (position : PositionInfo) (m : Manager) : Manager :=
  if Qeq_bool (pos_size position) 0 then m
  else
    match active_signals m !! signal_key exchange_name symbol with
    | None => m
    | Some signal =>
        if negb (dynamic_sl signal) then m
        else
          match exchanges m !! exchange_name with
          | None => m
          | Some c =>
              match get_market_info symbol c with
              | (Ok (Some market_info), c1) =>
                  let m1 := set_client exchange_name c1 m in
                  if not_price (last_price market_info) then m1
                  else
                    let current_price := default 0 (last_price market_info) in
                    let entry_price := pos_entry_price position in
                    if is_long signal then
                      if Qltb entry_price current_price then
                        let profit_distance := current_price - entry_price in
                        let new_sl := entry_price + profit_distance * (1 # 2) in
                        match stop_loss signal with
                        | None => m1          (* TypeError, caught *)
                        | Some sl =>
                            if Qltb sl new_sl
                            then snd (modify_position exchange_name symbol
                                        (Some new_sl) None m1)
                            else m1
                        end
                      else m1
                    else
                      if Qltb current_price entry_price then
                        let profit_distance := entry_price - current_price in
                        let new_sl := entry_price - profit_distance * (1 # 2) in
                        match stop_loss signal with
                        | None => m1
                        | Some sl =>
                            if Qltb new_sl sl
                            then snd (modify_position exchange_name symbol
                                        (Some new_sl) None m1)
                            else m1
                        end
                      else m1
              | (_, c1) => set_client exchange_name c1 m
              end
          end
    end.

(** The stop prices of the stop orders sent to the exchange, oldest first. *)
Definition stops_sent (c : Client) : list Q :=
  omap (fun cl =>
          match cl with
          | createOrder params =>
              if String.eqb (rq_type params) "stop_market"
              then option_map Qred (rq_stopPrice params) else None
          | _ => None
          end) (calls c).

(** The requests for orders sent to the exchange, oldest first. *)
Definition orders_sent (c : Client) : list OrderRequest :=
  omap (fun cl => match cl with createOrder params => Some params | _ => None end)
    (calls c).







(** The entry of one exchange in the dict that [get_account_overview]
    returns (the second definition of the method in the class, which is
    the one in force). *)
Record Overview : Type := mkOverview {
  ov_total_equity : Q;
  ov_used_margin : Q;
  ov_available_margin : Q;
  ov_margin_ratio : Q;
  ov_unrealized_pnl : Q;
  ov_realized_pnl : Q;
  ov_account_health : string;
  ov_total_positions : nat;
  ov_last_update : Q
}.

Definition account_health (margin_ratio : Q) : string :=
  if Qltb 80 margin_ratio then "CRITICAL"
  else if Qltb 60 margin_ratio then "WARNING"
  else "HEALTHY".

(** The body of the loop of [get_account_overview] for one exchange. *)
Definition exchange_overview : M Overview :=
  balance <~ ExchangeClient.fetch_balance float_of_str ;;
  positions <~ ExchangeClient.fetch_positions float_of_str None ;;
  now <~ time_time ;;
  ret (mkOverview (total_equity balance) (used_margin balance)
         (free_margin balance) (margin_ratio balance)
         (unrealized_pnl balance) (realized_pnl balance)
         (account_health (margin_ratio balance))
         (length positions) now).

(** Every exchange is visited once and a visit touches its own client
    only, so the visits are independent of their order; an exchange whose
    visit raises gets no entry. *)
Definition get_account_overview (m : Manager) : gmap string Overview * Manager :=
  (omap (fun c => match fst (exchange_overview c) with
                  | Ok o => Some o
                  | Raise _ => None
                  end) (exchanges m),
   mkManager (fmap (fun c => snd (exchange_overview c)) (exchanges m))
     (active_signals m)).

(** The body of the inner loop of [monitor_positions] for one position.
    The class defines no method [_update_position_stats]: looking it up
    raises [AttributeError]. *)
Definition monitor_position (exchange_name : string) (position : PositionInfo)
  (m : Manager) : result unit * Manager :=
  if Qeq_bool (pos_size position) 0 then (Ok tt, m)
  else
    let m1 :=
      _check_dynamic_stop_loss exchange_name (pos_symbol position) position m in
    let m2 :=
      fst (_check_take_profit_levels exchange_name (pos_symbol position) position m1) in
    (Raise (Exn AttributeError
              "'ExchangeManager' object has no attribute '_update_position_stats'"),
     m2).

Fixpoint monitor_loop (exchange_name : string) (positions : list PositionInfo)
  (m : Manager) : result unit * Manager :=
  match positions with
  | [] => (Ok tt, m)
  | position :: rest =>
      match monitor_position exchange_name position m with
      | (Ok _, m') => monitor_loop exchange_name rest m'
      | (Raise e, m') => (Raise e, m')
      end
  end.

(** One turn of the loop of [monitor_positions] over the exchanges: the
    positions are fetched and monitored; an exception ends the turn. *)
Definition monitor_exchange (exchange_name : string) (m : Manager) : Manager :=
  match exchanges m !! exchange_name with
  | None => m
  | Some c =>
      match ExchangeClient.fetch_positions float_of_str None c with
      | (Ok positions, c1) =>
          snd (monitor_loop exchange_name positions (set_client exchange_name c1 m))
      | (Raise _, c1) => set_client exchange_name c1 m
      end
  end.

End WithParsers.
End ExchangeManager.

Import ExchangeClient ExchangeManager.

(* ===================================================================== *)
(** ** Concrete inputs *)
(* ===================================================================== *)

(** The concrete inputs of this development hold no numeral written as a
    string, so the parsers of numerals are never consulted on them. *)
Definition no_float : string -> option Q := fun _ => None.
Definition no_int : string -> option Z := fun _ => None.

(** Nor is any quantity sized on them halfway between two numerals of the
    amount precision, so the way a tie is settled is never consulted. *)
Definition no_tie : Q -> Z -> bool := fun _ _ => false.

(** A long signal with entry 100 and stop 98 and no take-profit level. *)
Definition long_100_98 : TradingSignal :=
  mkTradingSignal "BINANCE" "BTCUSDT" "OPEN_LONG" (Some 100) [] [] (Some 98)
    50 10 (JStr "cross") (8 # 10) (JStr "MEDIUM") false "".

(** A candidate whose reward is 12 and whose risk is 10, and the signal
    that the pipeline makes of it. *)
Definition candidate_rr_1_2 : dict :=
  [("exchange", JStr "BINANCE"); ("symbol", JStr "BTCUSDT");
   ("action", JStr "OPEN_LONG"); ("entry_price", JNum 100);
   ("stop_loss", JNum 90);
   ("take_profit_levels",
    JList [JObj [("price", JNum 112); ("percentage", JNum 1)]])].

Definition signal_rr_1_2 : TradingSignal :=
  mkTradingSignal "BINANCE" "BTCUSDT" "OPEN_LONG" (Some 100) []
    [new_tp 112 1] (Some 90) 50 10 (JStr "cross") (8 # 10) (JStr "MEDIUM")
    false "".


Definition signal_zones : TradingSignal :=
  mkTradingSignal "BINANCE" "BTCUSDT" "OPEN_LONG" None
    [new_zone 100 (5 # 10); new_zone 99 (3 # 10)]
    [new_tp 110 1] (Some 95) 50 10 (JStr "cross") (8 # 10) (JStr "MEDIUM")
    false "".

Definition has_order (h : list call) : bool :=
  existsb (fun cl => match cl with createOrder _ => true | _ => false end) h.

(** An exchange that lists BTCUSDT with three decimals of amount precision
    and a maximum leverage of 100, holds one long position of size 1
    entered at 100, accepts every order, and quotes 106 until the first
    order has been sent and 104 afterwards. *)
Definition demo_reply (h : list call) (cl : call) : result json :=
  match cl with
  | market s =>
      Ok (JObj [("symbol", JStr s);
                ("precision", JObj [("amount", JNum 3); ("price", JNum 2)])])
  | fetchTicker _ => Ok (JObj [("last", JNum (if has_order h then 104 else 106))])
  | fetchMarketLeverageTiers _ => Ok (JList [JObj [("maxLeverage", JNum 100)]])
  | fetchPositions _ =>
      Ok (JList [JObj [("symbol", JStr "BTCUSDT"); ("contracts", JNum 1);
                       ("side", JStr "long"); ("entryPrice", JNum 100)]])
  | createOrder _ => Ok (JObj [("id", JStr "1")])
  | _ => Ok JNull
  end.

(** The clock advances by ten seconds per reading: no cache entry is ever
    fresh. *)
Definition demo_exchange : Exchange :=
  mkExchange demo_reply (fun n => inject_Z (10 * Z.of_nat n)).

Definition demo_client : Client :=
  mkClient "BINANCE" demo_exchange ∅ ∅ None 0 ∅ ∅ [] 0.

(** The same exchange under a clock that stands still: every cache entry
    stays fresh. *)
Definition still_client : Client :=
  mkClient "BINANCE" (mkExchange demo_reply (fun _ => 0)) ∅ ∅ None 0 ∅ ∅ [] 0.

(** An exchange that cannot be reached. *)
Definition down_client : Client :=
  mkClient "BINANCE"
    (mkExchange (fun _ _ => Raise (Exn ExchangeError "network down")) (fun _ => 0))
    ∅ ∅ None 0 ∅ ∅ [] 0.

Definition demo_position : PositionInfo :=
  mkPositionInfo "BTCUSDT" LONG 1 100 CROSS 1 0 0 0 0 0 0 0 0 0 0 0 0 0.


Definition sizing_100 : result (Q * ConversionInfo) * Client :=
  convert_amount_to_contracts no_float no_int no_tie "BTCUSDT" 100 50000 10 demo_client.


Definition sizing_100_info : ConversionInfo :=
  Eval vm_compute in
    match fst sizing_100 with
    | Ok (_, info) => info
    | Raise _ => mkConversionInfo 0 0 0 0 0 0
    end.

(** A LIMIT order that asks for a leverage of 125. *)
Definition order_125 : OrderParams :=
  mkOrderParams "BTCUSDT" "buy" "LIMIT" 100 (Some 50000) None false
    (Some 125%Z) (JStr "cross") [].

Definition order_125_result : OrderResult :=
  Eval vm_compute in
    match fst (create_order no_float no_int no_tie order_125 demo_client) with
    | Ok res => res
    | Raise e => failed (exn_str e)
    end.


(** A long signal on the demo exchange with dynamic stop-loss: entry 100,
    stop 98, one target at 110. *)
Definition trailing_signal : TradingSignal :=
  mkTradingSignal "BINANCE" "BTCUSDT" "OPEN_LONG" (Some 100) [] [new_tp 110 1]
    (Some 98) 50 10 (JStr "cross") (8 # 10) (JStr "MEDIUM") true "".

Definition trailing_manager : Manager :=
  mkManager {[ "BINANCE" := demo_client ]} {[ "BINANCE_BTCUSDT" := trailing_signal ]}.

(** One dynamic stop-loss check of the open position. *)
Definition trailing_pass (m : Manager) : Manager :=
  _check_dynamic_stop_loss no_float no_int no_tie "BINANCE" "BTCUSDT" demo_position m.

(** The demo exchange, except that it rejects an order at one limit price. *)
Definition rejecting_reply (bad_price : Q) (h : list call) (cl : call)
  : result json :=
  match cl with
  | createOrder params =>
      match rq_price params with
      | Some p =>
          if Qeq_bool p bad_price
          then Raise (Exn ExchangeError "Insufficient margin")
          else demo_reply h cl
      | None => demo_reply h cl
      end
  | _ => demo_reply h cl
  end.

Definition rejecting_manager (bad_price : Q) : Manager :=
  mkManager
    {[ "BINANCE" :=
         mkClient "BINANCE"
           (mkExchange (rejecting_reply bad_price) (fun n => inject_Z (10 * Z.of_nat n)))
           ∅ ∅ None 0 ∅ ∅ [] 0 ]}
    ∅.

(** A signal with two entry zones, at 100 and at 99, half the size each. *)
Definition two_zone_signal : TradingSignal :=
  mkTradingSignal "BINANCE" "BTCUSDT" "OPEN_LONG" None
    [new_zone 100 (1 # 2); new_zone 99 (1 # 2)] [new_tp 110 1]
    (Some 95) 50 10 (JStr "cross") (8 # 10) (JStr "MEDIUM") false "".

(** What [execute_signal] leaves behind: the result, the status of the
    zones, and the limit prices of the orders that reached the exchange. *)
Definition execution_summary (bad_price : Q)
  : OrderResult * list string * option (list (option Q)) :=
  let '(res, signal', m') :=
    execute_signal no_float no_int no_tie two_zone_signal (rejecting_manager bad_price) in
  (res, map zone_status (entry_zones signal'),
   option_map (fun c => map rq_price (orders_sent c)) (exchanges m' !! "BINANCE")).

(** A long signal whose first target, at 105, is already hit and whose
    second target, at 106, is not. *)
Definition ladder_signal : TradingSignal :=
  mkTradingSignal "BINANCE" "BTCUSDT" "OPEN_LONG" (Some 100) []
    [mkTakeProfitLevel 105 (1 # 2) true (Some 0); new_tp 106 (1 # 2)]
    (Some 98) 50 10 (JStr "cross") (8 # 10) (JStr "MEDIUM") false "".

Definition ladder_manager : Manager :=
  mkManager {[ "BINANCE" := demo_client ]} {[ "BINANCE_BTCUSDT" := ladder_signal ]}.

(** One take-profit check of the open position. *)
Definition ladder_pass (m : Manager) : Manager * list (nat * result OrderResult) :=
  _check_take_profit_levels no_float no_int no_tie "BINANCE" "BTCUSDT" demo_position m.

(** The [is_hit] flags of the signal and the number of orders sent. *)
Definition ladder_state (m : Manager) : option (list bool) * option nat :=
  (option_map (fun s => map is_hit (take_profit_levels s))
     (active_signals m !! "BINANCE_BTCUSDT"),
   option_map (fun c => length (orders_sent c)) (exchanges m !! "BINANCE")).

(** Calls that only read from the exchange, and calls that are not orders. *)
Definition is_query (cl : call) : bool :=
  match cl with
  | fetchBalance | fetchPositions _ | market _ | fetchTicker _
  | fetchMarketLeverageTiers _ => true
  | _ => false
  end.

Definition not_order (cl : call) : bool :=
  match cl with createOrder _ => false | _ => true end.

(** A method run from state [c] talks to the same exchange afterwards and
    only adds calls that satisfy [P] to the history. *)
Definition adds (P : call -> bool) {A : Type} (m : M A) : Prop :=
  forall c : Client,
    _exchange (snd (m c)) = _exchange c
    /\ exists ext, calls (snd (m c)) = (calls c ++ ext)%list /\ forallb P ext = true.

Definition market_cache_fresh (symbol : string) (c : Client) : bool :=
  match _market_cache c !! symbol with
  | Some _ =>
      Qltb (time_at (_exchange c) (clock_reads c)
            - default 0 (_market_cache_time c !! symbol)) CACHE_DURATION
  | None => false
  end.

(** The market information that the demo exchange yields for BTCUSDT, and
    the balance it yields. *)
Definition demo_market : MarketInfo :=
  Eval vm_compute in
    match fst (get_market_info no_float no_int "BTCUSDT" still_client) with
    | Ok (Some mi) => mi
    | _ => mkMarketInfo JNull JNull JNull 0 0 0 0 JNull 0 None None None
    end.

Definition demo_balance : AccountBalance :=
  Eval vm_compute in from_exchange_balance no_float JNull.

(** [[symbol] if symbol else None], the argument of [fetchPositions]. *)
Definition positions_query (symbol : option string) : option (list string) :=
  match symbol with
  | Some s => if String.eqb s "" then None else Some [s]
  | None => None
  end.

(** The positions of [l] that are held in symbol [s]. *)
Definition held_in (s : string) (l : list PositionInfo) : list PositionInfo :=
  List.filter (fun p => String.eqb (pos_symbol p) s) l.

(** An account in hedge mode, under the clock that stands still: a long and
    a short position in BTCUSDT. *)
Definition hedged_client : Client :=
  mkClient "BINANCE"
    (mkExchange
       (fun _ cl =>
          match cl with
          | fetchPositions _ =>
              Ok (JList [JObj [("symbol", JStr "BTCUSDT"); ("contracts", JNum 1);
                               ("side", JStr "long"); ("entryPrice", JNum 100)];
                         JObj [("symbol", JStr "BTCUSDT"); ("contracts", JNum 2);
                               ("side", JStr "short"); ("entryPrice", JNum 110)]])
          | _ => Ok JNull
          end)
       (fun _ => 0))
    ∅ ∅ None 0 ∅ ∅ [] 0.

Definition hedged_short : PositionInfo :=
  mkPositionInfo "BTCUSDT" SHORT 2 110 CROSS 1 0 0 0 0 0 0 0 0 0 0 0 0 0.






(** A candidate whose two take-profit percentages cancel. *)
Definition candidate_zero_sum : dict :=
  [("exchange", JStr "BINANCE"); ("symbol", JStr "BTCUSDT");
   ("action", JStr "OPEN_LONG"); ("entry_price", JNum 100);
   ("stop_loss", JNum 90);
   ("take_profit_levels",
    JList [JObj [("price", JNum 110); ("percentage", JNum (5 # 10))];
           JObj [("price", JNum 120); ("percentage", JNum (- (5 # 10)))]])].

(** The price that [create_order] sizes an order with, given the last
    price of the market: the price of a LIMIT order, else the last price. *)
Definition use_price (order : OrderParams) (last : Q) : Q :=
  match op_price order with
  | Some p =>
      if String.eqb (op_order_type order) OrderType.LIMIT && negb (Qeq_bool p 0)
      then p else last
  | None => last
  end.

Definition hedged_manager : Manager := mkManager {[ "BINANCE" := hedged_client ]} ∅.
Definition down_manager : Manager := mkManager {[ "BINANCE" := down_client ]} ∅.


(* ===================================================================== *)
(** ** Default take-profit ladder *)
(* ===================================================================== *)

Lemma entry_reference_of_price (signal : TradingSignal) (e : Q) :
  entry_price signal = Some e -> ~ e == 0 ->
  TradingLogic.entry_reference signal = Some e.
Proof.
  intros He Hz. unfold TradingLogic.entry_reference. rewrite He.
  destruct (Qeq_bool e 0) eqn:E.
  - apply Qeq_bool_iff in E. contradiction.
  - destruct (entry_zones signal); reflexivity.
Qed.

(** C9.  For a signal whose entry price is [e] (the entry reference that
    the code computes: the entry price, or the mean of the zone prices when
    the price is absent) and whose stop-loss is [s], with [d = |e - s|], the
    default take-profit computation returns exactly three levels: at
    [e+2d], [e+3d], [e+4d] for OPEN_LONG and at [e-2d], [e-3d], [e-4d] for
    OPEN_SHORT, with percentages 0.4, 0.3, 0.3 in that order, none of them
    hit. *)
Theorem default_take_profits_ladder (signal : TradingSignal) (e s : Q) :
  TradingLogic.entry_reference signal = Some e ->
  stop_loss signal = Some s ->
  (action signal = "OPEN_LONG" ->
   TradingLogic._calculate_default_take_profits signal =
     [new_tp (e + Qabs (e - s) * 2) (4 # 10);
      new_tp (e + Qabs (e - s) * 3) (3 # 10);
      new_tp (e + Qabs (e - s) * 4) (3 # 10)])
  /\ (action signal = "OPEN_SHORT" ->
      TradingLogic._calculate_default_take_profits signal =
        [new_tp (e - Qabs (e - s) * 2) (4 # 10);
         new_tp (e - Qabs (e - s) * 3) (3 # 10);
         new_tp (e - Qabs (e - s) * 4) (3 # 10)]).
Proof.
  intros He Hs. unfold TradingLogic._calculate_default_take_profits.
  rewrite He, Hs. split; intros Ha; rewrite Ha; reflexivity.
Qed.

(** Entry 100 and stop 98: targets 104, 106 and 108 with 40%, 30%, 30%. *)
Lemma default_take_profits_ladder_witness :
  TradingLogic.entry_reference long_100_98 = Some 100
  /\ stop_loss long_100_98 = Some 98
  /\ action long_100_98 = "OPEN_LONG"
  /\ map (fun tp => (Qred (tp_price tp), tp_percentage tp))
       (TradingLogic._calculate_default_take_profits long_100_98)
     = [(104, 4 # 10); (106, 3 # 10); (108, 3 # 10)].
Proof.
  split; [reflexivity|]. split; [reflexivity|]. split; [reflexivity|].
  rewrite (proj1 (default_take_profits_ladder long_100_98 100 98
                    eq_refl eq_refl) eq_refl).
  reflexivity.
Defined.

(* ===================================================================== *)
(** ** The risk/reward gate of the pipeline *)
(* ===================================================================== *)

(** C1.  The pipeline returns a signal for a candidate whose reward/risk
    ratio is 1.2: [process_message] sets [risk_ratio_valid] to [True] and
    never calls [_validate_risk_ratio], which rejects this very signal, as
    does the sibling path [_validate_and_complete_signal]. *)
Theorem process_message_skips_risk_ratio :
  TradingLogic.process_message no_float no_int false sumQ (Some candidate_rr_1_2)
    = Some signal_rr_1_2
  /\ TradingLogic.calculate_risk_reward_ratio signal_rr_1_2 == 12 # 10
  /\ TradingLogic._validate_risk_ratio signal_rr_1_2 = false
  /\ TradingLogic._validate_and_complete_signal signal_rr_1_2 = None.
Proof. repeat split. Qed.

(* ===================================================================== *)
(** ** Normalisation of percentages *)
(* ===================================================================== *)



Section NormalizerFacts.

Variable float_of_str : string -> option Q.
Variable int_of_str : string -> option Z.
Variable dynamic_sl_default : bool.
Variable float_sum : list Q -> Q.






Lemma build_signal_fields (data : dict) (ep : option Q) (zones : list EntryZone)
  (tps : list TakeProfitLevel) (sl : option Q) (signal : TradingSignal) :
  TradingLogic.build_signal float_of_str int_of_str dynamic_sl_default
    data ep zones tps sl = Ok signal ->
  entry_price signal = ep /\ entry_zones signal = zones
  /\ take_profit_levels signal = tps /\ stop_loss signal = sl.
Proof.
  unfold TradingLogic.build_signal, rbind. intros H.
  repeat match type of H with
         | match ?x with _ => _ end = _ => destruct x; [|discriminate]
         end.
  injection H as <-. repeat split.
Qed.


(** What [process_message] returns is what the conversion made of the
    validated and normalised candidate. *)
Lemma process_message_convert (d : dict) (signal : TradingSignal) :
  TradingLogic.process_message float_of_str int_of_str dynamic_sl_default float_sum (Some d)
    = Some signal ->
  TradingLogic._convert_to_trading_signal float_of_str int_of_str
    dynamic_sl_default float_sum (TradingLogic._normalize_numbers float_of_str d)
    = Some signal.
Proof.
  unfold TradingLogic.process_message.
  destruct (truthy (JObj d)); [|discriminate].
  destruct (TradingLogic._validate_json_data float_of_str d); [|discriminate].
  destruct (TradingLogic._convert_to_trading_signal _ _ _ _) as [s|]; [|discriminate].
  destruct (is_valid s); [|discriminate].
  intros H. exact H.
Qed.


End NormalizerFacts.



(* ===================================================================== *)
(** ** The exchange client *)
(* ===================================================================== *)

Lemma Qltb_true (a b : Q) : Qltb a b = true <-> a < b.
Proof.
  unfold Qltb. rewrite negb_true_iff. split.
  - intros H. apply Qnot_le_lt. intros Hle. apply Qle_bool_iff in Hle. congruence.
  - intros H. destruct (Qle_bool b a) eqn:E; [|reflexivity].
    apply Qle_bool_iff in E. exfalso. exact (Qlt_not_le _ _ H E).
Qed.

Lemma Qltb_false (a b : Q) : Qltb a b = false <-> b <= a.
Proof.
  unfold Qltb. rewrite negb_false_iff. apply Qle_bool_iff.
Qed.




Section ClientFacts.

Variable float_of_str : string -> option Q.
Variable int_of_str : string -> option Z.
Variable tie_rounds_up : Q -> Z -> bool.

(** [get_market_info] never raises, talks to the same exchange afterwards,
    only adds to the history of calls, and leaves the market information
    that it returns in the cache. *)
Lemma get_market_info_spec (symbol : string) (c : Client) :
  exists (r : option MarketInfo) (c1 : Client),
    get_market_info float_of_str int_of_str symbol c = (Ok r, c1)
    /\ _exchange c1 = _exchange c
    /\ (exists ext, calls c1 = (calls c ++ ext)%list)
    /\ (forall mi, r = Some mi -> _market_cache c1 !! symbol = Some mi).
Proof.
  unfold get_market_info, catch, bind at 1 2, time_time, get. simpl.
  match goal with
  | |- context [bind ?m ?k] => set (fetch := bind m k)
  end.
  assert (Hfetch : forall c0,
             exists r c1,
               (let (r0, c') := fetch c0 in
                match r0 with
                | Ok a => (Ok a, c')
                | Raise _ => ret None c'
                end) = (Ok r, c1)
               /\ _exchange c1 = _exchange c0
               /\ (exists ext, calls c1 = (calls c0 ++ ext)%list)
               /\ (forall mi, r = Some mi -> _market_cache c1 !! symbol = Some mi)).
  { intros c0. subst fetch. unfold bind, exchange_call, ret, modify. simpl.
    destruct (reply (_exchange c0) (calls c0) (market symbol)) as [mk|e].
    - destruct (reply (_exchange c0) _ (fetchTicker symbol)) as [ticker|e].
      + destruct (from_exchange_market _ _ mk (Some ticker)) as [mi|].
        * eexists _, _. split; [reflexivity|]. split; [reflexivity|].
          split; [simpl; rewrite <- app_assoc; eauto|].
          intros mi' [= <-]. simpl. apply lookup_insert_eq.
        * eexists _, _. split; [reflexivity|]. split; [reflexivity|].
          split; [simpl; rewrite <- app_assoc; eauto|]. discriminate.
      + eexists _, _. split; [reflexivity|]. split; [reflexivity|].
        split; [simpl; rewrite <- app_assoc; eauto|]. discriminate.
    - eexists _, _. split; [reflexivity|]. split; [reflexivity|].
      split; [simpl; eauto|]. discriminate. }
  destruct (_market_cache c !! symbol) as [mi|] eqn:Ec.
  - destruct (Qltb _ CACHE_DURATION).
    + eexists _, _. split; [reflexivity|]. split; [reflexivity|].
      split; [exists []; simpl; rewrite app_nil_r; reflexivity|].
      intros mi' [= <-]. simpl. exact Ec.
    + destruct (Hfetch (set_clock_reads (S (clock_reads c)) c))
        as (r & c1 & H1 & H2 & H3 & H4).
      exists r, c1. auto.
  - destruct (Hfetch (set_clock_reads (S (clock_reads c)) c))
      as (r & c1 & H1 & H2 & H3 & H4).
    exists r, c1. auto.
Qed.

Lemma set_leverage_spec (symbol : string) (leverage : Z) (margin_mode : json)
  (c : Client) (v : Z) (c' : Client) :
  set_leverage int_of_str symbol leverage margin_mode c = (Ok v, c') ->
  v = Z.min leverage (maximum_at int_of_str (_exchange c) (calls c) symbol)
  /\ _exchange c' = _exchange c
  /\ In (setLeverage v symbol) (calls c').
Proof.
  unfold set_leverage, get_market_leverage_info, bind, exchange_call, ret, maximum_at.
  simpl.
  destruct (reply (_exchange c) _ (setMarginMode margin_mode symbol)); [|discriminate].
  simpl.
  destruct (reply (_exchange c) _ (setLeverage _ symbol)); [|discriminate].
  intros [= <- <-]. split; [reflexivity|]. split; [reflexivity|].
  simpl. apply in_or_app. right. left. reflexivity.
Qed.

Lemma convert_spec (symbol : string) (usdt_amount price : Q) (leverage : Z)
  (c : Client) (fq : Q) (info : ConversionInfo) (c' : Client) :
  convert_amount_to_contracts float_of_str int_of_str tie_rounds_up
    symbol usdt_amount price
    leverage c = (Ok (fq, info), c') ->
  exists (mi : MarketInfo) (c1 : Client),
    get_market_info float_of_str int_of_str symbol c = (Ok (Some mi), c1)
    /\ c' = set_calls (calls c1 ++ [fetchMarketLeverageTiers symbol]) c1
    /\ ~ price == 0
    /\ ci_leverage info
       = Z.min leverage (maximum_at int_of_str (_exchange c1) (calls c1) symbol)
    /\ raw_quantity info = usdt_amount * inject_Z (ci_leverage info) / price
    /\ formatted_quantity info = fq
    /\ fq = _format_amount tie_rounds_up symbol (raw_quantity info) c'.
Proof.
  unfold convert_amount_to_contracts. unfold bind at 1.
  destruct (get_market_info_spec symbol c) as (r & c1 & Hg & Hex & _ & Hc).
  rewrite Hg. destruct r as [mi|]; [|discriminate].
  unfold get_market_leverage_info, bind, exchange_call, lift, get, ret, py_div,
    maximum_at. simpl.
  destruct (Qeq_bool price 0) eqn:Ep; [discriminate|].
  match goal with
  | |- context [Qeq_bool (inject_Z ?a) 0] => destruct (Qeq_bool (inject_Z a) 0)
  end; [discriminate|].
  intros [= <- <- <-]. exists mi, c1. split; [reflexivity|]. split; [reflexivity|].
  split. { intros Hz. apply Qeq_bool_iff in Hz. congruence. }
  simpl. repeat split.
Qed.

(** A successful [create_order] has set the leverage, then sized the order
    with the leverage that [set_leverage] returned. *)
Lemma create_order_spec (order : OrderParams) (c : Client) (res : OrderResult)
  (c' : Client) :
  create_order float_of_str int_of_str tie_rounds_up order c = (Ok res, c') ->
  exists (c1 c2 c3 : Client) (actual : Z) (fq : Q) (info : ConversionInfo) (raw : json),
    set_leverage int_of_str (op_symbol order) (order_leverage order)
      (op_margin_mode order) c1 = (Ok actual, c2)
    /\ _exchange c1 = _exchange c
    /\ (exists price,
          convert_amount_to_contracts float_of_str int_of_str tie_rounds_up
            (op_symbol order)
            (op_amount order) price actual c2 = (Ok (fq, info), c3))
    /\ (exists ext, calls c' = (calls c3 ++ ext)%list)
    /\ success res = true
    /\ executed_amount res = Some fq
    /\ extra_info res = Some (raw, info).
Proof.
  unfold create_order. destruct (negb (validate order)); [discriminate|].
  unfold bind at 1.
  destruct (get_market_info_spec (op_symbol order) c) as (r & c1 & Hg & Hex & _ & _).
  rewrite Hg. destruct r as [mi|]; [|discriminate].
  destruct (last_price mi) as [last|]; [|discriminate].
  destruct (Qeq_bool last 0); [discriminate|].
  cbv zeta. unfold bind at 1.
  destruct (set_leverage _ _ _ _ c1) as [[actual|e] c2] eqn:Es; [|discriminate].
  unfold bind at 1.
  match goal with
  | |- context [convert_amount_to_contracts _ _ _ _ _ ?p _ c2] =>
      destruct (convert_amount_to_contracts float_of_str int_of_str tie_rounds_up
                  (op_symbol order) (op_amount order) p actual c2)
        as [[[fq info]|e] c3] eqn:Ec; [|discriminate]
  end.
  destruct (_ && not_price (op_price order))%bool; [discriminate|].
  unfold bind, exchange_call, lift, ret. simpl.
  match goal with
  | |- context [reply ?a ?b ?cl] => destruct (reply a b cl) as [raw|e]; [|discriminate]
  end.
  destruct (getitem raw "id") as [id|]; [|discriminate].
  destruct (py_get raw "price" (JNum 0)) as [pv|]; [|discriminate].
  destruct (py_float _ _) as [ep|]; [|discriminate].
  intros [= <- <-].
  exists c1, c2, c3, actual, fq, info, raw.
  split; [exact Es|]. split; [exact Hex|]. split; [eauto|].
  split; [simpl; eauto|]. repeat split.
Qed.

(** How a [create_order] that returns has sized its order, what it has
    sent, and where the id of its result comes from. *)
Lemma create_order_sizing (order : OrderParams) (c : Client) (res : OrderResult)
  (c' : Client) :
  create_order float_of_str int_of_str tie_rounds_up order c = (Ok res, c') ->
  exists (mi : MarketInfo) (c1 : Client) (quote : Q) (actual : Z) (c2 : Client)
         (fq : Q) (info : ConversionInfo) (c3 : Client) (raw id : json),
    get_market_info float_of_str int_of_str (op_symbol order) c = (Ok (Some mi), c1)
    /\ last_price mi = Some quote /\ ~ quote == 0
    /\ set_leverage int_of_str (op_symbol order) (order_leverage order)
         (op_margin_mode order) c1 = (Ok actual, c2)
    /\ convert_amount_to_contracts float_of_str int_of_str tie_rounds_up
         (op_symbol order) (op_amount order) (use_price order quote) actual c2
       = (Ok (fq, info), c3)
    /\ c' = set_calls (calls c3 ++ [createOrder (request_of order fq)]) c3
    /\ success res = true
    /\ executed_amount res = Some fq
    /\ extra_info res = Some (raw, info)
    /\ reply (_exchange c3) (calls c3) (createOrder (request_of order fq)) = Ok raw
    /\ getitem raw "id" = Ok id
    /\ order_id res = Some id.
Proof.
  unfold create_order. destruct (negb (validate order)); [discriminate|].
  unfold bind at 1.
  destruct (get_market_info float_of_str int_of_str (op_symbol order) c)
    as [[[mi|]|e] c1] eqn:Hg; try discriminate.
  destruct (last_price mi) as [quote|] eqn:El; [|discriminate].
  destruct (Qeq_bool quote 0) eqn:Ez; [discriminate|].
  cbv zeta. unfold bind at 1.
  destruct (set_leverage _ _ _ _ c1) as [[actual|e] c2] eqn:Es; [|discriminate].
  unfold bind at 1. fold (use_price order quote).
  destruct (convert_amount_to_contracts float_of_str int_of_str tie_rounds_up
              (op_symbol order) (op_amount order) (use_price order quote) actual c2)
    as [[[fq info]|e] c3] eqn:Ec; [|discriminate].
  destruct (_ && not_price (op_price order))%bool; [discriminate|].
  unfold bind, exchange_call, lift, ret. simpl.
  destruct (reply (_exchange c3) (calls c3) (createOrder (request_of order fq)))
    as [raw|e] eqn:Er; [|discriminate].
  destruct (getitem raw "id") as [id|] eqn:Ei; [|discriminate].
  destruct (py_get raw "price" (JNum 0)) as [pv|]; [|discriminate].
  destruct (py_float _ _) as [ep|]; [|discriminate].
  intros [= <- <-].
  exists mi, c1, quote, actual, c2, fq, info, c3, raw, id.
  split; [reflexivity|]. split; [exact El|].
  split. { intros Hq. apply Qeq_bool_iff in Hq. congruence. }
  split; [exact Es|]. split; [exact Ec|]. repeat split; assumption.
Qed.

Lemma sizing_uses_capped_leverage (order : OrderParams) (c : Client)
  (res : OrderResult) (c' : Client) (m : Z) :
  (forall h, maximum_at int_of_str (_exchange c) h (op_symbol order) = m) ->
  create_order float_of_str int_of_str tie_rounds_up order c = (Ok res, c') ->
  exists raw info quote,
    extra_info res = Some (raw, info)
    /\ ci_leverage info = Z.min (order_leverage order) m
    /\ In (setLeverage (Z.min (order_leverage order) m) (op_symbol order)) (calls c')
    /\ (exists mi,
          fst (get_market_info float_of_str int_of_str (op_symbol order) c)
          = Ok (Some mi)
          /\ last_price mi = Some quote)
    /\ raw_quantity info
       = op_amount order * inject_Z (Z.min (order_leverage order) m)
         / use_price order quote
    /\ formatted_quantity info
       = _format_amount tie_rounds_up (op_symbol order) (raw_quantity info) c'
    /\ executed_amount res = Some (formatted_quantity info)
    /\ last (calls c')
       = Some (createOrder (request_of order (formatted_quantity info))).
Proof.
  intros Hm H. apply create_order_sizing in H.
  destruct H as (mi & c1 & quote & actual & c2 & fq & info & c3 & raw & id & Hg
                 & Hq & _ & Hs & Hc & -> & _ & Hea & Hx & _).
  destruct (get_market_info_spec (op_symbol order) c)
    as (r1 & c1' & Hg1 & Hex1 & _ & _).
  rewrite Hg in Hg1. injection Hg1 as <- <-.
  apply set_leverage_spec in Hs. destruct Hs as (Ha & Hex2 & Hin).
  rewrite Hex1, Hm in Ha.
  apply convert_spec in Hc.
  destruct Hc as (mi4 & c4 & Hg4 & -> & _ & Hl & Hr & Hf & Hfq).
  destruct (get_market_info_spec (op_symbol order) c2)
    as (r & c4' & Hg' & Hex4 & (e4 & He4) & _).
  rewrite Hg4 in Hg'. injection Hg' as <- <-.
  rewrite Hex4, Hex2, Hex1, Hm in Hl.
  assert (Hlev : ci_leverage info = Z.min (order_leverage order) m)
    by (rewrite Hl, Ha; lia).
  exists raw, info, quote. split; [exact Hx|]. split; [exact Hlev|].
  split.
  { simpl. rewrite He4, <- Ha.
    apply in_or_app. left. apply in_or_app. left. apply in_or_app. left. exact Hin. }
  split. { exists mi. rewrite Hg. split; [reflexivity|exact Hq]. }
  split. { rewrite Hr, Hlev. reflexivity. }
  split. { rewrite Hf. exact Hfq. }
  split. { rewrite Hf. exact Hea. }
  rewrite Hf. simpl. apply last_snoc.
Qed.

(** C6.  [set_leverage] asks the exchange for the maximum leverage of the
    symbol and works with [actual = min(requested, maximum)]: whatever the
    exchange answers, the calls it makes are the query, then the margin
    mode, then the leverage [actual], in this order, and a value that it
    returns is [actual]; when the exchange accepts both settings it returns
    [actual].  An order that [create_order] places is sized with that capped
    leverage, the exchange reporting one maximum [m] throughout: the raw
    quantity is the USDT amount of the order times [min(requested, m)] over
    the price used (the price of a LIMIT order, else the last price [quote]
    of the market), the quantity of the order is what [_format_amount] makes
    of it, and it is the executed amount of the result and the amount of
    the request that went to the exchange last. *)
Theorem set_leverage_caps (symbol : string) (leverage : Z) (margin_mode : json)
  (c : Client) :
  let ex := _exchange c in
  let h1 := (calls c ++ [fetchMarketLeverageTiers symbol])%list in
  let maximum := maximum_at int_of_str ex (calls c) symbol in
  let actual := Z.min leverage maximum in
  let h2 := (h1 ++ [setMarginMode margin_mode symbol])%list in
  let run := set_leverage int_of_str symbol leverage margin_mode c in
  (forall v, fst run = Ok v -> v = actual)
  /\ (exists k : nat,
        calls (snd run)
        = (h1 ++ firstn k [setMarginMode margin_mode symbol;
                           setLeverage actual symbol])%list
        /\ (is_ok (fst run) = true -> k = 2%nat))
  /\ (is_ok (reply ex h1 (setMarginMode margin_mode symbol)) = true ->
      is_ok (reply ex h2 (setLeverage actual symbol)) = true ->
      fst run = Ok actual)
  /\ (forall (order : OrderParams) (res : OrderResult) (c' : Client) (m : Z),
        (forall h, maximum_at int_of_str ex h (op_symbol order) = m) ->
        create_order float_of_str int_of_str tie_rounds_up order c = (Ok res, c') ->
        exists raw info quote,
          extra_info res = Some (raw, info)
          /\ ci_leverage info = Z.min (order_leverage order) m
          /\ In (setLeverage (Z.min (order_leverage order) m) (op_symbol order))
               (calls c')
          /\ (exists mi,
                fst (get_market_info float_of_str int_of_str (op_symbol order) c)
                = Ok (Some mi)
                /\ last_price mi = Some quote)
          /\ raw_quantity info
             = op_amount order * inject_Z (Z.min (order_leverage order) m)
               / use_price order quote
          /\ formatted_quantity info
             = _format_amount tie_rounds_up (op_symbol order) (raw_quantity info) c'
          /\ executed_amount res = Some (formatted_quantity info)
          /\ last (calls c')
             = Some (createOrder (request_of order (formatted_quantity info)))).
Proof.
  cbv zeta. split; [|split; [|split]].
  4: { intros order res c' m Hm H.
       exact (sizing_uses_capped_leverage order c res c' m Hm H). }
  all: unfold set_leverage, get_market_leverage_info, bind, exchange_call, ret,
         maximum_at; simpl;
       destruct (reply (_exchange c) (calls c ++ [fetchMarketLeverageTiers symbol])%list
                   (setMarginMode margin_mode symbol)) as [r1|e1] eqn:E1; simpl;
       [destruct (reply (_exchange c) _ (setLeverage _ symbol)) as [r2|e2] eqn:E2;
        simpl|].
  - intros v [= <-]. reflexivity.
  - discriminate.
  - discriminate.
  - exists 2%nat. split; [|reflexivity]. rewrite <- app_assoc. reflexivity.
  - exists 2%nat. split; [|discriminate]. rewrite <- app_assoc. reflexivity.
  - exists 1%nat. split; [reflexivity|discriminate].
  - intros _ _. reflexivity.
  - intros _ H. discriminate.
  - discriminate.
Qed.


(** C8.  [get_balance] always returns a balance and never raises; when no
    unexpired balance is cached and the fetch from the exchange raises, the
    balance it returns has all six fields at zero.  So has the balance that
    [from_exchange_balance] makes of a reply that is not a dict. *)
Theorem get_balance_never_raises (c : Client) :
  (exists b c', get_balance float_of_str c = (Ok b, c'))
  /\ (forall e,
        balance_cache_fresh c = false ->
        reply (_exchange c) (calls c) fetchBalance = Raise e ->
        fst (get_balance float_of_str c) = Ok (mkAccountBalance 0 0 0 0 0 0))
  /\ (forall reply_of_exchange : json,
        (forall d, reply_of_exchange <> JObj d) ->
        from_exchange_balance float_of_str reply_of_exchange
        = mkAccountBalance 0 0 0 0 0 0).
Proof.
  unfold get_balance, catch, bind, time_time, get, exchange_call, modify, ret,
    balance_cache_fresh.
  split; [|split].
  3: { intros v Hv. destruct v; try reflexivity. exfalso. exact (Hv _ eq_refl). }
  - simpl. destruct (_balance_cache c) as [b|].
    + destruct (Qltb _ CACHE_DURATION); [eauto|].
      simpl. destruct (reply _ _ fetchBalance); eauto.
    + simpl. destruct (reply _ _ fetchBalance); eauto.
  - intros e Hf Hr. simpl.
    destruct (_balance_cache c) as [b|].
    + rewrite Hf. simpl. rewrite Hr. reflexivity.
    + simpl. rewrite Hr. reflexivity.
Qed.

Lemma get_positions_hit (symbol : option string) (c : Client) (v : cached_positions) :
  _position_cache c !! cache_key symbol = Some v ->
  position_cache_fresh (cache_key symbol) c = true ->
  get_positions float_of_str symbol c
  = (Ok [v], set_clock_reads (S (clock_reads c)) c).
Proof.
  unfold position_cache_fresh, cache_key. intros Hv Hf. rewrite Hv in Hf.
  unfold get_positions, catch, bind, time_time, get. simpl.
  rewrite Hv, Hf. reflexivity.
Qed.

Lemma get_positions_miss (symbol : option string) (c : Client) :
  position_cache_fresh (cache_key symbol) c = false ->
  exists ps : list PositionInfo,
    fst (get_positions float_of_str symbol c) = Ok (map OnePosition ps).
Proof.
  unfold position_cache_fresh, cache_key. intros Hf.
  unfold get_positions, catch, bind at 1 2, time_time, get. simpl.
  match goal with
  | |- context [bind ?m ?k] => set (fetch := bind m k)
  end.
  assert (Hfetch : forall c0, exists ps,
             fst (let (r, c') := fetch c0 in
                  match r with
                  | Ok a => (Ok a, c')
                  | Raise _ => ret [] c'
                  end) = Ok (map OnePosition ps)).
  { intros c0. subst fetch. unfold bind, ret, lift, modify.
    destruct (exchange_call _ c0) as [[positions|e] c1]; [|exists []; reflexivity].
    destruct (py_iter positions) as [items|e]; [|exists []; reflexivity].
    destruct (collect_positions float_of_str _ items [] c1) as [[result|e] c2];
      [|exists []; reflexivity].
    exists result. clear Hf.
    destruct symbol as [s|]; [destruct (String.eqb s "")|]; reflexivity. }
  destruct (_position_cache c !! _) as [v|].
  - rewrite Hf. apply Hfetch.
  - apply Hfetch.
Qed.

(** C10.  With no symbol and an unexpired entry under ['all'], which holds
    the list that an earlier call returned, [get_positions] returns a list
    of one element, that whole list; with a symbol and an unexpired entry
    under it, a list of the one cached position; and when the cache has no
    unexpired entry under the key, a flat list of positions. *)
Theorem get_positions_shape (c : Client) :
  (forall l : list PositionInfo,
     _position_cache c !! "all" = Some (PositionList l) ->
     position_cache_fresh "all" c = true ->
     fst (get_positions float_of_str None c) = Ok [PositionList l])
  /\ (forall (s : string) (p : PositionInfo),
        s <> "" ->
        _position_cache c !! s = Some (OnePosition p) ->
        position_cache_fresh s c = true ->
        fst (get_positions float_of_str (Some s) c) = Ok [OnePosition p])
  /\ (forall symbol : option string,
        position_cache_fresh (cache_key symbol) c = false ->
        exists ps : list PositionInfo,
          fst (get_positions float_of_str symbol c) = Ok (map OnePosition ps)).
Proof.
  split; [|split].
  - intros l Hl Hf. rewrite (get_positions_hit None c _ Hl Hf). reflexivity.
  - intros s p Hs Hp Hf.
    assert (Hk : cache_key (Some s) = s).
    { unfold cache_key. destruct (String.eqb_spec s ""); congruence. }
    rewrite (get_positions_hit (Some s) c (OnePosition p)); rewrite ?Hk; auto.
  - intros symbol Hf. exact (get_positions_miss symbol c Hf).
Qed.

End ClientFacts.

(** Requested 125 against a maximum of 100: the leverage set is 100, and
    the order of 100 USDT at 50000 is sized with 100: the raw quantity is
    100 * 100 / 50000, the quantity ordered and executed is 0.2. *)
Lemma set_leverage_caps_witness :
  maximum_at no_int (_exchange demo_client) (calls demo_client) "BTCUSDT" = 100%Z
  /\ fst (set_leverage no_int "BTCUSDT" 125 (JStr "cross") demo_client) = Ok 100%Z
  /\ exists raw info,
       extra_info order_125_result = Some (raw, info)
       /\ ci_leverage info = 100%Z
       /\ In (setLeverage 100 "BTCUSDT")
            (calls (snd (create_order no_float no_int no_tie order_125 demo_client)))
       /\ raw_quantity info = 100 * inject_Z 100 / 50000
       /\ executed_amount order_125_result = Some (formatted_quantity info)
       /\ formatted_quantity info = 200 # 1000
       /\ last (calls (snd (create_order no_float no_int no_tie order_125
                              demo_client)))
          = Some (createOrder (request_of order_125 (200 # 1000))).
Proof.
  pose proof (set_leverage_caps no_float no_int no_tie "BTCUSDT" 125 (JStr "cross")
                demo_client) as H.
  cbv zeta in H. destruct H as (_ & _ & H3 & H4).
  split; [reflexivity|]. split; [exact (H3 eq_refl eq_refl)|].
  destruct (H4 order_125 order_125_result
              (snd (create_order no_float no_int no_tie order_125 demo_client))
              100%Z)
    as (raw & info & quote & Hx & Hl & Hin & _ & Hr & _ & He & Hlast).
  - intros h. reflexivity.
  - vm_compute. reflexivity.
  - assert (Hf : formatted_quantity info = 200 # 1000).
    { vm_compute in Hx. injection Hx as _ <-. reflexivity. }
    exists raw, info. rewrite Hf in Hlast.
    split; [exact Hx|]. split; [exact Hl|]. split; [exact Hin|].
    split; [exact Hr|]. split; [exact He|]. split; [exact Hf|exact Hlast].
Defined.



(** An exchange that cannot be reached: the balance is all zeros. *)
Lemma get_balance_never_raises_witness :
  balance_cache_fresh down_client = false
  /\ reply (_exchange down_client) (calls down_client) fetchBalance
     = Raise (Exn ExchangeError "network down")
  /\ fst (get_balance no_float down_client) = Ok (mkAccountBalance 0 0 0 0 0 0).
Proof.
  split; [reflexivity|]. split; [reflexivity|].
  exact (proj1 (proj2 (get_balance_never_raises no_float down_client))
           (Exn ExchangeError "network down") eq_refl eq_refl).
Defined.

(** A first call without symbol misses the cache and returns the position;
    a second call, made while the entry is fresh, returns a list that holds
    the first call's list. *)
Lemma get_positions_shape_witness :
  fst (get_positions no_float None still_client) = Ok [OnePosition demo_position]
  /\ fst (get_positions no_float None
            (snd (get_positions no_float None still_client)))
     = Ok [PositionList [demo_position]].
Proof.
  split; [vm_compute; reflexivity|].
  apply (proj1 (get_positions_shape no_float
                  (snd (get_positions no_float None still_client)))).
  - vm_compute. reflexivity.
  - vm_compute. reflexivity.
Defined.

(* ===================================================================== *)
(** ** Position monitoring and execution *)
(* ===================================================================== *)

Section MonitorFacts.
Variable float_of_str : string -> option Q.
Variable int_of_str : string -> option Z.
Variable tie_rounds_up : Q -> Z -> bool.


(** What one run of the loop does to the levels, level by level: every
    entry of the record belongs to a level that was not hit and is what
    [create_order] made of its order; a level is left as it was or, after an
    order that succeeded, marked; a level whose order raised is left as it
    was. *)
Lemma check_levels_spec (signal : TradingSignal) (symbol : string)
  (position : PositionInfo) (current_price : Q) (levels : list TakeProfitLevel) :
  forall (k : nat) (c : Client) r levels' log c',
    check_levels float_of_str int_of_str tie_rounds_up
      signal symbol position current_price k levels c
      = (r, levels', log, c') ->
    (forall i o, In (i, o) log ->
       exists j tp c0,
         i = (k + j)%nat /\ levels !! j = Some tp /\ is_hit tp = false
         /\ o = fst (create_order float_of_str int_of_str tie_rounds_up
                      (take_profit_order signal symbol position tp) c0))
    /\ (forall j tp, levels !! j = Some tp ->
          levels' !! j = Some tp
          \/ (is_hit tp = false
              /\ exists res t,
                   In ((k + j)%nat, Ok res) log /\ success res = true
                   /\ levels' !! j = Some (mark_hit t tp)))
    /\ (forall j e, In ((k + j)%nat, Raise e) log -> levels' !! j = levels !! j).
Proof.
  induction levels as [|tp rest IH]; intros k c r levels' log c' H.
  - simpl in H. injection H as <- <- <- <-.
    split; [intros i o []|]. split; [intros j tp Hj; discriminate|].
    intros j e [].
  - simpl in H.
    destruct (is_hit tp) eqn:Ehit; [|destruct (triggered signal current_price tp) eqn:Etr].
    + (* already hit: skipped *)
      destruct (check_levels float_of_str int_of_str tie_rounds_up
                 signal symbol position current_price (S k) rest c)
        as [[[r1 rest'] log1] c1] eqn:Er.
      injection H as <- <- <- <-.
      destruct (IH _ _ _ _ _ _ Er) as (Hlog & Hlev & Hfail).
      split; [|split].
      * intros i o Hin. destruct (Hlog i o Hin) as (j & tp0 & c0 & -> & Hj & Hh & Ho).
        exists (S j), tp0, c0. split; [lia|]. auto.
      * intros [|j] tp0 Hj.
        { injection Hj as <-. left. reflexivity. }
        destruct (Hlev j tp0 Hj) as [Hs|(Hh & res & t & Hin & Hsucc & Hm)].
        { left. exact Hs. }
        right. split; [exact Hh|]. exists res, t.
        replace (k + S j)%nat with (S k + j)%nat by lia. auto.
      * intros [|j] e Hin.
        { reflexivity. }
        replace (k + S j)%nat with (S k + j)%nat in Hin by lia.
        exact (Hfail j e Hin).
    + (* triggered: an order is asked for *)
      destruct (create_order float_of_str int_of_str tie_rounds_up
                 (take_profit_order signal symbol position tp) c)
        as [[res|e] c1] eqn:Eo.
      * set (upd := if success res
                    then (mark_hit (time_at (_exchange c1) (clock_reads c1)) tp,
                          set_clock_reads (S (clock_reads c1)) c1)
                    else (tp, c1)) in H.
        destruct upd as [tp' c2] eqn:Eu.
        destruct (check_levels float_of_str int_of_str tie_rounds_up
                   signal symbol position current_price (S k) rest c2)
          as [[[r1 rest'] log1] c3] eqn:Er.
        injection H as <- <- <- <-.
        destruct (IH _ _ _ _ _ _ Er) as (Hlog & Hlev & Hfail).
        split; [|split].
        -- intros i o [Hin|Hin].
           { injection Hin as <- <-. exists 0%nat, tp, c.
             split; [lia|]. split; [reflexivity|]. split; [exact Ehit|].
             rewrite Eo. reflexivity. }
           destruct (Hlog i o Hin) as (j & tp0 & c0 & -> & Hj & Hh & Ho).
           exists (S j), tp0, c0. split; [lia|]. auto.
        -- intros [|j] tp0 Hj.
           { injection Hj as <-. subst upd.
             destruct (success res) eqn:Es; injection Eu as <- <-.
             - right. split; [exact Ehit|].
               exists res, (time_at (_exchange c1) (clock_reads c1)).
               split; [left; f_equal; lia|]. split; [exact Es|reflexivity].
             - left. reflexivity. }
           destruct (Hlev j tp0 Hj) as [Hs|(Hh & res0 & t & Hin & Hsucc & Hm)].
           { left. exact Hs. }
           right. split; [exact Hh|]. exists res0, t.
           replace (k + S j)%nat with (S k + j)%nat by lia.
           split; [right; exact Hin|]. auto.
        -- intros [|j] e [Hin|Hin]; try discriminate.
           { destruct (Hlog _ _ Hin) as (j' & _ & _ & Hk & _). lia. }
           replace (k + S j)%nat with (S k + j)%nat in Hin by lia.
           exact (Hfail j e Hin).
      * injection H as <- <- <- <-.
        split; [|split].
        -- intros i o [Hin|[]]. injection Hin as <- <-.
           exists 0%nat, tp, c. split; [lia|]. split; [reflexivity|].
           split; [exact Ehit|]. rewrite Eo. reflexivity.
        -- intros j tp0 Hj. left. exact Hj.
        -- intros j e0 _. reflexivity.
    + (* not triggered *)
      destruct (check_levels float_of_str int_of_str tie_rounds_up
                 signal symbol position current_price (S k) rest c)
        as [[[r1 rest'] log1] c1] eqn:Er.
      injection H as <- <- <- <-.
      destruct (IH _ _ _ _ _ _ Er) as (Hlog & Hlev & Hfail).
      split; [|split].
      * intros i o Hin. destruct (Hlog i o Hin) as (j & tp0 & c0 & -> & Hj & Hh & Ho).
        exists (S j), tp0, c0. split; [lia|]. auto.
      * intros [|j] tp0 Hj.
        { injection Hj as <-. left. reflexivity. }
        destruct (Hlev j tp0 Hj) as [Hs|(Hh & res & t & Hin & Hsucc & Hm)].
        { left. exact Hs. }
        right. split; [exact Hh|]. exists res, t.
        replace (k + S j)%nat with (S k + j)%nat by lia. auto.
      * intros [|j] e Hin.
        { reflexivity. }
        replace (k + S j)%nat with (S k + j)%nat in Hin by lia.
        exact (Hfail j e Hin).
Qed.

(** C7.  In a take-profit check of a position, a level that is already hit
    is left as it is and no order is asked for it; a level that the check
    turns from not hit to hit has had its order, a reduce-only MARKET order,
    return success, and carries a hit time; a level whose order raised is
    left as it was, not hit, for the next check.  [_execute_take_profit]
    likewise marks its level only after an order that succeeded. *)
Theorem take_profit_marking (exchange_name symbol : string) (position : PositionInfo)
  (m : Manager) (signal : TradingSignal) :
  active_signals m !! signal_key exchange_name symbol = Some signal ->
  let run :=
    _check_take_profit_levels float_of_str int_of_str tie_rounds_up
      exchange_name symbol position m in
  let log := snd run in
  let levels := take_profit_levels signal in
  (exists signal',
     active_signals (fst run) !! signal_key exchange_name symbol = Some signal'
     /\ let levels' := take_profit_levels signal' in
        (forall j tp, levels !! j = Some tp -> is_hit tp = true ->
           levels' !! j = Some tp /\ forall o, ~ In (j, o) log)
        /\ (forall j tp tp', levels !! j = Some tp -> levels' !! j = Some tp' ->
              is_hit tp = false -> is_hit tp' = true ->
              exists res t,
                In (j, Ok res) log /\ success res = true /\ tp' = mark_hit t tp)
        /\ (forall j e, In (j, Raise e) log -> levels' !! j = levels !! j))
  /\ (forall j o, In (j, o) log ->
        exists tp c0,
          levels !! j = Some tp /\ is_hit tp = false
          /\ o = fst (create_order float_of_str int_of_str tie_rounds_up
                        (take_profit_order signal symbol position tp) c0)
          /\ op_order_type (take_profit_order signal symbol position tp) = "MARKET"
          /\ op_reduce_only (take_profit_order signal symbol position tp) = true)
  /\ (forall tp_level tp',
        fst (_execute_take_profit float_of_str int_of_str tie_rounds_up
              exchange_name symbol
               position tp_level m) = tp' ->
        tp' = tp_level
        \/ exists c res c1 t,
             exchanges m !! exchange_name = Some c
             /\ create_order float_of_str int_of_str tie_rounds_up
                  (market_close_order symbol position tp_level) c = (Ok res, c1)
             /\ success res = true /\ tp' = mark_hit t tp_level).
Proof.
  intros Hsig. cbv zeta.
  assert (Htriv :
            forall m', active_signals m' = active_signals m ->
              (exists signal',
                 active_signals m' !! signal_key exchange_name symbol = Some signal'
                 /\ (forall j tp, take_profit_levels signal !! j = Some tp ->
                       is_hit tp = true ->
                       take_profit_levels signal' !! j = Some tp
                       /\ forall o, ~ In (j, o) (@nil (nat * result OrderResult)))
                 /\ (forall j tp tp', take_profit_levels signal !! j = Some tp ->
                       take_profit_levels signal' !! j = Some tp' ->
                       is_hit tp = false -> is_hit tp' = true ->
                       exists res t,
                         In (j, Ok res) (@nil (nat * result OrderResult))
                         /\ success res = true /\ tp' = mark_hit t tp)
                 /\ (forall j e, In (j, Raise e) (@nil (nat * result OrderResult)) ->
                       take_profit_levels signal' !! j = take_profit_levels signal !! j))
              /\ (forall j o, In (j, o) (@nil (nat * result OrderResult)) ->
                    exists tp c0,
                      take_profit_levels signal !! j = Some tp /\ is_hit tp = false
                      /\ o = fst (create_order float_of_str int_of_str tie_rounds_up
                                    (take_profit_order signal symbol position tp) c0)
                      /\ op_order_type (take_profit_order signal symbol position tp)
                         = "MARKET"
                      /\ op_reduce_only (take_profit_order signal symbol position tp)
                         = true)).
  { intros m' Hm'. split.
    - exists signal. rewrite Hm'. split; [exact Hsig|].
      split; [intros j tp Hj _; split; [exact Hj|intros o []]|].
      split; [|intros j e []].
      intros j tp tp' Hj Hj' Hf Ht. rewrite Hj in Hj'. injection Hj' as <-. congruence.
    - intros j o []. }
  apply and_assoc. split.
  2: { intros tp_level tp' H. unfold _execute_take_profit in H.
       destruct (exchanges m !! exchange_name) as [c|] eqn:Ec; [|left; symmetry; exact H].
       destruct (create_order float_of_str int_of_str tie_rounds_up
                   (market_close_order symbol position tp_level) c)
         as [[res|e] c1] eqn:Eo; [|left; symmetry; exact H].
       destruct (success res) eqn:Es; [|left; symmetry; exact H].
       right. exists c, res, c1, (time_at (_exchange c1) (clock_reads c1)).
       simpl in H. auto. }
  unfold _check_take_profit_levels. rewrite Hsig.
  destruct (exchanges m !! exchange_name) as [c|] eqn:Ec; [|exact (Htriv m eq_refl)].
  destruct (take_profit_levels signal) as [|tp0 rest] eqn:Elev;
    [exact (Htriv m eq_refl)|].
  destruct (get_market_info float_of_str int_of_str symbol c)
    as [[[mi|]|e] c1] eqn:Eg;
    [|exact (Htriv (set_client exchange_name c1 m) eq_refl)
     |exact (Htriv (set_client exchange_name c1 m) eq_refl)].
  destruct (not_price (last_price mi));
    [exact (Htriv (set_client exchange_name c1 m) eq_refl)|].
  clear Htriv.
  destruct (check_levels float_of_str int_of_str tie_rounds_up signal symbol position
              (default 0 (last_price mi)) 0 (tp0 :: rest) c1)
    as [[[r levels'] log] c2] eqn:Er.
  destruct (check_levels_spec _ _ _ _ _ _ _ _ _ _ _ Er) as (Hlog & Hlev & Hfail).
  cbn [fst snd]. split.
  - exists (set_take_profit_levels levels' signal).
    split; [apply lookup_insert_eq|]. cbn [take_profit_levels set_take_profit_levels].
    split; [|split].
    + intros j tp Hj Hh.
      destruct (Hlev j tp Hj) as [Hs|(Hf & _)]; [|congruence].
      split; [exact Hs|]. intros o Hin.
      destruct (Hlog j o Hin) as (j' & tp1 & c0 & Hjj & Hj' & Hf & _).
      simpl in Hjj. subst j'. rewrite Hj in Hj'. injection Hj' as <-. congruence.
    + intros j tp tp' Hj Hj' Hf Ht.
      destruct (Hlev j tp Hj) as [Hs|(_ & res & t & Hin & Hsucc & Hm)].
      * rewrite Hs in Hj'. injection Hj' as <-. congruence.
      * rewrite Hm in Hj'. injection Hj' as <-. exists res, t. auto.
    + intros j e Hin. exact (Hfail j e Hin).
  - intros j o Hin.
    destruct (Hlog j o Hin) as (j' & tp1 & c0 & Hjj & Hj' & Hf & Ho).
    simpl in Hjj. subst j'. exists tp1, c0. auto.
Qed.

Lemma modify_position_keeps_signals (exchange symbol : string)
  (sl tp : option Q) (m : Manager) :
  active_signals (snd (modify_position float_of_str int_of_str tie_rounds_up
                        exchange symbol sl tp m))
  = active_signals m.
Proof.
  unfold modify_position.
  destruct (exchanges m !! exchange) as [c|]; [|reflexivity].
  destruct (modify_position_body _ _ _ _ _ _ c) as [[b|e] c']; reflexivity.
Qed.

(** The dynamic stop-loss check never writes to the active signals: the
    stop-loss that a new stop is compared with stays what it was, whatever
    stop has been sent to the exchange. *)
Lemma dynamic_stop_loss_keeps_signals (exchange_name symbol : string)
  (position : PositionInfo) (m : Manager) :
  active_signals
    (_check_dynamic_stop_loss float_of_str int_of_str tie_rounds_up
      exchange_name symbol position m)
  = active_signals m.
Proof.
  unfold _check_dynamic_stop_loss.
  repeat match goal with
         | |- active_signals (snd (modify_position _ _ _ _ _ _ _ _)) = _ =>
             rewrite modify_position_keeps_signals
         | |- active_signals (match ?x with _ => _ end) = _ => destruct x
         | |- active_signals (if ?b then _ else _) = _ => destruct b
         | |- _ => reflexivity
         end.
Qed.

End MonitorFacts.

(** The first level of the ladder is already hit: the check asks for no
    order for it and leaves it as it is. *)
Lemma take_profit_marking_witness :
  active_signals ladder_manager !! signal_key "BINANCE" "BTCUSDT" = Some ladder_signal
  /\ take_profit_levels ladder_signal !! 0%nat
     = Some (mkTakeProfitLevel 105 (1 # 2) true (Some 0))
  /\ forall o, ~ In (0%nat, o) (snd (ladder_pass ladder_manager)).
Proof.
  split; [reflexivity|]. split; [reflexivity|].
  destruct (take_profit_marking no_float no_int no_tie "BINANCE" "BTCUSDT" demo_position
              ladder_manager ladder_signal eq_refl) as ((signal' & _ & H1 & _) & _).
  exact (proj2 (H1 0%nat _ eq_refl eq_refl)).
Defined.

(** The first check closes the second level with one order and marks it;
    a second check sends no further order. *)
Example ladder_second_pass_sends_nothing :
  ladder_state ladder_manager = (Some [true; false], Some 0%nat)
  /\ ladder_state (fst (ladder_pass ladder_manager)) = (Some [true; true], Some 1%nat)
  /\ ladder_state (fst (ladder_pass (fst (ladder_pass ladder_manager))))
     = (Some [true; true], Some 1%nat).
Proof. vm_compute. repeat split. Qed.

(** C2.  Two dynamic stop-loss checks of one long position, entry 100 and
    stop 98: at price 106 the check sends a stop at 103; at price 104 the
    next check sends a stop at 102, below the stop already applied, because
    the stop-loss of the signal, against which the new stop is compared, is
    still 98. *)
Theorem dynamic_stop_loss_loosens :
  option_map stops_sent (exchanges (trailing_pass trailing_manager) !! "BINANCE")
    = Some [103]
  /\ option_map stops_sent
       (exchanges (trailing_pass (trailing_pass trailing_manager)) !! "BINANCE")
     = Some [103; 102]
  /\ option_map stop_loss
       (active_signals (trailing_pass (trailing_pass trailing_manager))
          !! "BINANCE_BTCUSDT")
     = Some (Some 98).
Proof. vm_compute. repeat split. Qed.

(** C4.  A signal with two zones, at 100 and at 99.  When the exchange
    rejects the order at 100, [create_order] raises, the loop is left and
    no order is ever sent for the zone at 99.  When it rejects the order at
    99, the caller gets the failure, not the result of the first zone,
    whose order was placed. *)
Theorem execute_signal_stops_at_failed_zone :
  execution_summary 100
    = (failed "Insufficient margin", ["PENDING"; "PENDING"], Some [Some 100])
  /\ execution_summary 99
     = (failed "Insufficient margin", ["PLACED"; "PENDING"],
        Some [Some 100; Some 99]).
Proof. vm_compute. repeat split. Qed.

(* ===================================================================== *)
(** ** Further properties: what reaches the exchange *)
(* ===================================================================== *)

Lemma dict_get_set_ne (k k' : string) (v : json) (d : dict) :
  k <> k' -> dict_get k (dict_set k' v d) = dict_get k d.
Proof.
  intros Hne. induction d as [|[k0 v0] d IH]; cbn [dict_set dict_get].
  - destruct (String.eqb_spec k k'); [contradiction|reflexivity].
  - destruct (String.eqb_spec k' k0) as [->|Hk].
    + cbn [dict_get]. destruct (String.eqb_spec k k0); [contradiction|reflexivity].
    + cbn [dict_get]. destruct (String.eqb k k0); [reflexivity|exact IH].
Qed.

Lemma dict_get_set_eq (k : string) (v : json) (d : dict) :
  dict_get k (dict_set k v d) = Some v.
Proof.
  induction d as [|[k0 v0] d IH]; cbn [dict_set dict_get].
  - rewrite String.eqb_refl. reflexivity.
  - destruct (String.eqb k k0) eqn:E; cbn [dict_get]; rewrite ?String.eqb_refl, ?E;
      [reflexivity|exact IH].
Qed.




Section AddsFacts.
Context {A B : Type}.
Variable P : call -> bool.

Lemma adds_ret (a : A) : adds P (ret a).
Proof. intros c. split; [reflexivity|]. exists []. rewrite app_nil_r. auto. Qed.

Lemma adds_raise (e : exn) : adds P (@raise A e).
Proof. intros c. split; [reflexivity|]. exists []. rewrite app_nil_r. auto. Qed.

Lemma adds_lift (r : result A) : adds P (lift r).
Proof. intros c. split; [reflexivity|]. exists []. rewrite app_nil_r. auto. Qed.

Lemma adds_bind (m : M A) (k : A -> M B) :
  adds P m -> (forall a, adds P (k a)) -> adds P (bind m k).
Proof.
  intros Hm Hk c. unfold bind. specialize (Hm c).
  destruct (m c) as [[a|e] c1]; simpl in Hm.
  - specialize (Hk a c1). destruct Hm as (He & ext & Hc & HP).
    destruct Hk as (He' & ext' & Hc' & HP').
    split; [congruence|]. exists (ext ++ ext')%list.
    rewrite Hc', Hc, app_assoc, forallb_app, HP, HP'. auto.
  - exact Hm.
Qed.

Lemma adds_catch (m : M A) (h : exn -> M A) :
  adds P m -> (forall e, adds P (h e)) -> adds P (catch m h).
Proof.
  intros Hm Hh c. unfold catch. specialize (Hm c).
  destruct (m c) as [[a|e] c1]; simpl in Hm.
  - exact Hm.
  - specialize (Hh e c1). destruct Hm as (He & ext & Hc & HP).
    destruct Hh as (He' & ext' & Hc' & HP').
    split; [congruence|]. exists (ext ++ ext')%list.
    rewrite Hc', Hc, app_assoc, forallb_app, HP, HP'. auto.
Qed.
End AddsFacts.

Lemma adds_get (P : call -> bool) : adds P get.
Proof. intros c. split; [reflexivity|]. exists []. rewrite app_nil_r. auto. Qed.

Lemma adds_modify (P : call -> bool) (f : Client -> Client) :
  (forall c, _exchange (f c) = _exchange c /\ calls (f c) = calls c) ->
  adds P (modify f).
Proof.
  intros Hf c. destruct (Hf c) as [He Hc]. split; [exact He|].
  exists []. simpl. rewrite app_nil_r. auto.
Qed.

Lemma adds_time (P : call -> bool) : adds P time_time.
Proof. intros c. split; [reflexivity|]. exists []. simpl. rewrite app_nil_r. auto. Qed.

Lemma adds_call (P : call -> bool) (cl : call) :
  P cl = true -> adds P (exchange_call cl).
Proof.
  intros HP c. split; [reflexivity|]. exists [cl]. simpl. rewrite HP. auto.
Qed.

Lemma adds_weaken (P Q : call -> bool) {A : Type} (m : M A) :
  (forall cl, P cl = true -> Q cl = true) -> adds P m -> adds Q m.
Proof.
  intros HPQ Hm c. destruct (Hm c) as (He & ext & Hc & HP).
  split; [exact He|]. exists ext. split; [exact Hc|].
  rewrite forallb_forall in *. auto.
Qed.

Create HintDb adds_db.

Ltac adds_step :=
  first
    [ solve [auto 1 with adds_db nocore]
    | progress cbv zeta
    | apply adds_ret | apply adds_raise | apply adds_lift | apply adds_get
    | apply adds_time
    | apply adds_call; reflexivity
    | apply adds_modify; intros; split; reflexivity
    | apply adds_bind; [|intros]
    | apply adds_catch; [|intros]
    | match goal with
      | |- adds _ (match ?x with _ => _ end) => destruct x
      | |- adds _ (if ?b then _ else _) => destruct b
      | |- adds _ (let '(_, _) := ?x in _) => destruct x
      end ].

Ltac adds_auto := repeat adds_step.

Section ClientTraces.
Variable float_of_str : string -> option Q.
Variable int_of_str : string -> option Z.
Variable tie_rounds_up : Q -> Z -> bool.

Lemma get_market_info_adds (symbol : string) :
  adds is_query (get_market_info float_of_str int_of_str symbol).
Proof. unfold get_market_info. adds_auto. Qed.
#[local] Hint Resolve get_market_info_adds : adds_db.

Lemma get_balance_adds : adds is_query (get_balance float_of_str).
Proof. unfold get_balance. adds_auto. Qed.
#[local] Hint Resolve get_balance_adds : adds_db.

Lemma fetch_balance_adds : adds is_query (fetch_balance float_of_str).
Proof. unfold fetch_balance. adds_auto. Qed.
#[local] Hint Resolve fetch_balance_adds : adds_db.

Lemma fetch_positions_adds (symbol : option string) :
  adds is_query (fetch_positions float_of_str symbol).
Proof. unfold fetch_positions. adds_auto. Qed.
#[local] Hint Resolve fetch_positions_adds : adds_db.

Lemma collect_positions_adds (now : Q) (items : list json) :
  forall result, adds is_query (collect_positions float_of_str now items result).
Proof.
  induction items as [|pos rest IH]; intros result; simpl.
  - adds_auto.
  - adds_auto; apply IH.
Qed.
#[local] Hint Resolve collect_positions_adds : adds_db.

Lemma get_positions_adds (symbol : option string) :
  adds is_query (get_positions float_of_str symbol).
Proof.
  unfold get_positions. adds_auto; try apply collect_positions_adds.
Qed.
#[local] Hint Resolve get_positions_adds : adds_db.

Lemma get_market_leverage_info_adds (symbol : string) :
  adds is_query (get_market_leverage_info int_of_str symbol).
Proof.
  intros c. unfold get_market_leverage_info, exchange_call. simpl.
  split; [reflexivity|]. exists [fetchMarketLeverageTiers symbol]. auto.
Qed.
#[local] Hint Resolve get_market_leverage_info_adds : adds_db.

Lemma set_leverage_adds (symbol : string) (leverage : Z) (margin_mode : json) :
  adds not_order (set_leverage int_of_str symbol leverage margin_mode).
Proof.
  unfold set_leverage. adds_auto.
  all: try (apply (adds_weaken is_query); [intros []; simpl; congruence|];
            apply get_market_leverage_info_adds).
Qed.
#[local] Hint Resolve set_leverage_adds : adds_db.

Lemma convert_adds (symbol : string) (usdt_amount price : Q) (leverage : Z) :
  adds is_query
    (convert_amount_to_contracts float_of_str int_of_str tie_rounds_up
      symbol usdt_amount price
       leverage).
Proof.
  unfold convert_amount_to_contracts. adds_auto;
    try first [apply get_market_info_adds | apply get_market_leverage_info_adds].
Qed.
#[local] Hint Resolve convert_adds : adds_db.

Lemma query_not_order (l : list call) :
  forallb is_query l = true -> forallb not_order l = true.
Proof.
  rewrite !forallb_forall. intros H cl Hin. specialize (H cl Hin).
  destruct cl; simpl in *; congruence.
Qed.

Lemma set_leverage_ok_calls (symbol : string) (leverage : Z) (margin_mode : json)
  (c : Client) (v : Z) (c' : Client) :
  set_leverage int_of_str symbol leverage margin_mode c = (Ok v, c') ->
  calls c'
  = (calls c ++ [fetchMarketLeverageTiers symbol; setMarginMode margin_mode symbol;
                 setLeverage v symbol])%list.
Proof.
  unfold set_leverage, get_market_leverage_info, bind, exchange_call, ret. simpl.
  destruct (reply (_exchange c) _ (setMarginMode margin_mode symbol)); [|discriminate].
  simpl.
  destruct (reply (_exchange c) _ (setLeverage _ symbol)); [|discriminate].
  intros [= <- <-]. simpl. rewrite <- !app_assoc. reflexivity.
Qed.

(** The calls that [create_order] makes: at most one order, as the last
    call, after the margin mode and the leverage have been set and the
    amount has been converted with the leverage that was set. *)
Lemma create_order_calls (order : OrderParams) (c : Client)
  (r : result OrderResult) (c' : Client) :
  create_order float_of_str int_of_str tie_rounds_up order c = (r, c') ->
  _exchange c' = _exchange c
  /\ exists pre : list call,
       forallb not_order pre = true
       /\ ((calls c' = (calls c ++ pre)%list /\ is_ok r = false)
           \/ exists (mi : MarketInfo) (c1 : Client) (quote : Q) (v : Z)
                     (c2 : Client) (quantity : Q) (info : ConversionInfo)
                     (c3 : Client),
                calls c'
                = (calls c ++ pre ++ [createOrder (request_of order quantity)])%list
                /\ validate order = true
                /\ get_market_info float_of_str int_of_str (op_symbol order) c
                   = (Ok (Some mi), c1)
                /\ last_price mi = Some quote
                /\ ~ quote == 0
                /\ set_leverage int_of_str (op_symbol order) (order_leverage order)
                     (op_margin_mode order) c1 = (Ok v, c2)
                /\ In (setMarginMode (op_margin_mode order) (op_symbol order)) pre
                /\ In (setLeverage v (op_symbol order)) pre
                /\ convert_amount_to_contracts float_of_str int_of_str
                     tie_rounds_up (op_symbol order) (op_amount order)
                     (use_price order quote) v c2
                   = (Ok (quantity, info), c3)
                /\ c' = set_calls
                          (calls c3 ++ [createOrder (request_of order quantity)]) c3
                /\ (forall res, r = Ok res ->
                      success res = true
                      /\ executed_amount res = Some quantity
                      /\ exists raw id : json,
                           extra_info res = Some (raw, info)
                           /\ order_id res = Some id
                           /\ getitem raw "id" = Ok id
                           /\ reply (_exchange c) (calls c ++ pre)%list
                                (createOrder (request_of order quantity)) = Ok raw)).
Proof.
  intros H. unfold create_order in H.
  destruct (validate order) eqn:Ev; cbn [negb] in H.
  2: { injection H as <- <-. split; [reflexivity|]. exists [].
       split; [reflexivity|]. left. rewrite app_nil_r. auto. }
  unfold bind at 1 in H.
  pose proof (get_market_info_adds (op_symbol order) c) as (He1 & ext1 & Hc1 & HP1).
  destruct (get_market_info float_of_str int_of_str (op_symbol order) c)
    as [[[mi|]|e] c1] eqn:Eg; cbn [fst snd] in *.
  2,3: injection H as <- <-; split; [exact He1|]; exists ext1;
       split; [apply query_not_order; exact HP1|]; left; auto.
  assert (Hstop : forall (e : exn),
            (Raise e, c1) = (r, c') ->
            _exchange c' = _exchange c
            /\ exists pre, forallb not_order pre = true
                 /\ ((calls c' = (calls c ++ pre)%list /\ is_ok r = false)
                     \/ exists (mi0 : MarketInfo) (c10 : Client) (quote : Q) (v : Z)
                               (c2 : Client) (quantity : Q) (info : ConversionInfo)
                               (c3 : Client),
                          calls c' = (calls c ++ pre
                                      ++ [createOrder (request_of order quantity)])%list
                          /\ true = true
                          /\ (Ok (Some mi), c1) = (Ok (Some mi0), c10)
                          /\ last_price mi0 = Some quote
                          /\ ~ quote == 0
                          /\ set_leverage int_of_str (op_symbol order)
                               (order_leverage order) (op_margin_mode order) c10
                             = (Ok v, c2)
                          /\ In (setMarginMode (op_margin_mode order) (op_symbol order)) pre
                          /\ In (setLeverage v (op_symbol order)) pre
                          /\ convert_amount_to_contracts float_of_str int_of_str
                               tie_rounds_up (op_symbol order) (op_amount order)
                               (use_price order quote) v c2
                             = (Ok (quantity, info), c3)
                          /\ c' = set_calls
                                    (calls c3
                                     ++ [createOrder (request_of order quantity)]) c3
                          /\ (forall res, r = Ok res ->
                                success res = true
                                /\ executed_amount res = Some quantity
                                /\ exists raw id : json,
                                     extra_info res = Some (raw, info)
                                     /\ order_id res = Some id
                                     /\ getitem raw "id" = Ok id
                                     /\ reply (_exchange c) (calls c ++ pre)%list
                                          (createOrder (request_of order quantity)) = Ok raw))).
  { intros e [= <- <-]. split; [exact He1|]. exists ext1.
    split; [apply query_not_order; exact HP1|]. left. auto. }
  destruct (last_price mi) as [quote|] eqn:El; [|exact (Hstop _ H)].
  destruct (Qeq_bool quote 0) eqn:Ez; [exact (Hstop _ H)|]. clear Hstop.
  assert (Hq0 : ~ quote == 0).
  { intros Hq. apply Qeq_bool_iff in Hq. congruence. }
  cbv zeta in H. unfold bind at 1 in H.
  pose proof (set_leverage_adds (op_symbol order) (order_leverage order)
                (op_margin_mode order) c1) as (He2 & ext2 & Hc2 & HP2).
  destruct (set_leverage int_of_str (op_symbol order) (order_leverage order)
              (op_margin_mode order) c1) as [[actual|e] c2] eqn:Es;
    cbn [fst snd] in *.
  2: { injection H as <- <-. split; [congruence|]. exists (ext1 ++ ext2)%list.
       split; [rewrite forallb_app, (query_not_order _ HP1), HP2; reflexivity|].
       left. rewrite Hc2, Hc1, app_assoc. auto. }
  pose proof (set_leverage_ok_calls _ _ _ _ _ _ Es) as Es'.
  unfold bind at 1 in H. fold (use_price order quote) in H.
  pose proof (convert_adds (op_symbol order) (op_amount order)
                (use_price order quote) actual c2) as (He3 & ext3 & Hc3 & HP3).
  destruct (convert_amount_to_contracts float_of_str int_of_str tie_rounds_up
              (op_symbol order) (op_amount order) (use_price order quote) actual c2)
    as [[[fq info]|e] c3] eqn:Ecv; cbn [fst snd] in *.
  2: { injection H as <- <-. split; [congruence|].
       exists (ext1 ++ [fetchMarketLeverageTiers (op_symbol order);
                        setMarginMode (op_margin_mode order) (op_symbol order);
                        setLeverage actual (op_symbol order)] ++ ext3)%list.
       split.
       - rewrite !forallb_app, (query_not_order _ HP1), (query_not_order _ HP3).
         reflexivity.
       - left. rewrite Hc3, Es', Hc1, <- !app_assoc. auto. }
  set (pre := (ext1 ++ [fetchMarketLeverageTiers (op_symbol order);
                        setMarginMode (op_margin_mode order) (op_symbol order);
                        setLeverage actual (op_symbol order)] ++ ext3)%list).
  assert (Hpre : forallb not_order pre = true).
  { subst pre. rewrite !forallb_app, (query_not_order _ HP1), (query_not_order _ HP3).
    reflexivity. }
  assert (Hc3' : calls c3 = (calls c ++ pre)%list).
  { subst pre. rewrite Hc3, Es', Hc1, <- !app_assoc. reflexivity. }
  destruct (_ && not_price (op_price order))%bool.
  { injection H as <- <-. split; [congruence|]. exists pre.
    split; [exact Hpre|]. left. auto. }
  unfold bind at 1 in H. unfold exchange_call at 1 in H.
  assert (Hsent : forall (r0 : result OrderResult),
            (r0, set_calls (calls c3 ++ [createOrder (request_of order fq)]) c3)
            = (r, c') ->
            (forall res, r0 = Ok res ->
               success res = true /\ executed_amount res = Some fq
               /\ exists raw id : json,
                    extra_info res = Some (raw, info)
                    /\ order_id res = Some id
                    /\ getitem raw "id" = Ok id
                    /\ reply (_exchange c3) (calls c3)
                         (createOrder (request_of order fq)) = Ok raw) ->
            _exchange c' = _exchange c
            /\ exists pre0, forallb not_order pre0 = true
                 /\ ((calls c' = (calls c ++ pre0)%list /\ is_ok r = false)
                     \/ exists (mi0 : MarketInfo) (c10 : Client) (quote0 : Q) (v : Z)
                               (c20 : Client) (quantity : Q) (info0 : ConversionInfo)
                               (c30 : Client),
                          calls c'
                          = (calls c ++ pre0
                             ++ [createOrder (request_of order quantity)])%list
                          /\ true = true
                          /\ (Ok (Some mi), c1) = (Ok (Some mi0), c10)
                          /\ last_price mi0 = Some quote0
                          /\ ~ quote0 == 0
                          /\ set_leverage int_of_str (op_symbol order)
                               (order_leverage order) (op_margin_mode order) c10
                             = (Ok v, c20)
                          /\ In (setMarginMode (op_margin_mode order) (op_symbol order)) pre0
                          /\ In (setLeverage v (op_symbol order)) pre0
                          /\ convert_amount_to_contracts float_of_str int_of_str
                               tie_rounds_up (op_symbol order) (op_amount order)
                               (use_price order quote0) v c20
                             = (Ok (quantity, info0), c30)
                          /\ c' = set_calls
                                    (calls c30
                                     ++ [createOrder (request_of order quantity)]) c30
                          /\ (forall res, r = Ok res ->
                                success res = true
                                /\ executed_amount res = Some quantity
                                /\ exists raw id : json,
                                     extra_info res = Some (raw, info0)
                                     /\ order_id res = Some id
                                     /\ getitem raw "id" = Ok id
                                     /\ reply (_exchange c) (calls c ++ pre0)%list
                                          (createOrder (request_of order quantity)) = Ok raw))).
  { intros r0 [= <- <-] Hr. split; [simpl; congruence|]. exists pre.
    split; [exact Hpre|].
    right. exists mi, c1, quote, actual, c2, fq, info, c3.
    split; [simpl; rewrite Hc3', <- app_assoc; reflexivity|].
    split; [reflexivity|]. split; [reflexivity|].
    split; [exact El|]. split; [exact Hq0|]. split; [exact Es|].
    split; [subst pre; apply in_or_app; right; simpl; auto|].
    split; [subst pre; apply in_or_app; right; simpl; auto|].
    split; [exact Ecv|]. split; [reflexivity|].
    intros res Hres. destruct (Hr res Hres) as (H1 & H2 & raw & id & H3 & H4 & H5 & H6).
    split; [exact H1|]. split; [exact H2|]. exists raw, id.
    split; [exact H3|]. split; [exact H4|]. split; [exact H5|].
    rewrite <- Hc3'. rewrite <- He1, <- He2, <- He3. exact H6. }
  destruct (reply (_exchange c3) (calls c3) (createOrder (request_of order fq)))
    as [raw|e] eqn:Er; [|apply (Hsent _ H); discriminate].
  unfold bind, lift, ret in H.
  destruct (getitem raw "id") as [id|] eqn:Ei; [|apply (Hsent _ H); discriminate].
  destruct (py_get raw "price" (JNum 0)) as [pv|]; [|apply (Hsent _ H); discriminate].
  destruct (py_float _ _) as [ep|]; [|apply (Hsent _ H); discriminate].
  apply (Hsent _ H). intros res [= <-].
  split; [reflexivity|]. split; [reflexivity|]. exists raw, id.
  split; [reflexivity|]. split; [reflexivity|].
  split; [exact Ei|first [exact Er|reflexivity]].
Qed.

(** The quantity that a conversion returns, in terms of its arguments. *)
Lemma convert_quantity (symbol : string) (usdt_amount price : Q) (leverage : Z)
  (c : Client) (fq : Q) (info : ConversionInfo) (c' : Client) :
  convert_amount_to_contracts float_of_str int_of_str tie_rounds_up symbol
    usdt_amount price leverage c = (Ok (fq, info), c') ->
  raw_quantity info = usdt_amount * inject_Z (ci_leverage info) / price
  /\ (ci_leverage info <= leverage)%Z
  /\ (exists h, ci_leverage info
                = Z.min leverage (maximum_at int_of_str (_exchange c) h symbol))
  /\ formatted_quantity info = fq
  /\ fq = _format_amount tie_rounds_up symbol (raw_quantity info) c'.
Proof.
  intros H.
  destruct (convert_spec float_of_str int_of_str tie_rounds_up _ _ _ _ _ _ _ _ H)
    as (mi & c1 & Hg & _ & _ & Hl & Hr & Hf & Hq).
  destruct (get_market_info_spec float_of_str int_of_str symbol c)
    as (r & c1' & Hg' & Hex & _ & _).
  rewrite Hg in Hg'. injection Hg' as _ <-.
  split; [exact Hr|]. split; [rewrite Hl; lia|].
  split; [exists (calls c1); rewrite <- Hex; exact Hl|].
  split; [exact Hf|exact Hq].
Qed.


(** X2.  The read paths only query: market information, balances and
    positions, and the conversion of amounts, never set margin mode or
    leverage and never send an order; [set_leverage] never sends an
    order.  None of them changes the exchange the client talks to. *)
Theorem read_paths_only_query :
  (forall symbol, adds is_query (get_market_info float_of_str int_of_str symbol))
  /\ adds is_query (get_balance float_of_str)
  /\ adds is_query (fetch_balance float_of_str)
  /\ (forall symbol, adds is_query (get_positions float_of_str symbol))
  /\ (forall symbol, adds is_query (fetch_positions float_of_str symbol))
  /\ (forall symbol usdt_amount price leverage,
        adds is_query
          (convert_amount_to_contracts float_of_str int_of_str tie_rounds_up
            symbol usdt_amount
             price leverage))
  /\ (forall symbol leverage margin_mode,
        adds not_order (set_leverage int_of_str symbol leverage margin_mode)).
Proof.
  repeat split; intros;
    first [ apply get_market_info_adds | apply get_balance_adds
          | apply fetch_balance_adds | apply get_positions_adds
          | apply fetch_positions_adds | apply convert_adds
          | apply set_leverage_adds ].
Qed.

End ClientTraces.


(* ===================================================================== *)
(** ** Further properties: the caches *)
(* ===================================================================== *)

Section CacheFacts.
Variable float_of_str : string -> option Q.
Variable int_of_str : string -> option Z.
Variable tie_rounds_up : Q -> Z -> bool.

(** A fresh entry is returned as it is; only the clock is read. *)
Lemma get_market_info_hit (symbol : string) (c : Client) (mi : MarketInfo) :
  _market_cache c !! symbol = Some mi ->
  market_cache_fresh symbol c = true ->
  get_market_info float_of_str int_of_str symbol c
  = (Ok (Some mi), set_clock_reads (S (clock_reads c)) c).
Proof.
  unfold market_cache_fresh. intros Hm Hf. rewrite Hm in Hf.
  unfold get_market_info, catch, bind at 1 2, time_time, get. simpl.
  rewrite Hm, Hf. reflexivity.
Qed.

(** A miss that succeeds stores what it returns, under the time read at
    the start of the call. *)
Lemma get_market_info_miss (symbol : string) (c : Client) (mi : MarketInfo)
  (c1 : Client) :
  market_cache_fresh symbol c = false ->
  get_market_info float_of_str int_of_str symbol c = (Ok (Some mi), c1) ->
  _market_cache c1 !! symbol = Some mi
  /\ _market_cache_time c1 !! symbol = Some (time_at (_exchange c) (clock_reads c))
  /\ _exchange c1 = _exchange c
  /\ clock_reads c1 = S (clock_reads c)
  /\ calls c1 = (calls c ++ [market symbol; fetchTicker symbol])%list.
Proof.
  unfold market_cache_fresh. intros Hf.
  unfold get_market_info, catch, bind at 1 2, time_time, get. simpl.
  match goal with
  | |- context [bind ?m ?k] => set (fetch := bind m k)
  end.
  assert (Hfetch :
            (let (r0, c') := fetch (set_clock_reads (S (clock_reads c)) c) in
             match r0 with
             | Ok a => (Ok a, c')
             | Raise _ => ret None c'
             end) = (Ok (Some mi), c1) ->
            _market_cache c1 !! symbol = Some mi
            /\ _market_cache_time c1 !! symbol
               = Some (time_at (_exchange c) (clock_reads c))
            /\ _exchange c1 = _exchange c
            /\ clock_reads c1 = S (clock_reads c)
            /\ calls c1 = (calls c ++ [market symbol; fetchTicker symbol])%list).
  { subst fetch. unfold bind, exchange_call, ret, modify. simpl.
    destruct (reply (_exchange c) (calls c) (market symbol)) as [mk|e];
      [|discriminate].
    destruct (reply (_exchange c) _ (fetchTicker symbol)) as [ticker|e];
      [|discriminate].
    destruct (from_exchange_market _ _ mk (Some ticker)) as [mi'|]; [|discriminate].
    intros [= <- <-]. simpl. rewrite !lookup_insert_eq, <- app_assoc. auto. }
  destruct (_market_cache c !! symbol) as [mi0|].
  - rewrite Hf. exact Hfetch.
  - exact Hfetch.
Qed.

(** X3. Round trip through the market cache: when [get_market_info] had to
    ask the exchange and obtained market information, it asked for the
    market and for the ticker, in this order, and a second call whose clock
    reading is less than [CACHE_DURATION] after the first returns the same
    information without any call to the exchange. *)
Theorem market_info_served_from_cache (symbol : string) (c : Client)
  (mi : MarketInfo) (c1 : Client) :
  market_cache_fresh symbol c = false ->
  get_market_info float_of_str int_of_str symbol c = (Ok (Some mi), c1) ->
  time_at (_exchange c) (clock_reads c1) - time_at (_exchange c) (clock_reads c)
    < CACHE_DURATION ->
  get_market_info float_of_str int_of_str symbol c1
  = (Ok (Some mi), set_clock_reads (S (clock_reads c1)) c1)
  /\ calls (set_clock_reads (S (clock_reads c1)) c1)
     = (calls c ++ [market symbol; fetchTicker symbol])%list.
Proof.
  intros Hf Hg Ht.
  destruct (get_market_info_miss _ _ _ _ Hf Hg) as (Hm & Htime & Hex & Hr & Hc).
  split; [|exact Hc].
  apply get_market_info_hit; [exact Hm|].
  unfold market_cache_fresh. rewrite Hm, Htime, Hex. simpl.
  apply Qltb_true. exact Ht.
Qed.

Lemma get_balance_hit (c : Client) (b : AccountBalance) :
  _balance_cache c = Some b ->
  balance_cache_fresh c = true ->
  get_balance float_of_str c = (Ok b, set_clock_reads (S (clock_reads c)) c).
Proof.
  unfold balance_cache_fresh. intros Hb Hf. rewrite Hb in Hf.
  unfold get_balance, catch, bind, time_time, get. simpl.
  rewrite Hb, Hf. reflexivity.
Qed.

(** X4. Round trip through the balance cache: when the cache is stale and
    the exchange answers [fetch_balance], [get_balance] returns the
    converted answer after that single call, and a second call whose clock
    reading is less than [CACHE_DURATION] after the first returns the same
    balance without any call to the exchange. *)
Theorem balance_served_from_cache (c : Client) (raw : json) :
  balance_cache_fresh c = false ->
  reply (_exchange c) (calls c) fetchBalance = Ok raw ->
  let b := from_exchange_balance float_of_str raw in
  let c1 := snd (get_balance float_of_str c) in
  fst (get_balance float_of_str c) = Ok b
  /\ calls c1 = (calls c ++ [fetchBalance])%list
  /\ (time_at (_exchange c) (clock_reads c1) - time_at (_exchange c) (clock_reads c)
        < CACHE_DURATION ->
      get_balance float_of_str c1 = (Ok b, set_clock_reads (S (clock_reads c1)) c1)).
Proof.
  intros Hf Hr. cbv zeta.
  assert (Hrun : get_balance float_of_str c
                 = (Ok (from_exchange_balance float_of_str raw),
                    set_balance_entry (from_exchange_balance float_of_str raw)
                      (time_at (_exchange c) (clock_reads c))
                      (set_calls (calls c ++ [fetchBalance])
                         (set_clock_reads (S (clock_reads c)) c)))).
  { unfold balance_cache_fresh in Hf.
    unfold get_balance, catch, bind, time_time, get, exchange_call, modify, ret.
    simpl. destruct (_balance_cache c) as [b0|].
    - rewrite Hf. simpl. rewrite Hr. reflexivity.
    - simpl. rewrite Hr. reflexivity. }
  rewrite Hrun. cbn [fst snd]. split; [reflexivity|]. split; [reflexivity|].
  intros Ht. apply get_balance_hit; [reflexivity|].
  unfold balance_cache_fresh. simpl. apply Qltb_true. exact Ht.
Qed.

End CacheFacts.

(** Under the clock that stands still the second call is served from the
    cache. *)
Lemma market_info_served_from_cache_witness :
  let c1 := snd (get_market_info no_float no_int "BTCUSDT" still_client) in
  get_market_info no_float no_int "BTCUSDT" c1
  = (Ok (Some demo_market), set_clock_reads (S (clock_reads c1)) c1)
  /\ calls (set_clock_reads (S (clock_reads c1)) c1)
     = [market "BTCUSDT"; fetchTicker "BTCUSDT"].
Proof.
  cbv zeta.
  apply (market_info_served_from_cache no_float no_int "BTCUSDT" still_client
           demo_market).
  - reflexivity.
  - vm_compute. reflexivity.
  - vm_compute. reflexivity.
Defined.

Lemma balance_served_from_cache_witness :
  let c1 := snd (get_balance no_float still_client) in
  fst (get_balance no_float still_client) = Ok demo_balance
  /\ calls c1 = [fetchBalance]
  /\ get_balance no_float c1
     = (Ok demo_balance, set_clock_reads (S (clock_reads c1)) c1).
Proof.
  destruct (balance_served_from_cache no_float still_client JNull)
    as (H1 & H2 & H3).
  - reflexivity.
  - reflexivity.
  - cbv zeta. split; [exact H1|]. split; [exact H2|].
    apply H3. vm_compute. reflexivity.
Defined.

(* ===================================================================== *)
(** ** Further properties: the margin that a sizing uses *)
(* ===================================================================== *)

Section SizingFacts.
Variable float_of_str : string -> option Q.
Variable int_of_str : string -> option Z.
Variable tie_rounds_up : Q -> Z -> bool.



End SizingFacts.


(* ===================================================================== *)
(** ** Further properties: the positions reported *)
(* ===================================================================== *)

Section PositionFacts.
Variable float_of_str : string -> option Q.
Variable int_of_str : string -> option Z.
Variable tie_rounds_up : Q -> Z -> bool.

Ltac walk_binds :=
  repeat match goal with
         | |- context [rbind ?m _] =>
             let E := fresh "E" in
             destruct m eqn:E; cbn [rbind]; try discriminate
         end.

Lemma Qabs_pos_nonzero (x : Q) : ~ x == 0 -> 0 < Qabs x.
Proof.
  intros Hn. destruct (Qlt_le_dec 0 (Qabs x)) as [H|H]; [exact H|].
  exfalso. apply Hn. apply Qabs_Qle_condition in H. lra.
Qed.

(** A position that [from_exchange_position] builds has a positive size, the
    symbol of the reply, and is short unless the reply says ['long']. *)
Lemma from_exchange_position_size (pos : json) (p : PositionInfo) :
  from_exchange_position float_of_str pos = Some p ->
  0 < pos_size p
  /\ exists d, pos = JObj d
       /\ dict_get "symbol" d = Some (JStr (pos_symbol p))
       /\ pos_side p
          = (if is_str (dict_get_default "side" JNull d) "long" then LONG else SHORT).
Proof.
  unfold from_exchange_position, float_get_or0.
  destruct pos as [| | | | |d]; try discriminate.
  cbn [py_get rbind].
  destruct (Py.py_float float_of_str _) as [amt|] eqn:Ea; cbn [rbind]; [|discriminate].
  destruct (Qeq_bool amt 0) eqn:Ez; [discriminate|].
  destruct (getitem (JObj d) "symbol") as [sym|] eqn:Es; cbn [rbind]; [|discriminate].
  walk_binds.
  destruct sym; try discriminate.
  intros [= <-]. simpl. split.
  - apply Qabs_pos_nonzero. intros Hq. apply Qeq_bool_iff in Hq. congruence.
  - exists d. split; [reflexivity|]. split; [|reflexivity].
    revert Es. unfold getitem.
    destruct (dict_get "symbol" d); [intros [= ->]; reflexivity|discriminate].
Qed.

Lemma omap_positions_open (items : list json) :
  Forall (fun p => 0 < pos_size p) (omap (from_exchange_position float_of_str) items).
Proof.
  induction items as [|pos rest IH]; [constructor|].
  cbn [omap list_omap].
  destruct (from_exchange_position float_of_str pos) as [p|] eqn:E; [|exact IH].
  constructor; [|exact IH].
  exact (proj1 (from_exchange_position_size _ _ E)).
Qed.

(** [fetch_positions] never raises, makes one call and leaves the caches
    alone. *)
Lemma fetch_positions_run (symbol : option string) (c : Client) :
  fetch_positions float_of_str symbol c
  = (Ok match reply (_exchange c) (calls c) (fetchPositions (positions_query symbol)) with
        | Ok positions =>
            match py_iter positions with
            | Ok items => omap (from_exchange_position float_of_str) items
            | Raise _ => []
            end
        | Raise _ => []
        end,
     set_calls (calls c ++ [fetchPositions (positions_query symbol)]) c).
Proof.
  unfold fetch_positions, catch, bind, exchange_call, lift, ret, positions_query.
  destruct (reply _ _ _) as [positions|e]; [|reflexivity].
  destruct (py_iter positions); reflexivity.
Qed.

(** The loop of [get_positions]: the positions that it adds are among those
    that [from_exchange_position] yields, in the same order; each symbol's
    cache entry is the last position added for the symbol. *)
Lemma collect_positions_spec (now : Q) (items : list json) :
  forall (acc : list PositionInfo) (c0 : Client) (res : list PositionInfo)
         (c1 : Client),
    collect_positions float_of_str now items acc c0 = (Ok res, c1) ->
    exists new : list PositionInfo,
      res = (acc ++ new)%list
      /\ sublist new (omap (from_exchange_position float_of_str) items)
      /\ _exchange c1 = _exchange c0
      /\ calls c1 = calls c0
      /\ clock_reads c1 = clock_reads c0
      /\ (forall s,
            _position_cache c1 !! s
            = match last (held_in s new) with
              | Some p => Some (OnePosition p)
              | None => _position_cache c0 !! s
              end)
      /\ (forall s,
            _position_cache_time c1 !! s
            = match last (held_in s new) with
              | Some _ => Some now
              | None => _position_cache_time c0 !! s
              end).
Proof.
  induction items as [|pos rest IH]; intros acc c0 res c1.
  - cbn [collect_positions]. unfold ret. intros [= <- <-]. exists [].
    rewrite app_nil_r. split; [reflexivity|]. split; [constructor|].
    repeat split; reflexivity.
  - cbn [collect_positions]. unfold bind at 1, lift at 1.
    destruct (py_get pos "contracts" (JNum 0)) as [cv|]; [|discriminate].
    unfold bind at 1, lift at 1.
    destruct (Py.py_float float_of_str cv) as [contracts|]; [|discriminate].
    cbn [omap list_omap].
    destruct (negb (Qeq_bool contracts 0)).
    + destruct (from_exchange_position float_of_str pos) as [pi|].
      * unfold bind at 1, modify at 1. intros H.
        destruct (IH _ _ _ _ H) as (new & Hres & Hsub & Hex & Hcalls & Hclk & Hc & Ht).
        exists (pi :: new). split; [rewrite Hres, <- app_assoc; reflexivity|].
        split; [apply sublist_skip; exact Hsub|].
        split; [rewrite Hex; reflexivity|]. split; [rewrite Hcalls; reflexivity|].
        split; [rewrite Hclk; reflexivity|].
        assert (Hlast : forall s,
                   last (held_in s (pi :: new))
                   = match last (held_in s new) with
                     | Some p => Some p
                     | None => if String.eqb (pos_symbol pi) s then Some pi else None
                     end).
        { intros s. unfold held_in. cbn [List.filter].
          destruct (String.eqb (pos_symbol pi) s).
          - rewrite last_cons. reflexivity.
          - destruct (last _); reflexivity. }
        split.
        -- intros s. rewrite Hc, Hlast.
           destruct (last (held_in s new)); [reflexivity|].
           simpl. destruct (String.eqb_spec (pos_symbol pi) s) as [->|Hne].
           ++ apply lookup_insert_eq.
           ++ apply lookup_insert_ne. exact Hne.
        -- intros s. rewrite Ht, Hlast.
           destruct (last (held_in s new)); [reflexivity|].
           simpl. destruct (String.eqb_spec (pos_symbol pi) s) as [->|Hne].
           ++ apply lookup_insert_eq.
           ++ apply lookup_insert_ne. exact Hne.
      * intros H.
        destruct (IH _ _ _ _ H) as (new & Hres & Hsub & Hrest).
        exists new. split; [exact Hres|]. split; [exact Hsub|]. exact Hrest.
    + intros H.
      destruct (IH _ _ _ _ H) as (new & Hres & Hsub & Hrest).
      exists new. split; [exact Hres|]. split; [|exact Hrest].
      destruct (from_exchange_position float_of_str pos);
        [apply sublist_cons|]; exact Hsub.
Qed.


(** A call of [get_positions] that misses the cache: either the body raised
    and the result is empty, or the loop ran over the reply of the
    exchange. *)
Lemma get_positions_miss_run (symbol : option string) (c : Client)
  (r : list cached_positions) (c1 : Client) :
  position_cache_fresh (cache_key symbol) c = false ->
  get_positions float_of_str symbol c = (Ok r, c1) ->
  let now := time_at (_exchange c) (clock_reads c) in
  let q := fetchPositions (positions_query symbol) in
  r = []
  \/ exists (positions : json) (items : list json) (ps : list PositionInfo)
            (c2 : Client),
       reply (_exchange c) (calls c) q = Ok positions
       /\ py_iter positions = Ok items
       /\ collect_positions float_of_str now items []
            (set_calls (calls c ++ [q]) (set_clock_reads (S (clock_reads c)) c))
          = (Ok ps, c2)
       /\ r = map OnePosition ps
       /\ c1 = (if match positions_query symbol with None => true | Some _ => false end
                then set_position_entry "all" (PositionList ps) now c2
                else c2).
Proof.
  unfold position_cache_fresh, cache_key. intros Hf. cbv zeta.
  unfold get_positions, catch, bind at 1 2, time_time, get. cbv zeta.
  match goal with
  | |- context [bind (exchange_call ?q) ?k] => set (fetch := bind (exchange_call q) k)
  end.
  assert (Hfetch :
            (let (r0, c') := fetch (set_clock_reads (S (clock_reads c)) c) in
             match r0 with
             | Ok a => (Ok a, c')
             | Raise _ => ret [] c'
             end) = (Ok r, c1) ->
            r = []
            \/ exists positions items ps c2,
                 reply (_exchange c) (calls c) (fetchPositions (positions_query symbol))
                 = Ok positions
                 /\ py_iter positions = Ok items
                 /\ collect_positions float_of_str
                      (time_at (_exchange c) (clock_reads c)) items []
                      (set_calls (calls c ++ [fetchPositions (positions_query symbol)])
                         (set_clock_reads (S (clock_reads c)) c))
                    = (Ok ps, c2)
                 /\ r = map OnePosition ps
                 /\ c1 = (if match positions_query symbol with
                             | None => true | Some _ => false end
                          then set_position_entry "all" (PositionList ps)
                                 (time_at (_exchange c) (clock_reads c)) c2
                          else c2)).
  { subst fetch. clear Hf. unfold bind at 1, exchange_call at 1.
    assert (Eq : (if match symbol with Some s => String.eqb s "" | None => true end
                  then None
                  else Some [match symbol with
                             | Some s => if String.eqb s "" then "all" else s
                             | None => "all"
                             end])
                 = positions_query symbol).
    { unfold positions_query. destruct symbol as [s|]; [|reflexivity].
      destruct (String.eqb s ""); reflexivity. }
    rewrite Eq. cbn [_exchange calls set_clock_reads].
    destruct (reply (_exchange c) (calls c) (fetchPositions (positions_query symbol)))
      as [positions|e] eqn:Er; [|unfold ret; intros [= <- <-]; left; reflexivity].
    unfold bind at 1, lift at 1.
    destruct (py_iter positions) as [items|e] eqn:Ei;
      [|unfold ret; intros [= <- <-]; left; reflexivity].
    unfold bind at 1.
    destruct (collect_positions float_of_str _ items [] _) as [[ps|e] c2] eqn:Ec;
      [|unfold ret; intros [= <- <-]; left; reflexivity].
    intros H. right. exists positions, items, ps, c2.
    split; [reflexivity|]. split; [exact Ei|]. split; [exact Ec|].
    revert H. unfold positions_query.
    destruct symbol as [s|]; [destruct (String.eqb s "")|];
      unfold bind, modify, ret; intros [= <- <-]; split; reflexivity. }
  cbn [_exchange clock_reads _position_cache _position_cache_time set_clock_reads].
  destruct (_position_cache c !! _) as [v|].
  - rewrite Hf. exact Hfetch.
  - exact Hfetch.
Qed.

Lemma map_OnePosition_inj (l1 l2 : list PositionInfo) :
  map OnePosition l1 = map OnePosition l2 -> l1 = l2.
Proof.
  revert l2. induction l1 as [|a l1 IH]; intros [|b l2]; try discriminate.
  - reflexivity.
  - cbn [map]. intros [= -> H]. f_equal. apply IH. exact H.
Qed.

(** X6. What [get_positions] reports on a cache miss is part of what
    [fetch_positions] reports for the same account, in the same order;
    every position that either of them reports has a positive size, and
    [fetch_positions] makes its one call and never raises. *)
Theorem get_positions_within_fetch_positions (symbol : option string) (c : Client)
  (ps : list PositionInfo) :
  position_cache_fresh (cache_key symbol) c = false ->
  fst (get_positions float_of_str symbol c) = Ok (map OnePosition ps) ->
  exists fs : list PositionInfo,
    fetch_positions float_of_str symbol c
    = (Ok fs, set_calls (calls c ++ [fetchPositions (positions_query symbol)]) c)
    /\ sublist ps fs
    /\ Forall (fun p => 0 < pos_size p) fs
    /\ Forall (fun p => 0 < pos_size p) ps.
Proof.
  intros Hf Hg. rewrite fetch_positions_run. eexists. split; [reflexivity|].
  assert (Hsub : sublist ps
                   match reply (_exchange c) (calls c)
                           (fetchPositions (positions_query symbol)) with
                   | Ok positions =>
                       match py_iter positions with
                       | Ok items => omap (from_exchange_position float_of_str) items
                       | Raise _ => []
                       end
                   | Raise _ => []
                   end).
  { destruct (get_positions float_of_str symbol c) as [r c1] eqn:Eg.
    cbn [fst] in Hg. subst r.
    destruct (get_positions_miss_run _ _ _ _ Hf Eg)
      as [Hnil|(positions & items & ps' & c2 & Hr & Hi & Hc & Hmap & _)].
    - destruct ps; [|discriminate]. apply sublist_nil_l.
    - apply map_OnePosition_inj in Hmap. subst ps'. rewrite Hr, Hi.
      destruct (collect_positions_spec _ _ _ _ _ _ Hc) as (new & Hres & Hs & _).
      cbn [app] in Hres. subst new. exact Hs. }
  assert (Hall : Forall (fun p => 0 < pos_size p)
                   match reply (_exchange c) (calls c)
                           (fetchPositions (positions_query symbol)) with
                   | Ok positions =>
                       match py_iter positions with
                       | Ok items => omap (from_exchange_position float_of_str) items
                       | Raise _ => []
                       end
                   | Raise _ => []
                   end).
  { destruct (reply _ _ _) as [positions|e]; [|constructor].
    destruct (py_iter positions); [apply omap_positions_open|constructor]. }
  split; [exact Hsub|]. split; [exact Hall|].
  apply list.Forall_forall. intros p Hp.
  apply (proj1 (list.Forall_forall _ _) Hall). eapply elem_of_sublist; eassumption.
Qed.

(** X7. The per-symbol cache keeps one position.  After a call of
    [get_positions] that missed the cache and reported the positions [ps],
    a call for a symbol [s], made less than [CACHE_DURATION] later by the
    clock, reports only the last position of [ps] held in [s], and does
    not ask the exchange. *)
Theorem get_positions_cache_keeps_last (symbol : option string) (s : string)
  (c : Client) (ps : list PositionInfo) (c1 : Client) (p : PositionInfo) :
  s <> "" -> s <> "all" ->
  position_cache_fresh (cache_key symbol) c = false ->
  get_positions float_of_str symbol c = (Ok (map OnePosition ps), c1) ->
  last (held_in s ps) = Some p ->
  time_at (_exchange c) (clock_reads c1) - time_at (_exchange c) (clock_reads c)
    < CACHE_DURATION ->
  get_positions float_of_str (Some s) c1
  = (Ok [OnePosition p], set_clock_reads (S (clock_reads c1)) c1)
  /\ calls c1 = (calls c ++ [fetchPositions (positions_query symbol)])%list.
Proof.
  intros Hs Hall Hf Hg Hlast Ht.
  destruct (get_positions_miss_run _ _ _ _ Hf Hg)
    as [Hnil|(positions & items & ps' & c2 & Hr & Hi & Hc & Hmap & Hc1)].
  { destruct ps; [discriminate|discriminate]. }
  apply map_OnePosition_inj in Hmap. subst ps'.
  destruct (collect_positions_spec _ _ _ _ _ _ Hc)
    as (new & Hres & _ & Hex & Hcalls & Hclk & Hcache & Htime).
  cbn [app] in Hres. subst new.
  assert (Hkey : cache_key (Some s) = s).
  { unfold cache_key. destruct (String.eqb_spec s ""); [contradiction|reflexivity]. }
  assert (Hfacts : _position_cache c1 !! s = Some (OnePosition p)
                   /\ _position_cache_time c1 !! s
                      = Some (time_at (_exchange c) (clock_reads c))
                   /\ _exchange c1 = _exchange c
                   /\ calls c1
                      = (calls c ++ [fetchPositions (positions_query symbol)])%list).
  { specialize (Hcache s). specialize (Htime s). rewrite Hlast in Hcache, Htime.
    subst c1. destruct (positions_query symbol); cbn.
    - rewrite Hcache, Htime, Hex, Hcalls. auto.
    - rewrite !lookup_insert_ne by (intros E; apply Hall; symmetry; exact E).
      rewrite Hcache, Htime, Hex, Hcalls. auto. }
  destruct Hfacts as (H1 & H2 & H3 & H4). split; [|exact H4].
  apply (get_positions_hit float_of_str (Some s)).
  - rewrite Hkey. exact H1.
  - rewrite Hkey. unfold position_cache_fresh. rewrite H1, H2, H3. simpl.
    apply Qltb_true. exact Ht.
Qed.

End PositionFacts.

Lemma get_positions_within_fetch_positions_witness :
  exists fs,
    fetch_positions no_float None still_client
    = (Ok fs, set_calls [fetchPositions None] still_client)
    /\ sublist [demo_position] fs.
Proof.
  destruct (get_positions_within_fetch_positions no_float None still_client
              [demo_position]) as (fs & H1 & H2 & _).
  - reflexivity.
  - vm_compute. reflexivity.
  - exists fs. split; [exact H1|exact H2].
Defined.

(** In hedge mode the first call reports both positions, the second only
    the short one. *)
Lemma get_positions_cache_keeps_last_witness :
  let c1 := snd (get_positions no_float (Some "BTCUSDT") hedged_client) in
  (exists long, fst (get_positions no_float (Some "BTCUSDT") hedged_client)
                = Ok [OnePosition long; OnePosition hedged_short])
  /\ fst (get_positions no_float (Some "BTCUSDT") c1) = Ok [OnePosition hedged_short].
Proof.
  cbv zeta. split; [eexists; vm_compute; reflexivity|].
  rewrite (proj1 (get_positions_cache_keeps_last no_float (Some "BTCUSDT") "BTCUSDT"
                    hedged_client
                    [mkPositionInfo "BTCUSDT" LONG 1 100 CROSS 1 0 0 0 0 0 0 0 0 0 0 0 0 0;
                     hedged_short]
                    (snd (get_positions no_float (Some "BTCUSDT") hedged_client))
                    hedged_short
                    ltac:(discriminate) ltac:(discriminate) eq_refl
                    ltac:(vm_compute; reflexivity) eq_refl
                    ltac:(vm_compute; reflexivity))).
  reflexivity.
Defined.

(* ===================================================================== *)
(** ** Further properties: risk, sizing and levels of a signal *)
(* ===================================================================== *)

(** The highest and the lowest of a non-empty sequence of prices. *)
Lemma maxQ_spec (l : list Q) : forall x : Q,
  In (maxQ x l) (x :: l) /\ forall y, In y (x :: l) -> y <= maxQ x l.
Proof.
  induction l as [|a l IH]; intros x.
  - simpl. split; [left; reflexivity|]. intros y [<-|[]]. apply Qle_refl.
  - unfold maxQ. cbn [fold_left]. fold (maxQ (if Qltb x a then a else x) l).
    destruct (IH (if Qltb x a then a else x)) as [Hin Hmax]. split.
    + destruct Hin as [Hin|Hin]; [|right; right; exact Hin].
      rewrite <- Hin. destruct (Qltb x a); [right; left|left]; reflexivity.
    + intros y Hy.
      assert (Hstep : x <= (if Qltb x a then a else x)
                      /\ a <= (if Qltb x a then a else x)).
      { destruct (Qltb x a) eqn:E.
        - apply Qltb_true in E. split; [apply Qlt_le_weak; exact E|apply Qle_refl].
        - apply Qltb_false in E. split; [apply Qle_refl|exact E]. }
      destruct Hy as [<-|[<-|Hy]].
      * eapply Qle_trans; [exact (proj1 Hstep)|]. apply Hmax. left. reflexivity.
      * eapply Qle_trans; [exact (proj2 Hstep)|]. apply Hmax. left. reflexivity.
      * apply Hmax. right. exact Hy.
Qed.

Lemma minQ_spec (l : list Q) : forall x : Q,
  In (minQ x l) (x :: l) /\ forall y, In y (x :: l) -> minQ x l <= y.
Proof.
  induction l as [|a l IH]; intros x.
  - simpl. split; [left; reflexivity|]. intros y [<-|[]]. apply Qle_refl.
  - unfold minQ. cbn [fold_left]. fold (minQ (if Qltb a x then a else x) l).
    destruct (IH (if Qltb a x then a else x)) as [Hin Hmin]. split.
    + destruct Hin as [Hin|Hin]; [|right; right; exact Hin].
      rewrite <- Hin. destruct (Qltb a x); [right; left|left]; reflexivity.
    + intros y Hy.
      assert (Hstep : (if Qltb a x then a else x) <= x
                      /\ (if Qltb a x then a else x) <= a).
      { destruct (Qltb a x) eqn:E.
        - apply Qltb_true in E. split; [apply Qlt_le_weak; exact E|apply Qle_refl].
        - apply Qltb_false in E. split; [apply Qle_refl|exact E]. }
      destruct Hy as [<-|[<-|Hy]].
      * eapply Qle_trans; [|exact (proj1 Hstep)]. apply Hmin. left. reflexivity.
      * eapply Qle_trans; [|exact (proj2 Hstep)]. apply Hmin. left. reflexivity.
      * apply Hmin. right. exact Hy.
Qed.

(** The highest, or lowest, price of a non-empty list of levels is the price
    of one of them. *)
Lemma extreme_price_level (f : Q -> list Q -> Q) (tp : TakeProfitLevel)
  (tps : list TakeProfitLevel) :
  (forall x l, In (f x l) (x :: l)) ->
  exists t, In t (tp :: tps) /\ tp_price t = f (tp_price tp) (map tp_price tps).
Proof.
  intros Hf. specialize (Hf (tp_price tp) (map tp_price tps)).
  change (tp_price tp :: map tp_price tps) with (map tp_price (tp :: tps)) in Hf.
  apply in_map_iff in Hf. destruct Hf as (t & Ht & Hin). exists t. auto.
Qed.

Lemma Qdiv_ge (a b k : Q) : 0 < b -> (k <= a / b <-> k * b <= a).
Proof.
  intros Hb. split; intros H.
  - apply (Qmult_le_compat_r _ _ b) in H; [|apply Qlt_le_weak; exact Hb].
    assert (E : a / b * b == a) by (field; lra). rewrite E in H. exact H.
  - apply (Qmult_le_r _ _ b Hb).
    assert (E : a / b * b == a) by (field; lra). rewrite E. exact H.
Qed.

(** The acceptance test of [_validate_risk_ratio] in terms of the ratio that
    [calculate_risk_reward_ratio] reports, and what an accepted opening
    signal looks like. *)
Lemma validate_risk_ratio_spec (signal : TradingSignal) :
  (TradingLogic._validate_risk_ratio signal = true <->
   action signal = "CLOSE"
   \/ (TradingLogic.falsy_price (stop_loss signal) = false
       /\ 15 # 10 <= TradingLogic.calculate_risk_reward_ratio signal))
  /\ (TradingLogic._validate_risk_ratio signal = true ->
      action signal <> "CLOSE" ->
      exists (e sl : Q) (tp : TakeProfitLevel),
        TradingLogic.entry_reference signal = Some e
        /\ stop_loss signal = Some sl
        /\ In tp (take_profit_levels signal)
        /\ if String.eqb (action signal) "OPEN_LONG"
           then sl < e /\ (15 # 10) * (e - sl) <= tp_price tp - e
           else e < sl /\ (15 # 10) * (sl - e) <= e - tp_price tp).
Proof.
  unfold TradingLogic._validate_risk_ratio, TradingLogic.calculate_risk_reward_ratio,
    TradingLogic.falsy_price.
  destruct (String.eqb_spec (action signal) "CLOSE") as [Hc|Hc].
  { split; [split; auto|]. intros _ Hn. contradiction. }
  assert (Hzero : ~ 15 # 10 <= 0) by (intros H; apply Qle_bool_iff in H; discriminate).
  destruct (stop_loss signal) as [sl|].
  2:{ split; [split; [discriminate|intros [?|[? _]]; [contradiction|discriminate]]|].
      discriminate. }
  destruct (take_profit_levels signal) as [|tp tps] eqn:Etps.
  { split.
    - split; [discriminate|]. intros [?|[_ H]]; [contradiction|].
      destruct (TradingLogic.entry_reference signal); contradiction.
    - discriminate. }
  destruct (Qeq_bool sl 0) eqn:Esl.
  { split; [split; [discriminate|intros [?|[? _]]; [contradiction|discriminate]]|].
    discriminate. }
  destruct (TradingLogic.entry_reference signal) as [e|].
  2:{ split; [split; [discriminate|intros [?|[_ H]]; contradiction]|]. discriminate. }
  destruct (String.eqb (action signal) "OPEN_LONG").
  - destruct (Qltb 0 (e - sl)) eqn:Er.
    + apply Qltb_true in Er. split.
      * rewrite Qle_bool_iff. split; [intros H; right; split; [reflexivity|exact H]|].
        intros [?|[_ H]]; [contradiction|exact H].
      * intros H _. apply Qle_bool_iff in H. apply Qdiv_ge in H; [|exact Er].
        destruct (extreme_price_level maxQ tp tps (fun x l => proj1 (maxQ_spec l x)))
          as (t & Hin & Hp).
        exists e, sl, t. rewrite Hp. repeat split; try assumption. lra.
    + split; [split; [discriminate|intros [?|[_ H]]; contradiction]|]. discriminate.
  - destruct (Qltb 0 (sl - e)) eqn:Er.
    + apply Qltb_true in Er. split.
      * rewrite Qle_bool_iff. split; [intros H; right; split; [reflexivity|exact H]|].
        intros [?|[_ H]]; [contradiction|exact H].
      * intros H _. apply Qle_bool_iff in H. apply Qdiv_ge in H; [|exact Er].
        destruct (extreme_price_level minQ tp tps (fun x l => proj1 (minQ_spec l x)))
          as (t & Hin & Hp).
        exists e, sl, t. rewrite Hp. repeat split; try assumption. lra.
    + split; [split; [discriminate|intros [?|[_ H]]; contradiction]|]. discriminate.
Qed.

(** X8. [_validate_risk_ratio] and [calculate_risk_reward_ratio] agree: a
    signal is accepted exactly when it is a CLOSE, or has a stop other
    than [None] and zero and a reported ratio of at least 1.5.  An accepted
    opening signal has its stop on the loss side of the entry reference and
    a take-profit level that pays at least 1.5 times the risk. *)
Theorem risk_ratio_check_agrees (signal : TradingSignal) :
  (TradingLogic._validate_risk_ratio signal = true <->
   action signal = "CLOSE"
   \/ (TradingLogic.falsy_price (stop_loss signal) = false
       /\ 15 # 10 <= TradingLogic.calculate_risk_reward_ratio signal))
  /\ (TradingLogic._validate_risk_ratio signal = true ->
      action signal <> "CLOSE" ->
      exists (e sl : Q) (tp : TakeProfitLevel),
        TradingLogic.entry_reference signal = Some e
        /\ stop_loss signal = Some sl
        /\ In tp (take_profit_levels signal)
        /\ if String.eqb (action signal) "OPEN_LONG"
           then sl < e /\ (15 # 10) * (e - sl) <= tp_price tp - e
           else e < sl /\ (15 # 10) * (sl - e) <= e - tp_price tp).
Proof. exact (validate_risk_ratio_spec signal). Qed.






Lemma score_bounds (lev : Z) (d r : Q) :
  (0 <= TradingLogic.leverage_score lev <= 3)%Z
  /\ (0 <= TradingLogic.stop_distance_score d <= 3)%Z
  /\ (0 <= TradingLogic.rr_score r <= 3)%Z
  /\ ((1 <= TradingLogic.leverage_score lev)%Z -> (5 < lev)%Z)
  /\ ((1 <= TradingLogic.stop_distance_score d)%Z -> d < 3)
  /\ ((1 <= TradingLogic.rr_score r)%Z -> r < 25 # 10).
Proof.
  unfold TradingLogic.leverage_score, TradingLogic.stop_distance_score,
    TradingLogic.rr_score.
  repeat split.
  - destruct (20 <? lev)%Z, (10 <? lev)%Z, (5 <? lev)%Z; lia.
  - destruct (20 <? lev)%Z, (10 <? lev)%Z, (5 <? lev)%Z; lia.
  - destruct (Qltb d 1), (Qltb d 2), (Qltb d 3); lia.
  - destruct (Qltb d 1), (Qltb d 2), (Qltb d 3); lia.
  - destruct (Qltb r (15 # 10)), (Qltb r 2), (Qltb r (25 # 10)); lia.
  - destruct (Qltb r (15 # 10)), (Qltb r 2), (Qltb r (25 # 10)); lia.
  - destruct (Z.ltb_spec 20 lev), (Z.ltb_spec 10 lev), (Z.ltb_spec 5 lev); lia.
  - destruct (Qltb d 1) eqn:E1; [apply Qltb_true in E1; lra|].
    destruct (Qltb d 2) eqn:E2; [apply Qltb_true in E2; lra|].
    destruct (Qltb d 3) eqn:E3; [apply Qltb_true in E3; lra|]. lia.
  - destruct (Qltb r (15 # 10)) eqn:E1; [apply Qltb_true in E1; lra|].
    destruct (Qltb r 2) eqn:E2; [apply Qltb_true in E2; lra|].
    destruct (Qltb r (25 # 10)) eqn:E3; [apply Qltb_true in E3; lra|]. lia.
Qed.

(** X11. [_assess_risk_level] reports HIGH only when every one of the three
    factors adds to the score: the leverage is above 5, the stop is less
    than three percent of the entry away from it, and the reported ratio
    is below 2.5.  A signal without entry reference or without stop, or
    with an entry reference of zero, is MEDIUM. *)
Theorem high_risk_needs_every_factor (signal : TradingSignal) :
  (TradingLogic._assess_risk_level signal = "HIGH" ->
   (5 < leverage signal)%Z
   /\ TradingLogic.calculate_risk_reward_ratio signal < 25 # 10
   /\ exists e sl : Q,
        TradingLogic.entry_reference signal = Some e
        /\ stop_loss signal = Some sl
        /\ ~ e == 0
        /\ Qabs (e - sl) / e * 100 < 3)
  /\ ((TradingLogic.entry_reference signal = None \/ stop_loss signal = None
       \/ exists e, TradingLogic.entry_reference signal = Some e /\ e == 0) ->
      TradingLogic._assess_risk_level signal = "MEDIUM").
Proof.
  unfold TradingLogic._assess_risk_level. split.
  - destruct (TradingLogic.entry_reference signal) as [e|]; [|discriminate].
    destruct (stop_loss signal) as [sl|]; [|discriminate].
    unfold py_div. destruct (Qeq_bool e 0) eqn:E; [discriminate|].
    cbv zeta.
    pose proof (score_bounds (leverage signal) (Qabs (e - sl) / e * 100)
                  (TradingLogic.calculate_risk_reward_ratio signal))
      as (Hl & Hd & Hr & Hl1 & Hd1 & Hr1).
    destruct (Z.leb_spec 7
                (TradingLogic.leverage_score (leverage signal)
                 + TradingLogic.stop_distance_score (Qabs (e - sl) / e * 100)
                 + TradingLogic.rr_score
                     (TradingLogic.calculate_risk_reward_ratio signal))) as [H7|H7].
    + intros _. split; [apply Hl1; lia|]. split; [apply Hr1; lia|].
      exists e, sl. split; [reflexivity|]. split; [reflexivity|].
      split; [intros Hq; apply Qeq_bool_iff in Hq; congruence|apply Hd1; lia].
    + destruct (_ <=? _)%Z; discriminate.
  - intros [H|[H|(e & H & Hz)]].
    + rewrite H. reflexivity.
    + rewrite H. destruct (TradingLogic.entry_reference signal); reflexivity.
    + rewrite H. destruct (stop_loss signal); [|reflexivity].
      unfold py_div. apply Qeq_bool_iff in Hz. rewrite Hz. reflexivity.
Qed.

Lemma set_last_price_spec (price : Q) (l : list TakeProfitLevel) :
  map tp_percentage (TradingLogic.set_last_price price l) = map tp_percentage l
  /\ removelast (TradingLogic.set_last_price price l) = removelast l
  /\ length (TradingLogic.set_last_price price l) = length l
  /\ (l <> [] ->
      option_map tp_price (last (TradingLogic.set_last_price price l)) = Some price).
Proof.
  induction l as [|tp l IH]; [repeat split; congruence|].
  destruct l as [|tp2 l].
  - repeat split.
  - destruct IH as (IH1 & IH2 & IH3 & IH4).
    change (TradingLogic.set_last_price price (tp :: tp2 :: l))
      with (tp :: TradingLogic.set_last_price price (tp2 :: l)).
    split; [cbn [map]; f_equal; exact IH1|].
    split.
    { remember (TradingLogic.set_last_price price (tp2 :: l)) as r eqn:Er.
      destruct r as [|r0 r]; [discriminate IH3|].
      change (removelast (tp :: r0 :: r)) with (tp :: removelast (r0 :: r)).
      rewrite IH2. reflexivity. }
    split; [cbn [length]; f_equal; exact IH3|].
    intros _.
    remember (TradingLogic.set_last_price price (tp2 :: l)) as r eqn:Er.
    destruct r as [|r0 r]; [discriminate IH3|].
    rewrite last_cons_cons. apply IH4. discriminate.
Qed.

(** X12. Under HIGH volatility [adjust_for_market_conditions] moves the stop
    of a signal with entry [e] and stop [sl] to [e - |e - sl| * 1.2] for a
    long and to [e + |e - sl| * 1.2] for a short signal: on the loss side of
    the entry for the action of the signal, whichever side the stop was on,
    and no nearer to the entry than it was; the entry, the number of levels,
    their percentages and every level but the last are left as they are. *)
Theorem adjust_widens_stop (signal : TradingSignal) (market_conditions : dict)
  (e sl : Q) :
  is_str (dict_get_default "volatility" (JStr "NORMAL") market_conditions) "HIGH"
    = true ->
  TradingLogic.first_entry signal = Ok e ->
  stop_loss signal = Some sl -> ~ sl == 0 ->
  let signal' := TradingLogic.adjust_for_market_conditions signal market_conditions in
  (exists sl' : Q,
     stop_loss signal' = Some sl'
     /\ sl' = (if String.eqb (action signal) "OPEN_LONG"
               then e - Qabs (e - sl) * (12 # 10)
               else e + Qabs (e - sl) * (12 # 10))
     /\ (if String.eqb (action signal) "OPEN_LONG" then sl' <= e else e <= sl')
     /\ Qabs (e - sl) <= Qabs (e - sl'))
  /\ entry_price signal' = entry_price signal
  /\ entry_zones signal' = entry_zones signal
  /\ map tp_percentage (take_profit_levels signal')
     = map tp_percentage (take_profit_levels signal)
  /\ removelast (take_profit_levels signal')
     = removelast (take_profit_levels signal).
Proof.
  intros Hv He Hs Hz. cbv zeta.
  unfold TradingLogic.adjust_for_market_conditions. cbv zeta.
  assert (Hf : TradingLogic.falsy_price (stop_loss signal) = false).
  { rewrite Hs. unfold TradingLogic.falsy_price.
    destruct (Qeq_bool sl 0) eqn:E; [|reflexivity].
    apply Qeq_bool_iff in E. contradiction. }
  rewrite Hv, Hf, He, Hs. cbn [negb andb rbind from_option id].
  set (d := Qabs (e - sl)).
  set (sl' := if String.eqb (action signal) "OPEN_LONG"
              then e - d * (12 # 10) else e + d * (12 # 10)).
  set (s1 := set_stop_loss (Some sl') signal).
  assert (Hd : 0 <= d) by apply Qabs_nonneg.
  assert (Hstop : sl' = (if String.eqb (action signal) "OPEN_LONG"
                         then e - d * (12 # 10) else e + d * (12 # 10))
                  /\ (if String.eqb (action signal) "OPEN_LONG"
                      then sl' <= e else e <= sl')
                  /\ d <= Qabs (e - sl')).
  { split; [reflexivity|].
    unfold sl'. destruct (String.eqb (action signal) "OPEN_LONG").
    - split; [lra|].
      assert (E : e - (e - d * (12 # 10)) == (12 # 10) * d) by ring.
      rewrite E. rewrite Qabs.Qabs_pos by lra. lra.
    - split; [lra|].
      rewrite Qabs.Qabs_neg by lra. lra. }
  assert (H1 : TradingLogic.first_entry s1 = Ok e) by exact He.
  assert (H2 : take_profit_levels s1 = take_profit_levels signal) by reflexivity.
  rewrite H1, H2.
  pose proof (set_last_price_spec) as Hset.
  destruct (last (take_profit_levels signal)) as [last_tp|].
  - destruct (is_str _ "STRONG").
    + cbn [stop_loss entry_price entry_zones take_profit_levels
             set_take_profit_levels s1 set_stop_loss].
      split; [exists sl'; split; [reflexivity|exact Hstop]|].
      split; [reflexivity|]. split; [reflexivity|].
      split; apply Hset.
    + split; [exists sl'; split; [reflexivity|exact Hstop]|]. repeat split.
  - split; [exists sl'; split; [reflexivity|exact Hstop]|]. repeat split.
Qed.

(** Sorting: [py_sorted] permutes its argument and puts it in order. *)
Lemma insert_sorted_perm (x : Q) (l : list Q) :
  Permutation (TradingLogic.insert_sorted x l) (x :: l).
Proof.
  induction l as [|y l IH]; [reflexivity|].
  cbn [TradingLogic.insert_sorted]. destruct (Qltb x y); [reflexivity|].
  rewrite IH. apply perm_swap.
Qed.

Lemma py_sorted_perm (l : list Q) : Permutation (TradingLogic.py_sorted l) l.
Proof.
  induction l as [|x l IH]; [reflexivity|].
  cbn [TradingLogic.py_sorted fold_right].
  rewrite insert_sorted_perm. apply perm_skip. exact IH.
Qed.

Lemma insert_sorted_sorted (x : Q) (l : list Q) :
  StronglySorted Qle l -> StronglySorted Qle (TradingLogic.insert_sorted x l).
Proof.
  induction l as [|y l IH]; intros Hs.
  - constructor; constructor.
  - cbn [TradingLogic.insert_sorted]. inversion Hs as [|? ? Hs' Hall]; subst.
    destruct (Qltb x y) eqn:E.
    + apply Qltb_true in E. constructor; [exact Hs|].
      constructor; [apply Qlt_le_weak; exact E|].
      apply List.Forall_forall. intros z Hz.
      apply (proj1 (List.Forall_forall _ _) Hall) in Hz. lra.
    + apply Qltb_false in E. constructor; [apply IH; exact Hs'|].
      apply (Permutation_Forall (x := x :: l));
        [symmetry; apply insert_sorted_perm|].
      constructor; [exact E|exact Hall].
Qed.

Lemma py_sorted_sorted (l : list Q) : StronglySorted Qle (TradingLogic.py_sorted l).
Proof.
  induction l as [|x l IH]; [constructor|].
  cbn [TradingLogic.py_sorted fold_right]. apply insert_sorted_sorted. exact IH.
Qed.

(** In a sorted list whose neighbours are at least [d] apart, any two
    elements are. *)
Lemma apart_sorted (d : Q) (l : list Q) :
  StronglySorted Qle l -> TradingLogic.too_close d l = false ->
  ForallOrdPairs (fun a b => d <= Qabs (a - b)) l.
Proof.
  induction l as [|a l IH]; intros Hs Hc; [constructor|].
  inversion Hs as [|? ? Hs' Hall]; subst.
  destruct l as [|b l]; [constructor; constructor|].
  cbn [TradingLogic.too_close] in Hc. apply orb_false_iff in Hc.
  destruct Hc as [Hab Hc]. apply Qltb_false in Hab.
  constructor; [|apply IH; assumption].
  inversion Hall as [|? ? Hle Hall']; subst.
  inversion Hs' as [|? ? _ Hb]; subst.
  assert (Hd : d <= b - a).
  { rewrite Qabs.Qabs_pos in Hab by lra. exact Hab. }
  constructor.
  - rewrite Qabs.Qabs_neg by lra. lra.
  - apply List.Forall_forall. intros c Hin.
    apply (proj1 (List.Forall_forall _ _) Hb) in Hin.
    rewrite Qabs.Qabs_neg by lra. lra.
Qed.

Lemma apart_perm (d : Q) (l l' : list Q) :
  Permutation l l' ->
  ForallOrdPairs (fun a b => d <= Qabs (a - b)) l ->
  ForallOrdPairs (fun a b => d <= Qabs (a - b)) l'.
Proof.
  assert (Hsym : forall a b : Q, d <= Qabs (a - b) -> d <= Qabs (b - a)).
  { intros a b H. assert (E : b - a == - (a - b)) by ring.
    rewrite E, Qabs_opp. exact H. }
  induction 1 as [|x l l' Hp IH|x y l|l l' l'' _ IH1 _ IH2]; intros H.
  - constructor.
  - inversion H as [|? ? Hx Hl]; subst. constructor; [|apply IH; exact Hl].
    eapply Permutation_Forall; eassumption.
  - inversion H as [|? ? Hy Hl]; subst. inversion Hl as [|? ? Hx Hl']; subst.
    inversion Hy as [|? ? Hyx Hy']; subst.
    constructor; [constructor; [apply Hsym; exact Hyx|exact Hx]|].
    constructor; assumption.
  - apply IH2, IH1, H.
Qed.

(** X13. Levels that [validate_technical_levels] accepts: with a stop and
    at least one take-profit level, the ratio that
    [calculate_risk_reward_ratio] reports is positive; any two entry
    zones are at least 0.001 apart in price. *)
Theorem technical_levels_sound (signal : TradingSignal) :
  TradingLogic.validate_technical_levels signal = true ->
  (TradingLogic.falsy_price (stop_loss signal) = false ->
   take_profit_levels signal <> [] ->
   0 < TradingLogic.calculate_risk_reward_ratio signal)
  /\ ForallOrdPairs (fun a b => 1 # 1000 <= Qabs (a - b))
       (map zone_price (entry_zones signal)).
Proof.
  unfold TradingLogic.validate_technical_levels. cbv zeta. intros H.
  apply andb_true_iff in H. destruct H as [H Hz].
  apply andb_true_iff in H. destruct H as [Hstop Htp].
  split.
  - intros Hf Hne. rewrite Hf in Hstop.
    unfold TradingLogic.calculate_risk_reward_ratio.
    destruct (TradingLogic.entry_reference signal) as [e|]; [|discriminate].
    destruct (stop_loss signal) as [sl|]; [|discriminate].
    destruct (take_profit_levels signal) as [|tp tps]; [contradiction|].
    cbn [forallb] in Htp. apply andb_true_iff in Htp. destruct Htp as [Htp _].
    destruct (String.eqb (action signal) "OPEN_LONG").
    + apply Qltb_true in Hstop, Htp.
      assert (Hr : Qltb 0 (e - sl) = true) by (apply Qltb_true; lra).
      rewrite Hr.
      destruct (maxQ_spec (map tp_price tps) (tp_price tp)) as [_ Hmax].
      specialize (Hmax (tp_price tp) (or_introl eq_refl)).
      apply Qlt_shift_div_l; lra.
    + apply Qltb_true in Hstop, Htp.
      assert (Hr : Qltb 0 (sl - e) = true) by (apply Qltb_true; lra).
      rewrite Hr.
      destruct (minQ_spec (map tp_price tps) (tp_price tp)) as [_ Hmin].
      specialize (Hmin (tp_price tp) (or_introl eq_refl)).
      apply Qlt_shift_div_l; lra.
  - apply negb_true_iff in Hz.
    apply (apart_perm _ _ _ (py_sorted_perm _)).
    apply apart_sorted; [apply py_sorted_sorted|exact Hz].
Qed.

Section CandidateFacts.
Variable float_of_str : string -> option Q.
Variable int_of_str : string -> option Z.
Variable dynamic_sl_default : bool.
Variable float_sum : list Q -> Q.

(** X14. A candidate whose take-profit percentages have a total of zero, as
    the program adds them up (0.5 and -0.5, say), yields no signal: the
    division of the percentages by the total raises. *)
Theorem zero_sum_take_profits_rejected (data : dict) (tps : list TakeProfitLevel) :
  TradingLogic.parse_take_profits float_of_str data = Ok tps ->
  tps <> [] ->
  float_sum (map tp_percentage tps) == 0 ->
  TradingLogic._convert_to_trading_signal float_of_str int_of_str
    dynamic_sl_default float_sum data = None.
Proof.
  intros Hp Hne Hz.
  assert (Hn : exists e, TradingLogic.normalize_percentages float_sum tps = Raise e).
  { unfold TradingLogic.normalize_percentages.
    destruct tps as [|tp rest]; [contradiction|].
    set (total := float_sum (map tp_percentage (tp :: rest))) in *.
    assert (Hc : isclose total 1 TradingLogic.rel_tol = false).
    { unfold isclose. destruct (Qle_bool _ _) eqn:E; [|reflexivity].
      apply Qle_bool_iff in E. exfalso. revert E.
      rewrite Hz. unfold TradingLogic.rel_tol. intros E.
      apply Qle_bool_iff in E. discriminate. }
    rewrite Hc. cbn [negb TradingLogic.renormalize]. unfold py_div.
    apply Qeq_bool_iff in Hz. rewrite Hz. cbn [rbind]. eexists. reflexivity. }
  destruct Hn as [e Hn].
  unfold TradingLogic._convert_to_trading_signal, TradingLogic.convert_body.
  destruct (negb _); [reflexivity|].
  destruct (TradingLogic.parse_entry float_of_str data) as [[[ep zones]|]|];
    cbn [rbind]; try reflexivity.
  rewrite Hp. cbn [rbind]. rewrite Hn. cbn [rbind].
  destruct ep; [reflexivity|]. destruct zones; reflexivity.
Qed.

Lemma dict_get_pop_ne (k k' : string) (d : dict) :
  k <> k' -> dict_get k (dict_pop k' d) = dict_get k d.
Proof.
  intros Hne. induction d as [|[k0 v0] d IH]; cbn [dict_pop dict_get]; [reflexivity|].
  destruct (String.eqb_spec k' k0) as [->|Hk].
  - destruct (String.eqb_spec k k0); [contradiction|exact IH].
  - cbn [dict_get]. destruct (String.eqb k k0); [reflexivity|exact IH].
Qed.

Lemma dict_get_pop_eq (k : string) (d : dict) : dict_get k (dict_pop k d) = None.
Proof.
  induction d as [|[k0 v0] d IH]; cbn [dict_pop dict_get]; [reflexivity|].
  destruct (String.eqb k k0) eqn:E; [exact IH|]. cbn [dict_get]. rewrite E. exact IH.
Qed.

(** A numeric field that has been normalised leaves the other keys alone. *)
Lemma normalize_numeric_get_ne (k f : string) (d0 n : dict) :
  k <> f ->
  TradingLogic.normalize_numeric float_of_str f d0 = Ok n ->
  dict_get k n = dict_get k d0.
Proof.
  intros Hne. unfold TradingLogic.normalize_numeric.
  destruct (dict_get f d0) as [v|]; [|intros [= <-]; reflexivity].
  destruct (Py.py_float float_of_str v) as [q|e].
  - intros [= <-]. apply dict_get_set_ne. exact Hne.
  - destruct (kind_in _ e); [|discriminate].
    intros [= <-]. apply dict_get_pop_ne. exact Hne.
Qed.

(** A numeric field other than the leverage, once normalised, holds its
    value as a number, or nothing when the value does not convert. *)
Lemma normalize_numeric_get_eq (k : string) (d0 n : dict) :
  k <> "leverage" ->
  TradingLogic.normalize_numeric float_of_str k d0 = Ok n ->
  dict_get k n
  = match dict_get k d0 with
    | Some v =>
        match Py.py_float float_of_str v with
        | Ok q => Some (JNum q)
        | Raise _ => None
        end
    | None => None
    end.
Proof.
  intros Hl. unfold TradingLogic.normalize_numeric.
  destruct (dict_get k d0) as [v|] eqn:E; [|intros [= <-]; exact E].
  destruct (Py.py_float float_of_str v) as [q|e].
  - intros [= <-]. destruct (String.eqb_spec k "leverage"); [contradiction|].
    apply dict_get_set_eq.
  - destruct (kind_in _ e); [|discriminate].
    intros [= <-]. apply dict_get_pop_eq.
Qed.

Lemma normalize_fields_get (k : string) (fields : list string) (d0 n : dict) :
  ~ In k fields ->
  TradingLogic.normalize_fields float_of_str fields d0 = Ok n ->
  dict_get k n = dict_get k d0.
Proof.
  revert d0. induction fields as [|f fs IH]; intros d0 Hk;
    cbn [TradingLogic.normalize_fields].
  - intros [= <-]. reflexivity.
  - destruct (TradingLogic.normalize_numeric float_of_str f d0) as [n0|] eqn:E;
      cbn [rbind]; [|discriminate].
    intros H. rewrite (IH n0) by (try exact H; intros Hin; apply Hk; right; exact Hin).
    apply (normalize_numeric_get_ne k f d0 n0); [|exact E].
    intros ->. apply Hk. left. reflexivity.
Qed.

(** The fields are normalised one after the other, each once. *)
Lemma normalize_fields_own (k : string) (before after : list string) (d0 n : dict) :
  k <> "leverage" -> ~ In k before -> ~ In k after ->
  TradingLogic.normalize_fields float_of_str (before ++ k :: after)%list d0 = Ok n ->
  dict_get k n
  = match dict_get k d0 with
    | Some v =>
        match Py.py_float float_of_str v with
        | Ok q => Some (JNum q)
        | Raise _ => None
        end
    | None => None
    end.
Proof.
  intros Hl Hb Ha. revert d0. induction before as [|f fs IH]; intros d0;
    cbn [app TradingLogic.normalize_fields].
  - destruct (TradingLogic.normalize_numeric float_of_str k d0) as [n0|] eqn:E;
      cbn [rbind]; [|discriminate].
    intros H. rewrite (normalize_fields_get k after n0 n Ha H).
    apply normalize_numeric_get_eq; assumption.
  - destruct (TradingLogic.normalize_numeric float_of_str f d0) as [n0|] eqn:E;
      cbn [rbind]; [|discriminate].
    intros H. rewrite (IH (fun Hin => Hb (or_intror Hin)) n0 H).
    rewrite (normalize_numeric_get_ne k f d0 n0); [reflexivity| |exact E].
    intros ->. apply Hb. left. reflexivity.
Qed.

(** [_normalize_numbers] only touches the two lists of items and the four
    numeric fields. *)
Lemma normalize_numbers_get (k : string) (d : dict) :
  ~ In k ["entry_zones"; "take_profit_levels"; "stop_loss"; "position_size";
          "leverage"; "confidence"] ->
  dict_get k (TradingLogic._normalize_numbers float_of_str d) = dict_get k d.
Proof.
  intros Hk.
  assert (Hlist : forall key d0, k <> key ->
             dict_get k (fst (TradingLogic.normalize_item_list float_of_str key d0))
             = dict_get k d0).
  { intros key d0 Hne. unfold TradingLogic.normalize_item_list.
    destruct (dict_get key d0) as [[| | | |l|]|]; try reflexivity.
    destruct (TradingLogic.normalize_items float_of_str l) as [l' ok].
    cbn [fst]. apply dict_get_set_ne. exact Hne. }
  unfold TradingLogic._normalize_numbers.
  pose proof (Hlist "entry_zones" d) as H1.
  destruct (TradingLogic.normalize_item_list float_of_str "entry_zones" d)
    as [d1 ok1]. cbn [fst] in H1.
  rewrite <- H1 by (intros ->; apply Hk; simpl; auto).
  destruct ok1; cbn [negb]; [|reflexivity].
  pose proof (Hlist "take_profit_levels" d1) as H2.
  destruct (TradingLogic.normalize_item_list float_of_str "take_profit_levels" d1)
    as [d2 ok2]. cbn [fst] in H2.
  rewrite <- H2 by (intros ->; apply Hk; simpl; auto).
  destruct ok2; cbn [negb]; [|reflexivity].
  destruct (TradingLogic.normalize_fields _ _ d2) as [n|] eqn:En; [|reflexivity].
  apply (normalize_fields_get k
           ["stop_loss"; "position_size"; "leverage"; "confidence"] d2 n);
    [|exact En].
  intros Hin. apply Hk. right. right. exact Hin.
Qed.

(** What [_validate_json_data] has checked of the three required fields. *)
Lemma validate_json_fields (d : dict) :
  TradingLogic._validate_json_data float_of_str d = true ->
  exists ex sym act : string,
    dict_get "exchange" d = Some (JStr ex)
    /\ (ex = "BINANCE" \/ ex = "OKX")
    /\ dict_get "symbol" d = Some (JStr sym) /\ sym <> ""
    /\ dict_get "action" d = Some (JStr act)
    /\ (act = "OPEN_LONG" \/ act = "OPEN_SHORT" \/ act = "CLOSE").
Proof.
  unfold TradingLogic._validate_json_data, dict_has, dict_get_default.
  destruct (dict_get "exchange" d) as [ex|]; [|discriminate].
  destruct (dict_get "symbol" d) as [sym|]; [|discriminate].
  destruct (dict_get "action" d) as [act|]; [|discriminate].
  cbn [andb negb]. cbv zeta.
  destruct (is_str ex "BINANCE" || is_str ex "OKX") eqn:Eex; [|discriminate].
  cbn [negb].
  destruct sym as [| | |sym| |]; try discriminate.
  destruct (truthy (JStr sym)) eqn:Es; [|discriminate]. cbn [negb].
  destruct (is_str act "OPEN_LONG" || is_str act "OPEN_SHORT" || is_str act "CLOSE")
    eqn:Ea; [|discriminate].
  intros _.
  destruct ex as [| | |ex| |]; try discriminate.
  destruct act as [| | |act| |]; try discriminate.
  exists ex, sym, act. cbn [is_str] in *.
  split; [reflexivity|]. split.
  { apply orb_true_iff in Eex. destruct Eex as [E|E]; apply String.eqb_eq in E; auto. }
  split; [reflexivity|]. split.
  { intros ->. discriminate. }
  split; [reflexivity|].
  apply orb_true_iff in Ea. destruct Ea as [Ea|E].
  - apply orb_true_iff in Ea. destruct Ea as [E|E]; apply String.eqb_eq in E; auto.
  - apply String.eqb_eq in E. auto.
Qed.

Lemma build_signal_strings (data : dict) (ep : option Q) (zones : list EntryZone)
  (tps : list TakeProfitLevel) (sl : option Q) (signal : TradingSignal) :
  TradingLogic.build_signal float_of_str int_of_str dynamic_sl_default
    data ep zones tps sl = Ok signal ->
  dict_get "exchange" data = Some (JStr (exchange signal))
  /\ dict_get "symbol" data = Some (JStr (symbol signal))
  /\ dict_get "action" data = Some (JStr (action signal))
  /\ source_message signal = ""
  /\ dynamic_sl signal = dynamic_sl_default.
Proof.
  unfold TradingLogic.build_signal, TradingLogic.str_field.
  destruct (dict_get "exchange" data) as [[| | |ex| |]|]; try discriminate.
  destruct (dict_get "symbol" data) as [[| | |sym| |]|]; try discriminate.
  destruct (dict_get "action" data) as [[| | |act| |]|]; try discriminate.
  cbn [rbind]. unfold rbind. intros H.
  repeat match type of H with
         | match ?x with _ => _ end = _ => destruct x; [|discriminate]
         end.
  injection H as <-. repeat split.
Qed.

Lemma parse_entry_shape (data : dict) (ep : option Q) (zones : list EntryZone) :
  TradingLogic.parse_entry float_of_str data = Ok (Some (ep, zones)) ->
  ep = None \/ zones = [].
Proof.
  unfold TradingLogic.parse_entry.
  assert (Hprice :
            match dict_get "entry_price" data with
            | Some JNull | None => Ok (Some (None, []))
            | Some v =>
                match Py.py_float float_of_str v with
                | Ok q => Ok (Some (Some q, []))
                | Raise _ => Ok None
                end
            end = Ok (Some (ep, zones)) -> ep = None \/ zones = []).
  { destruct (dict_get "entry_price" data) as [[| | | | |]|];
      try destruct (Py.py_float float_of_str _); intros [= <- <-]; auto. }
  destruct (dict_get "entry_zones" data) as [[| | | |[|z zs]|]|]; try exact Hprice.
  destruct (TradingLogic.collect_pairs float_of_str (z :: zs)); cbn [rbind];
    [|discriminate].
  intros [= <- <-]. auto.
Qed.

(** A signal that [_convert_to_trading_signal] returns was built from the
    candidate, is valid, and has either a price or zones, not both. *)
Lemma convert_built (data : dict) (signal : TradingSignal) :
  TradingLogic._convert_to_trading_signal float_of_str int_of_str
    dynamic_sl_default float_sum data = Some signal ->
  (exists ep zones tps sl,
     TradingLogic.build_signal float_of_str int_of_str dynamic_sl_default
       data ep zones tps sl = Ok signal)
  /\ is_valid signal = true
  /\ ((entry_price signal = None /\ entry_zones signal <> [])
      \/ (entry_price signal <> None /\ entry_zones signal = [])).
Proof.
  unfold TradingLogic._convert_to_trading_signal, TradingLogic.convert_body.
  destruct (negb _); [discriminate|].
  destruct (TradingLogic.parse_entry float_of_str data) as [[[ep zones]|]|] eqn:Ee;
    cbn [rbind]; try discriminate.
  apply parse_entry_shape in Ee.
  assert (Hgo :
            match (tps <- TradingLogic.parse_take_profits float_of_str data ;;
                   tps' <- TradingLogic.normalize_percentages float_sum tps ;;
                   stop_loss <- TradingLogic.parse_stop_loss float_of_str data ;;
                   match TradingLogic.build_signal float_of_str int_of_str
                           dynamic_sl_default data ep zones tps' stop_loss with
                   | Raise _ => Ok None
                   | Ok s => if is_valid s then Ok (Some s) else Ok None
                   end) with
            | Ok r0 => r0
            | Raise _ => None
            end = Some signal ->
            (exists ep zones tps sl,
                TradingLogic.build_signal float_of_str int_of_str dynamic_sl_default
                  data ep zones tps sl = Ok signal)
            /\ is_valid signal = true
            /\ entry_price signal = ep /\ entry_zones signal = zones).
  { unfold rbind.
    destruct (TradingLogic.parse_take_profits float_of_str data) as [tps|];
      [|discriminate].
    destruct (TradingLogic.normalize_percentages float_sum tps) as [tps'|]; [|discriminate].
    destruct (TradingLogic.parse_stop_loss float_of_str data) as [stop|];
      [|discriminate].
    destruct (TradingLogic.build_signal _ _ _ _ _ _ _ _) as [s|] eqn:Eb;
      [|discriminate].
    destruct (is_valid s) eqn:Ev; [|discriminate].
    intros [= ->]. split; [eauto|]. split; [exact Ev|].
    apply build_signal_fields in Eb. destruct Eb as (H1 & H2 & _). auto. }
  destruct ep as [q|].
  - intros H. destruct (Hgo H) as (Hb & Hv & H1 & H2).
    split; [exact Hb|]. split; [exact Hv|]. right.
    rewrite H1, H2. split; [discriminate|].
    destruct Ee as [Ee|Ee]; [discriminate|exact Ee].
  - destruct zones as [|z zs]; [discriminate|].
    intros H. destruct (Hgo H) as (Hb & Hv & H1 & H2).
    split; [exact Hb|]. split; [exact Hv|]. left.
    rewrite H1, H2. split; [reflexivity|discriminate].
Qed.

(** X15. A signal that [process_message] returns carries the exchange, the
    symbol and the action of the candidate; the exchange is BINANCE or
    OKX, the symbol is not empty, the action is OPEN_LONG, OPEN_SHORT or
    CLOSE; the signal is valid and has either an entry price or entry
    zones, never both. *)
Theorem process_message_signal_well_formed (d : dict) (signal : TradingSignal) :
  TradingLogic.process_message float_of_str int_of_str dynamic_sl_default float_sum (Some d)
    = Some signal ->
  dict_get "exchange" d = Some (JStr (exchange signal))
  /\ dict_get "symbol" d = Some (JStr (symbol signal))
  /\ dict_get "action" d = Some (JStr (action signal))
  /\ (exchange signal = "BINANCE" \/ exchange signal = "OKX")
  /\ symbol signal <> ""
  /\ (action signal = "OPEN_LONG" \/ action signal = "OPEN_SHORT"
      \/ action signal = "CLOSE")
  /\ is_valid signal = true
  /\ ((entry_price signal = None /\ entry_zones signal <> [])
      \/ (entry_price signal <> None /\ entry_zones signal = [])).
Proof.
  intros H.
  assert (Hv : TradingLogic._validate_json_data float_of_str d = true).
  { revert H. unfold TradingLogic.process_message.
    destruct (truthy (JObj d)); [|discriminate].
    destruct (TradingLogic._validate_json_data float_of_str d);
      [reflexivity|discriminate]. }
  apply process_message_convert in H. apply convert_built in H.
  destruct H as ((ep & zones & tps & sl & Hb) & Hvalid & Hshape).
  apply build_signal_strings in Hb. destruct Hb as (H1 & H2 & H3 & _).
  rewrite normalize_numbers_get in H1, H2, H3
    by (simpl; intros H; repeat (destruct H as [H|H]; [discriminate|]); exact H).
  destruct (validate_json_fields d Hv) as (ex & sym & act & E1 & Hex & E2 & Hs & E3 & Ha).
  rewrite H1 in E1. rewrite H2 in E2. rewrite H3 in E3.
  injection E1 as <-. injection E2 as <-. injection E3 as <-.
  repeat split; assumption.
Qed.

End CandidateFacts.



(** Entry 100, stop 90, HIGH volatility: the stop moves to 100 - 10 * 1.2. *)
Lemma adjust_widens_stop_witness :
  exists sl' : Q,
    stop_loss (TradingLogic.adjust_for_market_conditions signal_rr_1_2
                 [("volatility", JStr "HIGH")]) = Some sl'
    /\ sl' = 100 - Qabs (100 - 90) * (12 # 10)
    /\ sl' <= 100
    /\ Qabs (100 - 90) <= Qabs (100 - sl').
Proof.
  destruct (adjust_widens_stop signal_rr_1_2 [("volatility", JStr "HIGH")] 100 90)
    as ((sl' & H1 & H2 & H3 & H4) & _);
    [reflexivity|reflexivity|reflexivity|discriminate|].
  exists sl'. split; [exact H1|]. split; [exact H2|]. split; [exact H3|exact H4].
Defined.

(** The signal with zones at 100 and 99, stop 95 and target 110. *)
Lemma technical_levels_sound_witness :
  0 < TradingLogic.calculate_risk_reward_ratio signal_zones.
Proof.
  apply (proj1 (technical_levels_sound signal_zones eq_refl));
    [reflexivity|discriminate].
Defined.

Lemma zero_sum_take_profits_rejected_witness :
  TradingLogic._convert_to_trading_signal no_float no_int false sumQ candidate_zero_sum
  = None.
Proof.
  apply (zero_sum_take_profits_rejected no_float no_int false sumQ
           candidate_zero_sum [new_tp 110 (5 # 10); new_tp 120 (- (5 # 10))]);
    [reflexivity|discriminate|reflexivity].
Defined.

Lemma process_message_signal_well_formed_witness :
  exchange signal_rr_1_2 = "BINANCE" \/ exchange signal_rr_1_2 = "OKX".
Proof.
  apply (process_message_signal_well_formed no_float no_int false sumQ
           candidate_rr_1_2 signal_rr_1_2).
  reflexivity.
Defined.

(* ===================================================================== *)
(** ** Further properties: the manager *)
(* ===================================================================== *)

Section ManagerFacts.
Variable float_of_str : string -> option Q.
Variable int_of_str : string -> option Z.
Variable tie_rounds_up : Q -> Z -> bool.

(** X16. One turn of [monitor_positions] checks the first position only:
    the positions that [fetch_positions] reports all have a size other
    than zero, so the first one gets its stop and take-profit checks and
    the call of the undefined [_update_position_stats] then ends the
    turn; the other positions of the exchange are never looked at. *)
Theorem monitor_checks_first_position_only (exchange_name : string) (m : Manager)
  (c : Client) :
  exchanges m !! exchange_name = Some c ->
  exists positions : list PositionInfo,
    fetch_positions float_of_str None c
    = (Ok positions, set_calls (calls c ++ [fetchPositions None]) c)
    /\ monitor_exchange float_of_str int_of_str tie_rounds_up exchange_name m
       = let m1 := set_client exchange_name
                     (set_calls (calls c ++ [fetchPositions None]) c) m in
         match positions with
         | [] => m1
         | position :: _ =>
             fst (_check_take_profit_levels float_of_str int_of_str tie_rounds_up
                   exchange_name
                    (pos_symbol position) position
                    (_check_dynamic_stop_loss float_of_str int_of_str tie_rounds_up
                      exchange_name
                       (pos_symbol position) position m1))
         end.
Proof.
  intros Hc. unfold monitor_exchange. rewrite Hc.
  rewrite (fetch_positions_run float_of_str None c).
  change (positions_query None) with (@None (list string)).
  eexists. split; [reflexivity|]. cbv zeta.
  assert (Hopen : forall l, Forall (fun p => 0 < pos_size p) l ->
             forall m1,
               snd (monitor_loop float_of_str int_of_str tie_rounds_up
                     exchange_name l m1)
               = match l with
                 | [] => m1
                 | position :: _ =>
                     fst (_check_take_profit_levels float_of_str int_of_str tie_rounds_up
                            exchange_name (pos_symbol position) position
                            (_check_dynamic_stop_loss float_of_str int_of_str tie_rounds_up
                               exchange_name (pos_symbol position) position m1))
                 end).
  { intros l Hl m1. destruct l as [|p l]; [reflexivity|].
    inversion Hl as [|? ? Hp _]; subst.
    cbn [monitor_loop]. unfold monitor_position.
    destruct (Qeq_bool (pos_size p) 0) eqn:E; [|reflexivity].
    apply Qeq_bool_iff in E. rewrite E in Hp. discriminate Hp. }
  apply Hopen.
  destruct (reply _ _ _) as [positions|e]; [|constructor].
  destruct (py_iter positions); [apply omap_positions_open|constructor].
Qed.


(** The margin ratio of a converted balance is computed from its equity and
    its used margin, and is zero unless the equity is positive. *)
Lemma from_exchange_balance_ratio (raw : json) :
  let b := from_exchange_balance float_of_str raw in
  margin_ratio b
  = if Qltb 0 (total_equity b) then used_margin b / total_equity b * 100 else 0.
Proof.
  cbv zeta. unfold from_exchange_balance.
  destruct (usdt_of float_of_str raw "total") as [total|]; [|reflexivity].
  destruct (usdt_of float_of_str raw "used") as [used|]; [|reflexivity].
  destruct (usdt_of float_of_str raw "free") as [free|]; [|reflexivity].
  destruct (float_get_or0 float_of_str raw "unrealizedPnl") as [u|]; [|reflexivity].
  destruct (float_get_or0 float_of_str raw "realizedPnl") as [r|]; reflexivity.
Qed.

Lemma fetch_balance_run (c : Client) :
  fetch_balance float_of_str c
  = (Ok match reply (_exchange c) (calls c) fetchBalance with
        | Ok raw => from_exchange_balance float_of_str raw
        | Raise _ => AccountBalance_default
        end,
     set_calls (calls c ++ [fetchBalance]) c).
Proof.
  unfold fetch_balance, catch, bind, exchange_call, ret.
  destruct (reply _ _ _); reflexivity.
Qed.

(** X18. [get_account_overview] has an entry for every configured exchange,
    made after one balance and one positions query.  The health is
    CRITICAL exactly when the equity is positive and the used margin
    exceeds 80 percent of it; an account whose equity is not positive, and
    an exchange whose balance query raises, are reported HEALTHY. *)
Theorem account_overview_entries (m : Manager) (name : string) (c : Client) :
  exchanges m !! name = Some c ->
  exists (o : Overview) (c' : Client),
    fst (get_account_overview float_of_str m) !! name = Some o
    /\ exchanges (snd (get_account_overview float_of_str m)) !! name = Some c'
    /\ active_signals (snd (get_account_overview float_of_str m)) = active_signals m
    /\ calls c' = (calls c ++ [fetchBalance; fetchPositions None])%list
    /\ (ov_account_health o = "CRITICAL" <->
        0 < ov_total_equity o
        /\ 80 < ov_used_margin o / ov_total_equity o * 100)
    /\ (ov_total_equity o <= 0 -> ov_account_health o = "HEALTHY")
    /\ (forall e, reply (_exchange c) (calls c) fetchBalance = Raise e ->
          ov_total_equity o = 0 /\ ov_account_health o = "HEALTHY").
Proof.
  intros Hc.
  set (b := match reply (_exchange c) (calls c) fetchBalance with
            | Ok raw => from_exchange_balance float_of_str raw
            | Raise _ => AccountBalance_default
            end).
  assert (Hrun : exists (positions : list PositionInfo) (now : Q),
             exchange_overview float_of_str c
             = (Ok (mkOverview (total_equity b) (used_margin b) (free_margin b)
                      (margin_ratio b) (unrealized_pnl b) (realized_pnl b)
                      (account_health (margin_ratio b)) (length positions) now),
                set_clock_reads (S (clock_reads c))
                  (set_calls (calls c ++ [fetchBalance; fetchPositions None]) c))).
  { unfold exchange_overview. unfold bind at 1. rewrite fetch_balance_run.
    unfold bind at 1. rewrite fetch_positions_run.
    unfold bind, time_time, ret. cbn. rewrite <- app_assoc. eexists _, _. reflexivity. }
  destruct Hrun as (positions & now & Hrun).
  unfold get_account_overview. cbn [fst snd exchanges active_signals].
  rewrite lookup_omap, lookup_fmap, Hc.
  cbn [option_bind mbind fmap option_fmap option_map]. rewrite Hrun. cbn [fst snd].
  eexists _, _. split; [reflexivity|]. split; [reflexivity|]. split; [reflexivity|].
  split; [reflexivity|].
  cbn [ov_account_health ov_total_equity ov_used_margin ov_margin_ratio].
  assert (Hr : margin_ratio b
               = if Qltb 0 (total_equity b)
                 then used_margin b / total_equity b * 100 else 0).
  { subst b. destruct (reply _ _ _); [apply from_exchange_balance_ratio|reflexivity]. }
  assert (Hhealthy : total_equity b <= 0 -> account_health (margin_ratio b) = "HEALTHY").
  { intros H. rewrite Hr. apply Qltb_false in H. rewrite H. reflexivity. }
  split; [|split; [exact Hhealthy|]].
  - rewrite Hr. unfold account_health.
    destruct (Qltb 0 (total_equity b)) eqn:Et.
    + apply Qltb_true in Et.
      destruct (Qltb 80 (used_margin b / total_equity b * 100)) eqn:E8.
      * apply Qltb_true in E8. split; auto.
      * split.
        -- destruct (Qltb 60 _); discriminate.
        -- intros [_ H]. apply Qltb_true in H. congruence.
    + apply Qltb_false in Et. split; [discriminate|]. intros [H _]. lra.
  - intros e He. subst b. rewrite He. split; reflexivity.
Qed.

(** The orders among the calls of a client. *)
Lemma orders_sent_calls (c : Client) (ext : list call) (c' : Client) :
  calls c' = (calls c ++ ext)%list ->
  orders_sent c'
  = (orders_sent c
     ++ omap (fun cl => match cl with createOrder params => Some params | _ => None end)
          ext)%list.
Proof. intros H. unfold orders_sent. rewrite H. apply omap_app. Qed.

Lemma no_orders_among (ext : list call) :
  forallb not_order ext = true ->
  omap (fun cl => match cl with createOrder params => Some params | _ => None end) ext
  = [].
Proof.
  induction ext as [|cl ext IH]; [reflexivity|].
  cbn [forallb]. intros H. apply andb_true_iff in H. destruct H as [H1 H2].
  destruct cl; try discriminate; cbn; apply IH; exact H2.
Qed.

Lemma adds_orders_sent {A : Type} (mth : M A) (c : Client) :
  adds not_order mth -> orders_sent (snd (mth c)) = orders_sent c.
Proof.
  intros H. destruct (H c) as (_ & ext & Hc & HP).
  rewrite (orders_sent_calls _ _ _ Hc), (no_orders_among _ HP). apply app_nil_r.
Qed.

(** What [create_order] adds to the orders sent: nothing when it raises
    before the order, else the request built from the order for the
    quantity that the conversion has returned, after the leverage [v] has
    been set. *)
Lemma create_order_orders (order : OrderParams) (c : Client)
  (r : result OrderResult) (c' : Client) :
  create_order float_of_str int_of_str tie_rounds_up order c = (r, c') ->
  _exchange c' = _exchange c
  /\ ((orders_sent c' = orders_sent c /\ is_ok r = false)
      \/ exists (quantity : Q) (info : ConversionInfo) (quote : Q) (v : Z)
                (pre : list call),
           orders_sent c' = (orders_sent c ++ [request_of order quantity])%list
           /\ validate order = true
           /\ calls c'
              = (calls c ++ pre ++ [createOrder (request_of order quantity)])%list
           /\ forallb not_order pre = true
           /\ In (setLeverage v (op_symbol order)) pre
           /\ (exists mi,
                 fst (get_market_info float_of_str int_of_str (op_symbol order) c)
                 = Ok (Some mi)
                 /\ last_price mi = Some quote)
           /\ ~ quote == 0
           /\ (v <= order_leverage order)%Z
           /\ (ci_leverage info <= v)%Z
           /\ (forall mx,
                 (forall h, maximum_at int_of_str (_exchange c) h (op_symbol order)
                            = mx) ->
                 v = Z.min (order_leverage order) mx /\ ci_leverage info = v)
           /\ raw_quantity info
              = op_amount order * inject_Z (ci_leverage info) / use_price order quote
           /\ quantity
              = _format_amount tie_rounds_up (op_symbol order) (raw_quantity info) c'
           /\ formatted_quantity info = quantity
           /\ (forall res, r = Ok res ->
                 success res = true
                 /\ executed_amount res = Some quantity
                 /\ exists raw id : json,
                      extra_info res = Some (raw, info)
                      /\ order_id res = Some id
                      /\ getitem raw "id" = Ok id
                      /\ reply (_exchange c) (calls c ++ pre)%list
                           (createOrder (request_of order quantity)) = Ok raw)).
Proof.
  intros H.
  destruct (create_order_calls float_of_str int_of_str tie_rounds_up _ _ _ _ H)
    as (Hex & pre & Hpre
        & [[Hc Hr]|(mi & c1 & quote & v & c2 & q & info & c3 & Hc & Hv & Hg & Hl
                    & Hz & Hs & _ & Hlv & Hcv & Hc' & Hres)]).
  - split; [exact Hex|]. left. split; [|exact Hr].
    rewrite (orders_sent_calls _ _ _ Hc), (no_orders_among _ Hpre). apply app_nil_r.
  - split; [exact Hex|]. right. exists q, info, quote, v, pre.
    destruct (get_market_info_spec float_of_str int_of_str (op_symbol order) c)
      as (r1 & c1' & Hg1 & Hex1 & _ & _).
    rewrite Hg in Hg1. injection Hg1 as _ <-.
    destruct (set_leverage_spec _ _ _ _ _ _ _ Hs) as (Hact & Hex2 & _).
    destruct (convert_quantity float_of_str int_of_str tie_rounds_up
                _ _ _ _ _ _ _ _ Hcv) as (Hraw & Hle & (h & Hh) & Hfm & Hfq).
    split.
    { rewrite (orders_sent_calls _ _ _ Hc), omap_app, (no_orders_among _ Hpre).
      reflexivity. }
    split; [exact Hv|]. split; [exact Hc|]. split; [exact Hpre|].
    split; [exact Hlv|].
    split. { exists mi. rewrite Hg. split; [reflexivity|exact Hl]. }
    split; [exact Hz|]. split; [rewrite Hact; lia|]. split; [exact Hle|].
    split.
    { intros mx Hmx. rewrite Hex1, Hmx in Hact. rewrite Hex2, Hex1, Hmx in Hh.
      split; [exact Hact|]. rewrite Hh, Hact. lia. }
    split; [exact Hraw|].
    split; [rewrite Hfq at 1; subst c'; reflexivity|].
    split; [exact Hfm|exact Hres].
Qed.

Lemma is_query_not_order (cl : call) : is_query cl = true -> not_order cl = true.
Proof. destruct cl; simpl; congruence. Qed.

Lemma get_positions_orders (symbol : option string) (c : Client) :
  orders_sent (snd (get_positions float_of_str symbol c)) = orders_sent c
  /\ _exchange (snd (get_positions float_of_str symbol c)) = _exchange c.
Proof.
  split.
  - apply adds_orders_sent.
    apply (adds_weaken is_query not_order _ is_query_not_order).
    apply get_positions_adds.
  - apply (get_positions_adds float_of_str symbol c).
Qed.



(** A LIMIT order that passes [validate] is sized at its own price. *)
Lemma use_price_zone (signal : TradingSignal) (zone : EntryZone) (quote : Q) :
  validate (zone_order signal zone) = true ->
  use_price (zone_order signal zone) quote = zone_price zone.
Proof.
  unfold validate, use_price. cbn [zone_order op_order_type op_price not_price].
  destruct (negb _); [discriminate|].
  change (String.eqb OrderType.LIMIT OrderType.LIMIT) with true. cbn [andb].
  destruct (Qeq_bool (zone_price zone) 0); [discriminate|]. reflexivity.
Qed.

(** The loop of [execute_signal] over the zones.  The orders of a prefix of
    the zones have returned: those zones are marked as placed with the id
    of their result, which the exchange gave in its reply to the request of
    that very zone, and the others are left as they are.  One request has
    been sent for each zone of the prefix, in order, and at most one
    more. *)
Lemma place_zone_orders_spec (signal : TradingSignal) (zones : list EntryZone) :
  forall (c : Client) (r : result (list OrderResult)) (zones' : list EntryZone)
         (c' : Client),
    place_zone_orders float_of_str int_of_str tie_rounds_up signal zones c
    = (r, zones', c') ->
    _exchange c' = _exchange c
    /\ exists (placed : list OrderResult) (extra : list OrderRequest),
         (length placed <= length zones)%nat
         /\ firstn (length placed) zones'
            = zip_with (fun z res => mark_placed (order_id res) z) zones placed
         /\ skipn (length placed) zones' = skipn (length placed) zones
         /\ Forall2
              (fun z res =>
                 success res = true
                 /\ exists (id raw : json) (q : Q) (info : ConversionInfo)
                           (h : list call),
                      order_id res = Some id
                      /\ executed_amount res = Some q
                      /\ extra_info res = Some (raw, info)
                      /\ reply (_exchange c) h
                           (createOrder (request_of (zone_order signal z) q)) = Ok raw
                      /\ getitem raw "id" = Ok id
                      /\ raw_quantity info
                         = position_size signal * zone_percentage z
                           * inject_Z (ci_leverage info) / zone_price z
                      /\ (ci_leverage info <= order_leverage (zone_order signal z))%Z)
              (firstn (length placed) zones) placed
         /\ orders_sent c'
            = (orders_sent c
               ++ zip_with (fun z res =>
                              request_of (zone_order signal z)
                                (default 0 (executed_amount res))) zones placed
               ++ extra)%list
         /\ (extra = []
             \/ exists (z : EntryZone) (q : Q),
                  zones !! length placed = Some z
                  /\ extra = [request_of (zone_order signal z) q])
         /\ match r with
            | Ok results =>
                results = placed /\ length placed = length zones /\ extra = []
            | Raise _ => (length placed < length zones)%nat
            end.
Proof.
  induction zones as [|zone rest IH]; intros c r zones' c' H.
  - cbn [place_zone_orders] in H. injection H as <- <- <-.
    split; [reflexivity|]. exists [], []. cbn. rewrite app_nil_r.
    split; [lia|]. split; [reflexivity|]. split; [reflexivity|].
    split; [constructor|]. split; [reflexivity|]. split; [left; reflexivity|].
    repeat split.
  - cbn [place_zone_orders] in H.
    destruct (create_order float_of_str int_of_str tie_rounds_up
                (zone_order signal zone) c) as [[res|e] c1] eqn:Ec.
    + destruct (create_order_orders _ _ _ _ Ec)
        as (Hex1 & [[_ Hf]|(q & info & quote & v & pre & Hord & Hval & Hcalls & _ & _
                            & _ & _ & Hv & Hle & _ & Hraw & _ & _ & Hres)]);
        [discriminate Hf|].
      destruct (Hres _ eq_refl) as (Hsucc & Hexe & raw & id & Hextra & Hid & Hget & Hrep).
      rewrite Hsucc in H.
      destruct (place_zone_orders float_of_str int_of_str tie_rounds_up signal rest c1)
        as [[r1 rest'] c2] eqn:Er.
      injection H as <- <- <-.
      destruct (IH _ _ _ _ Er)
        as (Hex2 & placed & extra & Hk & Hpl & Hsk & Hall & Ho & Hextra' & Hr).
      split; [congruence|].
      exists (res :: placed), extra.
      split; [cbn; lia|].
      split; [cbn [length firstn zip_with]; rewrite Hpl; reflexivity|].
      split; [exact Hsk|].
      split.
      { cbn [length firstn]. constructor.
        - split; [exact Hsucc|]. exists id, raw, q, info, (calls c ++ pre)%list.
          split; [exact Hid|]. split; [exact Hexe|]. split; [exact Hextra|].
          split; [exact Hrep|]. split; [exact Hget|].
          split; [|lia].
          rewrite Hraw, (use_price_zone _ _ _ Hval). reflexivity.
        - rewrite <- Hex1. exact Hall. }
      split.
      { rewrite Ho, Hord, <- app_assoc. cbn [zip_with]. rewrite Hexe. reflexivity. }
      split.
      { destruct Hextra' as [->|(z & q' & Hz & ->)]; [left; reflexivity|].
        right. exists z, q'. split; [exact Hz|reflexivity]. }
      destruct r1 as [results|e]; cbn [rbind].
      * destruct Hr as (-> & H2 & H3). cbn [length]. repeat split; auto.
      * cbn [length]. lia.
    + injection H as <- <- <-.
      destruct (create_order_orders _ _ _ _ Ec)
        as (Hex1 & [[Hord _]|(q & info & quote & v & pre & Hord & _)]).
      * split; [exact Hex1|]. exists [], []. cbn. rewrite app_nil_r.
        split; [lia|]. split; [reflexivity|]. split; [reflexivity|].
        split; [constructor|]. split; [exact Hord|]. split; [left; reflexivity|].
        lia.
      * split; [exact Hex1|]. exists [], [request_of (zone_order signal zone) q].
        cbn.
        split; [lia|]. split; [reflexivity|]. split; [reflexivity|].
        split; [constructor|]. split; [exact Hord|].
        split; [right; exists zone, q; split; reflexivity|]. lia.
Qed.

(** X20. [execute_signal] on a signal with zones, on a configured exchange.
    The orders of a prefix of the zones have returned, each with success,
    and the call reports success exactly when the prefix is the whole
    list; its result is then that of the first zone.  The zones of the
    prefix are marked PLACED with the id of their own result, the id that
    the exchange gave in its reply to the request of that zone, and the
    others are left as they were.  One request was sent for each zone of
    the prefix, in order, for the executed amount of its result, which is
    sized from the share of the zone at the price of the zone; at most one
    more request was sent, for the zone that follows the prefix. *)
Theorem execute_signal_places_prefix (signal : TradingSignal) (m : Manager)
  (c : Client) (res : OrderResult) (signal' : TradingSignal) (m' : Manager) :
  exchanges m !! exchange signal = Some c ->
  entry_zones signal <> [] ->
  execute_signal float_of_str int_of_str tie_rounds_up signal m = (res, signal', m') ->
  exists (placed : list OrderResult) (extra : list OrderRequest) (c' : Client),
    m' = set_client (exchange signal) c' m
    /\ _exchange c' = _exchange c
    /\ signal' = set_entry_zones (entry_zones signal') signal
    /\ (length placed <= length (entry_zones signal))%nat
    /\ firstn (length placed) (entry_zones signal')
       = zip_with (fun z res => mark_placed (order_id res) z)
           (entry_zones signal) placed
    /\ skipn (length placed) (entry_zones signal')
       = skipn (length placed) (entry_zones signal)
    /\ Forall2
         (fun z res =>
            success res = true
            /\ exists (id raw : json) (q : Q) (info : ConversionInfo) (h : list call),
                 order_id res = Some id
                 /\ executed_amount res = Some q
                 /\ extra_info res = Some (raw, info)
                 /\ reply (_exchange c) h
                      (createOrder (request_of (zone_order signal z) q)) = Ok raw
                 /\ getitem raw "id" = Ok id
                 /\ raw_quantity info
                    = position_size signal * zone_percentage z
                      * inject_Z (ci_leverage info) / zone_price z
                 /\ (ci_leverage info <= order_leverage (zone_order signal z))%Z)
         (firstn (length placed) (entry_zones signal)) placed
    /\ orders_sent c'
       = (orders_sent c
          ++ zip_with (fun z res =>
                         request_of (zone_order signal z)
                           (default 0 (executed_amount res)))
               (entry_zones signal) placed
          ++ extra)%list
    /\ (extra = []
        \/ exists (z : EntryZone) (q : Q),
             entry_zones signal !! length placed = Some z
             /\ extra = [request_of (zone_order signal z) q])
    /\ (success res = true <-> length placed = length (entry_zones signal))
    /\ (success res = true -> head placed = Some res).
Proof.
  intros Hc Hne H. unfold execute_signal in H. rewrite Hc in H.
  destruct (entry_zones signal) as [|z zs] eqn:Ez; [contradiction|].
  destruct (place_zone_orders float_of_str int_of_str tie_rounds_up signal (z :: zs) c)
    as [[r zones'] c'] eqn:Ep.
  destruct (place_zone_orders_spec _ _ _ _ _ _ Ep)
    as (Hex & placed & extra & Hk & Hpl & Hsk & Hall & Ho & Hextra & Hr).
  assert (Hres : res = match r with
                       | Ok (first :: _) => first
                       | Ok [] => failed "No orders created"
                       | Raise e => failed (exn_str e)
                       end
                 /\ signal' = set_entry_zones zones' signal
                 /\ m' = set_client (exchange signal) c' m).
  { destruct r as [[|first results]|e]; injection H as <- <- <-; auto. }
  destruct Hres as (-> & -> & ->).
  exists placed, extra, c'. cbn [entry_zones set_entry_zones].
  split; [reflexivity|]. split; [exact Hex|]. split; [reflexivity|].
  split; [exact Hk|]. split; [exact Hpl|]. split; [exact Hsk|].
  split; [exact Hall|]. split; [exact Ho|]. split; [exact Hextra|].
  destruct r as [[|first results]|e].
  - destruct Hr as (<- & H2 & _). cbn in H2. discriminate H2.
  - destruct Hr as (<- & H2 & _). split.
    + split; [intros _; exact H2|intros _].
      inversion Hall as [|? ? ? ? [Hs _] _]; subst. exact Hs.
    + intros _. reflexivity.
  - split; [split; [discriminate|intros E; lia]|discriminate].
Qed.

Lemma get_market_info_orders (symbol : string) (c : Client) :
  orders_sent (snd (get_market_info float_of_str int_of_str symbol c)) = orders_sent c
  /\ _exchange (snd (get_market_info float_of_str int_of_str symbol c)) = _exchange c.
Proof.
  split.
  - apply adds_orders_sent.
    apply (adds_weaken is_query not_order _ is_query_not_order).
    apply get_market_info_adds.
  - apply (get_market_info_adds float_of_str int_of_str symbol c).
Qed.

(** The request of a stop order for a position. *)
Lemma stop_order_request (symbol : string) (held : PositionInfo) (sl q : Q) :
  ~ sl == 0 ->
  request_of (protective_order symbol OrderType.STOP_MARKET held (Some sl)) q
  = [("symbol", JStr symbol); ("type", JStr "stop_market");
     ("side", JStr (match pos_side held with SHORT => "buy" | LONG => "sell" end));
     ("amount", JNum q); ("stopPrice", JNum sl); ("reduceOnly", JBool true)].
Proof.
  intros Hz. unfold request_of.
  cbn [protective_order op_symbol op_order_type op_side op_price op_stop_price
         op_reduce_only op_extra_params not_price].
  destruct (Qeq_bool sl 0) eqn:E.
  { apply Qeq_bool_iff in E. contradiction. }
  destruct held as [? [] ?]; reflexivity.
Qed.

(** [modify_position] with a stop and no take-profit sends nothing, or one
    stop order for the first position that [get_positions] returned, sized
    as [create_order] sizes every order. *)
Lemma modify_position_stop_orders (symbol : string) (sl : Q) (c : Client)
  (r : result bool) (c' : Client) :
  modify_position_body float_of_str int_of_str tie_rounds_up symbol (Some sl) None c
  = (r, c') ->
  _exchange c' = _exchange c
  /\ (orders_sent c' = orders_sent c
      \/ exists (held : PositionInfo) (rest : list cached_positions) (q quote : Q)
                (info : ConversionInfo),
           fst (get_positions float_of_str (Some symbol) c)
           = Ok (OnePosition held :: rest)
           /\ ~ sl == 0
           /\ orders_sent c'
              = (orders_sent c
                 ++ [request_of
                       (protective_order symbol OrderType.STOP_MARKET held (Some sl))
                       q])%list
           /\ ~ quote == 0
           /\ (exists mi,
                 fst (get_market_info float_of_str int_of_str symbol
                        (snd (get_positions float_of_str (Some symbol) c)))
                 = Ok (Some mi)
                 /\ last_price mi = Some quote)
           /\ (ci_leverage info <= 50)%Z
           /\ raw_quantity info
              = pos_size held * inject_Z (ci_leverage info) / quote
           /\ q = _format_amount tie_rounds_up symbol (raw_quantity info) c').
Proof.
  unfold modify_position_body. unfold bind at 1.
  pose proof (get_positions_orders (Some symbol) c) as [Hord1 Hex1].
  destruct (get_positions float_of_str (Some symbol) c) as [[positions|e] c1];
    cbn [fst snd] in *.
  2:{ intros [= <- <-]. auto. }
  destruct positions as [|first rest]; [unfold ret; intros [= <- <-]; auto|].
  cbn [not_price].
  destruct (Qeq_bool sl 0) eqn:Ez.
  { unfold bind, ret. intros [= <- <-]. auto. }
  unfold bind at 1 2, lift at 1.
  destruct first as [held|l]; cbn [as_position].
  2:{ intros [= <- <-]. auto. }
  unfold bind at 1.
  destruct (create_order float_of_str int_of_str tie_rounds_up
              (protective_order symbol OrderType.STOP_MARKET held (Some sl)) c1)
    as [[res|e] c2] eqn:Ec.
  all: destruct (create_order_orders _ _ _ _ Ec)
         as (Hex2 & [[Ho _]|(q & info & quote & v & pre & Ho & _ & _ & _ & _ & Hmi & Hq0
                             & Hv & Hle & _ & Hraw & Hfq & _ & _)]).
  all: unfold ret; intros [= <- <-]; (split; [congruence|]).
  1,3: left; congruence.
  all: right; exists held, rest, q, quote, info;
    (split; [reflexivity|]);
    (split; [intros Hq; apply Qeq_bool_iff in Hq; congruence|]);
    (split; [rewrite Ho, Hord1; reflexivity|]);
    (split; [exact Hq0|]);
    cbn [order_leverage protective_order op_leverage op_symbol op_amount] in *;
    (split; [exact Hmi|]);
    (split; [lia|]); (split; [exact Hraw|exact Hfq]).
Qed.

(** X21. One dynamic stop-loss check of a position, on a configured
    exchange.  The active signals and the other exchanges are left as
    they are.  The check sends at most one order, and only when the signal
    asks for a dynamic stop, the last price is on the profit side of the
    entry price of the position, and the midpoint between the two is
    beyond the stop-loss of the signal.  The order is a reduce-only
    STOP_MARKET order at that midpoint, on the closing side of the first
    position that [get_positions] then returns for the symbol (not of the
    position that was checked), sized from the size of that position taken
    as an amount of USDT, at the last price that the market reports after
    the positions were read. *)
Theorem dynamic_stop_sends_midpoint (exchange_name symbol : string)
  (position : PositionInfo) (m : Manager) (c : Client) :
  exchanges m !! exchange_name = Some c ->
  let m' :=
    _check_dynamic_stop_loss float_of_str int_of_str tie_rounds_up exchange_name
      symbol position m in
  active_signals m' = active_signals m
  /\ (forall name, name <> exchange_name -> exchanges m' !! name = exchanges m !! name)
  /\ exists c' : Client,
       exchanges m' !! exchange_name = Some c'
       /\ _exchange c' = _exchange c
       /\ (orders_sent c' = orders_sent c
           \/ exists (signal : TradingSignal) (sl : Q) (mi : MarketInfo) (price : Q)
                     (c1 : Client) (held : PositionInfo)
                     (rest : list cached_positions) (q quote : Q)
                     (info : ConversionInfo),
                active_signals m !! signal_key exchange_name symbol = Some signal
                /\ dynamic_sl signal = true
                /\ stop_loss signal = Some sl
                /\ get_market_info float_of_str int_of_str symbol c
                   = (Ok (Some mi), c1)
                /\ last_price mi = Some price
                /\ fst (get_positions float_of_str (Some symbol) c1)
                   = Ok (OnePosition held :: rest)
                /\ let entry := pos_entry_price position in
                   let new_sl := if is_long signal
                                 then entry + (price - entry) * (1 # 2)
                                 else entry - (entry - price) * (1 # 2) in
                   (if is_long signal
                    then entry < price /\ sl < new_sl
                    else price < entry /\ new_sl < sl)
                   /\ orders_sent c'
                      = (orders_sent c
                         ++ [[("symbol", JStr symbol); ("type", JStr "stop_market");
                              ("side", JStr (match pos_side held with
                                             | SHORT => "buy" | LONG => "sell" end));
                              ("amount", JNum q); ("stopPrice", JNum new_sl);
                              ("reduceOnly", JBool true)]])%list
                   /\ ~ quote == 0
                   /\ (exists mi2 : MarketInfo,
                         fst (get_market_info float_of_str int_of_str symbol
                                (snd (get_positions float_of_str (Some symbol) c1)))
                         = Ok (Some mi2)
                         /\ last_price mi2 = Some quote)
                   /\ (ci_leverage info <= 50)%Z
                   /\ raw_quantity info
                      = pos_size held * inject_Z (ci_leverage info) / quote
                   /\ q = _format_amount tie_rounds_up symbol (raw_quantity info) c').
Proof.
  intros Hc. cbv zeta.
  split; [apply dynamic_stop_loss_keeps_signals|].
  set (Post := fun m' : Manager =>
         (forall name, name <> exchange_name ->
            exchanges m' !! name = exchanges m !! name)
         /\ exists c' : Client,
              exchanges m' !! exchange_name = Some c'
              /\ _exchange c' = _exchange c
              /\ (orders_sent c' = orders_sent c
                  \/ exists (signal : TradingSignal) (sl : Q) (mi : MarketInfo)
                            (price : Q) (c1 : Client) (held : PositionInfo)
                            (rest : list cached_positions) (q quote : Q)
                            (info : ConversionInfo),
                       active_signals m !! signal_key exchange_name symbol
                       = Some signal
                       /\ dynamic_sl signal = true
                       /\ stop_loss signal = Some sl
                       /\ get_market_info float_of_str int_of_str symbol c
                          = (Ok (Some mi), c1)
                       /\ last_price mi = Some price
                       /\ fst (get_positions float_of_str (Some symbol) c1)
                          = Ok (OnePosition held :: rest)
                       /\ let entry := pos_entry_price position in
                          let new_sl := if is_long signal
                                        then entry + (price - entry) * (1 # 2)
                                        else entry - (entry - price) * (1 # 2) in
                          (if is_long signal
                           then entry < price /\ sl < new_sl
                           else price < entry /\ new_sl < sl)
                          /\ orders_sent c'
                             = (orders_sent c
                                ++ [[("symbol", JStr symbol);
                                     ("type", JStr "stop_market");
                                     ("side", JStr (match pos_side held with
                                                    | SHORT => "buy"
                                                    | LONG => "sell" end));
                                     ("amount", JNum q); ("stopPrice", JNum new_sl);
                                     ("reduceOnly", JBool true)]])%list
                          /\ ~ quote == 0
                          /\ (exists mi2 : MarketInfo,
                                fst (get_market_info float_of_str int_of_str symbol
                                       (snd (get_positions float_of_str
                                               (Some symbol) c1)))
                                = Ok (Some mi2)
                                /\ last_price mi2 = Some quote)
                          /\ (ci_leverage info <= 50)%Z
                          /\ raw_quantity info
                             = pos_size held * inject_Z (ci_leverage info) / quote
                          /\ q = _format_amount tie_rounds_up symbol
                                   (raw_quantity info) c')).
  change (Post (_check_dynamic_stop_loss float_of_str int_of_str tie_rounds_up
                  exchange_name symbol position m)).
  assert (H0 : Post m).
  { split; [reflexivity|]. exists c. auto. }
  unfold _check_dynamic_stop_loss.
  destruct (Qeq_bool (pos_size position) 0); [exact H0|].
  destruct (active_signals m !! signal_key exchange_name symbol) as [signal|] eqn:Esig;
    [|exact H0].
  destruct (dynamic_sl signal) eqn:Ed; cbn [negb]; [|exact H0].
  rewrite Hc.
  pose proof (get_market_info_orders symbol c) as [Ho1 He1].
  destruct (get_market_info float_of_str int_of_str symbol c) as [r c1] eqn:Eg.
  cbn [fst snd] in *.
  assert (H1 : Post (set_client exchange_name c1 m)).
  { split.
    - intros name Hn. cbn. apply lookup_insert_ne. congruence.
    - exists c1. split; [cbn; apply lookup_insert_eq|]. auto. }
  destruct r as [[mi|]|e]; try exact H1.
  cbv zeta.
  destruct (last_price mi) as [price|] eqn:El; cbn [not_price]; [|exact H1].
  destruct (Qeq_bool price 0); [exact H1|]. cbn [from_option id].
  assert (Hmod : forall new_sl : Q,
            (if is_long signal
             then pos_entry_price position < price
             else price < pos_entry_price position) ->
            new_sl = (if is_long signal
                      then pos_entry_price position
                           + (price - pos_entry_price position) * (1 # 2)
                      else pos_entry_price position
                           - (pos_entry_price position - price) * (1 # 2)) ->
            forall sl, stop_loss signal = Some sl ->
            (if is_long signal then sl < new_sl else new_sl < sl) ->
            Post (snd (modify_position float_of_str int_of_str tie_rounds_up
                         exchange_name symbol (Some new_sl) None
                         (set_client exchange_name c1 m)))).
  { intros new_sl Hside Hnew sl Hsl Hbeyond. unfold modify_position.
    cbn [exchanges set_client]. rewrite lookup_insert_eq.
    destruct (modify_position_body float_of_str int_of_str tie_rounds_up symbol
                (Some new_sl) None c1) as [rb c2] eqn:Em.
    destruct (modify_position_stop_orders _ _ _ _ _ Em) as (Hex2 & Hord2).
    assert (Hres : snd (match rb with
                        | Ok b => (b, set_client exchange_name c2
                                        (set_client exchange_name c1 m))
                        | Raise _ => (false, set_client exchange_name c2
                                               (set_client exchange_name c1 m))
                        end)
                   = set_client exchange_name c2 (set_client exchange_name c1 m))
      by (destruct rb; reflexivity).
    rewrite Hres. split.
    - intros name Hn. cbn. rewrite !lookup_insert_ne by congruence. reflexivity.
    - exists c2. split; [cbn; apply lookup_insert_eq|]. split; [congruence|].
      destruct Hord2 as [Ho|(held & rest & q & quote & info & Hpos & Hnz & Ho & Hq0
                             & Hmi & Hle & Hraw & Hfq)].
      + left. congruence.
      + right. exists signal, sl, mi, price, c1, held, rest, q, quote, info.
        split; [reflexivity|]. split; [exact Ed|]. split; [exact Hsl|].
        split; [reflexivity|]. split; [exact El|]. split; [exact Hpos|]. cbv zeta.
        rewrite <- Hnew. split.
        * destruct (is_long signal); tauto.
        * split.
          { rewrite Ho, Ho1, (stop_order_request _ _ _ _ Hnz). reflexivity. }
          split; [exact Hq0|]. split; [exact Hmi|]. split; [exact Hle|].
          split; [exact Hraw|exact Hfq]. }
  destruct (is_long signal) eqn:Elong.
  - destruct (Qltb (pos_entry_price position) price) eqn:E1; [|exact H1].
    apply Qltb_true in E1.
    destruct (stop_loss signal) as [sl|] eqn:Esl; [|exact H1].
    destruct (Qltb sl _) eqn:E2; [|exact H1]. apply Qltb_true in E2.
    apply (Hmod (pos_entry_price position
                 + (price - pos_entry_price position) * (1 # 2))
             E1 eq_refl sl eq_refl E2).
  - destruct (Qltb price (pos_entry_price position)) eqn:E1; [|exact H1].
    apply Qltb_true in E1.
    destruct (stop_loss signal) as [sl|] eqn:Esl; [|exact H1].
    destruct (Qltb _ sl) eqn:E2; [|exact H1]. apply Qltb_true in E2.
    apply (Hmod (pos_entry_price position
                 - (pos_entry_price position - price) * (1 # 2))
             E1 eq_refl sl eq_refl E2).
Qed.

End ManagerFacts.

(** In hedge mode two positions are fetched and the turn stops after the
    first. *)
Lemma monitor_checks_first_position_only_witness :
  exists positions : list PositionInfo,
    fst (fetch_positions no_float None hedged_client) = Ok positions
    /\ length positions = 2%nat
    /\ monitor_exchange no_float no_int no_tie "BINANCE" hedged_manager
       = match positions with
         | [] => hedged_manager
         | position :: _ =>
             fst (_check_take_profit_levels no_float no_int no_tie "BINANCE"
                    (pos_symbol position) position
                    (_check_dynamic_stop_loss no_float no_int no_tie "BINANCE"
                       (pos_symbol position) position
                       (set_client "BINANCE"
                          (set_calls [fetchPositions None] hedged_client)
                          hedged_manager)))
         end.
Proof.
  destruct (monitor_checks_first_position_only no_float no_int no_tie "BINANCE"
              hedged_manager hedged_client eq_refl) as (positions & H1 & H2).
  exists positions. split; [rewrite H1; reflexivity|].
  split.
  - assert (E : fst (fetch_positions no_float None hedged_client) = Ok positions)
      by (rewrite H1; reflexivity).
    vm_compute in E. injection E as <-. reflexivity.
  - rewrite H2. cbv zeta. destruct positions; [|reflexivity].
    exfalso. assert (E : fst (fetch_positions no_float None hedged_client) = Ok [])
      by (rewrite H1; reflexivity).
    vm_compute in E. discriminate E.
Defined.

(** The exchange that cannot be reached is reported HEALTHY, with no
    equity. *)
Lemma account_overview_entries_witness :
  exists o : Overview,
    fst (get_account_overview no_float down_manager) !! "BINANCE" = Some o
    /\ ov_total_equity o = 0
    /\ ov_account_health o = "HEALTHY".
Proof.
  destruct (account_overview_entries no_float down_manager "BINANCE" down_client
              eq_refl) as (o & c' & H1 & _ & _ & _ & _ & _ & H2).
  exists o. split; [exact H1|].
  exact (H2 (Exn ExchangeError "network down") eq_refl).
Defined.


(** The order at 99 is rejected: the order of the first zone has returned,
    the zone at 100 carries the id that the exchange gave, the zone at 99
    is as it was, and the call reports a failure. *)
Lemma execute_signal_places_prefix_witness :
  exists (res first : OrderResult) (signal' : TradingSignal) (m' : Manager),
    execute_signal no_float no_int no_tie two_zone_signal (rejecting_manager 99)
    = (res, signal', m')
    /\ success res = false
    /\ success first = true
    /\ order_id first = Some (JStr "1")
    /\ entry_zones signal'
       = [mark_placed (order_id first) (new_zone 100 (1 # 2)); new_zone 99 (1 # 2)].
Proof.
  destruct (execute_signal no_float no_int no_tie two_zone_signal (rejecting_manager 99))
    as [[res signal'] m'] eqn:E.
  destruct (execute_signal_places_prefix no_float no_int no_tie two_zone_signal
              (rejecting_manager 99)
              (mkClient "BINANCE"
                 (mkExchange (rejecting_reply 99)
                    (fun n => inject_Z (10 * Z.of_nat n)))
                 ∅ ∅ None 0 ∅ ∅ [] 0)
              res signal' m' eq_refl ltac:(discriminate) E)
    as (placed & extra & c' & _ & _ & _ & Hk & Hpl & Hsk & Hall & _ & _ & Hiff & _).
  vm_compute in E. injection E as <- <- <-.
  cbn [entry_zones two_zone_signal length] in *.
  destruct placed as [|first [|second rest]].
  - cbn in Hsk. discriminate Hsk.
  - inversion Hall as [|? ? ? ? [Hs _] _]; subst.
    cbn in Hpl. injection Hpl as Hid.
    eexists _, first, _, _. split; [reflexivity|]. split; [reflexivity|].
    split; [exact Hs|]. split; [symmetry; exact Hid|].
    rewrite <- Hid. reflexivity.
  - destruct rest; cbn [length] in *; [|lia].
    destruct Hiff as [_ Hiff]. discriminate (Hiff eq_refl).
Defined.

(** One check of the trailing signal at a last price of 106, the position
    entered at 100 and the stop of the signal at 98: a reduce-only stop
    order to sell at the midpoint 103 is sent. *)
Lemma dynamic_stop_sends_midpoint_witness :
  exists (c' : Client) (q : Q),
    exchanges (trailing_pass trailing_manager) !! "BINANCE" = Some c'
    /\ orders_sent c'
       = [[("symbol", JStr "BTCUSDT"); ("type", JStr "stop_market");
           ("side", JStr "sell"); ("amount", JNum q);
           ("stopPrice", JNum (100 + (106 - 100) * (1 # 2)));
           ("reduceOnly", JBool true)]].
Proof.
  destruct (dynamic_stop_sends_midpoint no_float no_int no_tie "BINANCE" "BTCUSDT"
              demo_position trailing_manager demo_client eq_refl)
    as (_ & _ & c' & Hlk & _
        & [Hno|(signal & sl & mi & price & c1 & held & rest & q & quote & info
                & Hs & _ & _ & Hg & Hl & Hpos & _ & Hord & _)]).
  - exfalso. change (exchanges (trailing_pass trailing_manager) !! "BINANCE" = Some c')
      in Hlk.
    vm_compute in Hlk. injection Hlk as <-. vm_compute in Hno. discriminate Hno.
  - exists c', q. split; [exact Hlk|].
    vm_compute in Hs. injection Hs as <-.
    vm_compute in Hg. injection Hg as <- <-.
    injection Hl as <-.
    vm_compute in Hpos. injection Hpos as <- <-.
    exact Hord.
Defined.

(* ===================================================================== *)
(** ** Further properties: the numbers of a signal, and the ladder *)
(* ===================================================================== *)

Section NumericFacts.
Variable float_of_str : string -> option Q.
Variable int_of_str : string -> option Z.
Variable dynamic_sl_default : bool.
Variable float_sum : list Q -> Q.

(** What [_normalize_numbers] leaves under a numeric field other than the
    leverage: the field as it was, when the normalisation of the items
    raised; else its value as a number, or nothing when the value does not
    convert. *)
Lemma normalize_numbers_numeric (k : string) (d : dict) :
  In k ["stop_loss"; "position_size"; "confidence"] ->
  dict_get k (TradingLogic._normalize_numbers float_of_str d) = dict_get k d
  \/ dict_get k (TradingLogic._normalize_numbers float_of_str d)
     = match dict_get k d with
       | Some v =>
           match Py.py_float float_of_str v with
           | Ok q => Some (JNum q)
           | Raise _ => None
           end
       | None => None
       end.
Proof.
  intros Hk.
  assert (Hlist : forall key d0, k <> key ->
             dict_get k (fst (TradingLogic.normalize_item_list float_of_str key d0))
             = dict_get k d0).
  { intros key d0 Hne. unfold TradingLogic.normalize_item_list.
    destruct (dict_get key d0) as [[| | | |l|]|]; try reflexivity.
    destruct (TradingLogic.normalize_items float_of_str l) as [l' ok].
    cbn [fst]. apply dict_get_set_ne. exact Hne. }
  unfold TradingLogic._normalize_numbers.
  pose proof (Hlist "entry_zones" d) as H1.
  destruct (TradingLogic.normalize_item_list float_of_str "entry_zones" d)
    as [d1 ok1]. cbn [fst] in H1.
  rewrite <- H1 by (intros ->; simpl in Hk; intuition discriminate).
  destruct ok1; cbn [negb]; [|left; reflexivity].
  pose proof (Hlist "take_profit_levels" d1) as H2.
  destruct (TradingLogic.normalize_item_list float_of_str "take_profit_levels" d1)
    as [d2 ok2]. cbn [fst] in H2.
  rewrite <- H2 by (intros ->; simpl in Hk; intuition discriminate).
  destruct ok2; cbn [negb]; [|left; reflexivity].
  destruct (TradingLogic.normalize_fields _ _ d2) as [n|] eqn:En;
    [|left; reflexivity].
  right. destruct Hk as [<-|[<-|[<-|[]]]].
  - apply (normalize_fields_own float_of_str "stop_loss" []
             ["position_size"; "leverage"; "confidence"] d2 n);
      [discriminate|simpl; tauto|simpl; intuition discriminate|exact En].
  - apply (normalize_fields_own float_of_str "position_size" ["stop_loss"]
             ["leverage"; "confidence"] d2 n);
      [discriminate|simpl; intuition discriminate|simpl; intuition discriminate
      |exact En].
  - apply (normalize_fields_own float_of_str "confidence"
             ["stop_loss"; "position_size"; "leverage"] [] d2 n);
      [discriminate|simpl; intuition discriminate|simpl; tauto|exact En].
Qed.

Lemma normalize_numbers_no_leverage (d : dict) :
  dict_get "leverage" d = None ->
  dict_get "leverage" (TradingLogic._normalize_numbers float_of_str d) = None.
Proof.
  intros Hd.
  assert (Hlist : forall key d0, "leverage" <> key ->
             dict_get "leverage"
               (fst (TradingLogic.normalize_item_list float_of_str key d0))
             = dict_get "leverage" d0).
  { intros key d0 Hne. unfold TradingLogic.normalize_item_list.
    destruct (dict_get key d0) as [[| | | |l|]|]; try reflexivity.
    destruct (TradingLogic.normalize_items float_of_str l) as [l' ok].
    cbn [fst]. apply dict_get_set_ne. exact Hne. }
  assert (Hown : forall d0, dict_get "leverage" d0 = None ->
             TradingLogic.normalize_numeric float_of_str "leverage" d0 = Ok d0).
  { intros d0 H0. unfold TradingLogic.normalize_numeric. rewrite H0. reflexivity. }
  unfold TradingLogic._normalize_numbers.
  pose proof (Hlist "entry_zones" d ltac:(discriminate)) as H1.
  destruct (TradingLogic.normalize_item_list float_of_str "entry_zones" d)
    as [d1 ok1]. cbn [fst] in H1. rewrite Hd in H1.
  destruct ok1; cbn [negb]; [|exact H1].
  pose proof (Hlist "take_profit_levels" d1 ltac:(discriminate)) as H2.
  destruct (TradingLogic.normalize_item_list float_of_str "take_profit_levels" d1)
    as [d2 ok2]. cbn [fst] in H2. rewrite H1 in H2.
  destruct ok2; cbn [negb]; [|exact H2].
  cbn [TradingLogic.normalize_fields].
  destruct (TradingLogic.normalize_numeric float_of_str "stop_loss" d2)
    as [n1|] eqn:E1; cbn [rbind]; [|exact H2].
  apply (normalize_numeric_get_ne float_of_str "leverage") in E1; [|discriminate].
  destruct (TradingLogic.normalize_numeric float_of_str "position_size" n1)
    as [n2|] eqn:E2; cbn [rbind]; [|exact H2].
  apply (normalize_numeric_get_ne float_of_str "leverage") in E2; [|discriminate].
  rewrite Hown by congruence. cbn [rbind].
  destruct (TradingLogic.normalize_numeric float_of_str "confidence" n2)
    as [n3|] eqn:E3; cbn [rbind]; [|exact H2].
  apply (normalize_numeric_get_ne float_of_str "leverage") in E3; [|discriminate].
  congruence.
Qed.

(** The numeric fields that [_validate_json_data] has checked convert. *)
Lemma validate_json_numeric (d : dict) (k : string) (v : json) :
  TradingLogic._validate_json_data float_of_str d = true ->
  In k ["position_size"; "leverage"; "confidence"] ->
  dict_get k d = Some v ->
  exists q, Py.py_float float_of_str v = Ok q.
Proof.
  unfold TradingLogic._validate_json_data. cbv zeta.
  destruct (negb _); [discriminate|].
  destruct (negb _); [discriminate|].
  destruct (negb _); [discriminate|].
  destruct (negb _); [discriminate|].
  destruct (TradingLogic.item_list_ok "entry_zones" d) as [[|]|]; try discriminate.
  destruct (TradingLogic.item_list_ok "take_profit_levels" d) as [[|]|];
    try discriminate.
  cbn [TradingLogic.numeric_fields_ok]. intros H Hk Hv.
  assert (Hstep : forall f rest,
            match dict_get f d with
            | Some v0 => if is_ok (Py.py_float float_of_str v0) then rest else false
            | None => rest
            end = true ->
            rest = true
            /\ (forall v0, dict_get f d = Some v0 ->
                  exists q, Py.py_float float_of_str v0 = Ok q)).
  { intros f rest H0. destruct (dict_get f d) as [v0|].
    - destruct (Py.py_float float_of_str v0) as [q|] eqn:E; [|discriminate].
      split; [exact H0|]. intros v1 [= <-]. eauto.
    - split; [exact H0|]. discriminate. }
  apply Hstep in H. destruct H as [H Hp].
  apply Hstep in H. destruct H as [H Hl].
  apply Hstep in H. destruct H as [_ Hc].
  destruct Hk as [<-|[<-|[<-|[]]]]; eauto.
Qed.

Lemma build_signal_numbers (data : dict) (ep : option Q) (zones : list EntryZone)
  (tps : list TakeProfitLevel) (sl : option Q) (signal : TradingSignal) :
  TradingLogic.build_signal float_of_str int_of_str dynamic_sl_default
    data ep zones tps sl = Ok signal ->
  Py.py_float float_of_str (dict_get_default "position_size" (JNum 50) data)
  = Ok (position_size signal)
  /\ Py.py_int int_of_str (dict_get_default "leverage" (JNum 10) data)
     = Ok (leverage signal)
  /\ Py.py_float float_of_str (dict_get_default "confidence" (JNum (8 # 10)) data)
     = Ok (confidence signal)
  /\ margin_mode signal = dict_get_default "margin_mode" (JStr "cross") data
  /\ risk_level signal = dict_get_default "risk_level" (JStr "MEDIUM") data.
Proof.
  unfold TradingLogic.build_signal, rbind. intros H.
  repeat match type of H with
         | match ?x with _ => _ end = _ => destruct x eqn:?; [|discriminate]
         end.
  injection H as <-. repeat split.
Qed.

(** X22. The numbers of a signal that [process_message] returns.  A
    candidate without position size, leverage, confidence, margin mode or
    risk level gets 50, 10, 0.8, cross and MEDIUM; a position size or a
    confidence that the candidate holds is converted with [float] and
    kept; margin mode and risk level are taken as they are. *)
Theorem process_message_numbers (d : dict) (signal : TradingSignal) :
  TradingLogic.process_message float_of_str int_of_str dynamic_sl_default float_sum (Some d)
    = Some signal ->
  match dict_get "position_size" d with
  | Some v => Py.py_float float_of_str v = Ok (position_size signal)
  | None => position_size signal = 50
  end
  /\ match dict_get "confidence" d with
     | Some v => Py.py_float float_of_str v = Ok (confidence signal)
     | None => confidence signal = 8 # 10
     end
  /\ (dict_get "leverage" d = None -> leverage signal = 10%Z)
  /\ margin_mode signal = dict_get_default "margin_mode" (JStr "cross") d
  /\ risk_level signal = dict_get_default "risk_level" (JStr "MEDIUM") d.
Proof.
  intros H.
  assert (Hv : TradingLogic._validate_json_data float_of_str d = true).
  { revert H. unfold TradingLogic.process_message.
    destruct (truthy (JObj d)); [|discriminate].
    destruct (TradingLogic._validate_json_data float_of_str d);
      [reflexivity|discriminate]. }
  apply process_message_convert in H. apply convert_built in H.
  destruct H as ((ep & zones & tps & sl & Hb) & _ & _).
  apply build_signal_numbers in Hb. destruct Hb as (Hsize & Hlev & Hconf & Hmm & Hrl).
  set (n := TradingLogic._normalize_numbers float_of_str d) in *.
  assert (Hfloat : forall k default (x : Q),
            In k ["stop_loss"; "position_size"; "confidence"] ->
            In k ["position_size"; "leverage"; "confidence"] ->
            Py.py_float float_of_str (JNum default) = Ok default ->
            Py.py_float float_of_str (dict_get_default k (JNum default) n) = Ok x ->
            match dict_get k d with
            | Some v => Py.py_float float_of_str v = Ok x
            | None => x = default
            end).
  { intros k default x Hk1 Hk2 Hdef Hx. unfold dict_get_default in Hx.
    destruct (normalize_numbers_numeric k d Hk1) as [E|E]; fold n in E; rewrite E in Hx.
    - destruct (dict_get k d); [exact Hx|]. congruence.
    - destruct (dict_get k d) as [v|] eqn:Ed.
      + destruct (validate_json_numeric d k v Hv Hk2 Ed) as [q Hq].
        rewrite Hq in Hx |- *. cbn [Py.py_float] in Hx.
        destruct (Qle_bool _ _); [discriminate|exact Hx].
      + congruence. }
  split; [apply Hfloat; [simpl; auto ..|reflexivity|exact Hsize]|].
  split; [apply (Hfloat "confidence"); [simpl; auto ..|reflexivity|exact Hconf]|].
  split.
  { intros Hn. apply normalize_numbers_no_leverage in Hn. fold n in Hn.
    unfold dict_get_default in Hlev. rewrite Hn in Hlev.
    injection Hlev as <-. reflexivity. }
  unfold dict_get_default in *.
  rewrite Hmm, Hrl. unfold n.
  rewrite !normalize_numbers_get
    by (simpl; intros H; repeat (destruct H as [H|H]; [discriminate|]); exact H).
  split; reflexivity.
Qed.

End NumericFacts.

Section LadderFacts.
Variable float_of_str : string -> option Q.
Variable int_of_str : string -> option Z.
Variable tie_rounds_up : Q -> Z -> bool.

(** X23. The take-profit loop does not order twice: when a run of the loop
    of [_check_take_profit_levels] over the levels ends without an
    exception, a further run over the levels it leaves, at the same price,
    asks for no order and leaves levels and client as they are. *)
Theorem take_profit_loop_idempotent (signal : TradingSignal) (symbol : string)
  (position : PositionInfo) (current_price : Q) (levels : list TakeProfitLevel) :
  forall (k : nat) (c : Client) (levels' : list TakeProfitLevel)
         (log : list (nat * result OrderResult)) (c' : Client),
    check_levels float_of_str int_of_str tie_rounds_up
      signal symbol position current_price k
      levels c = (Ok tt, levels', log, c') ->
    length log
    = length (List.filter (fun tp => negb (is_hit tp)
                                     && triggered signal current_price tp) levels)
    /\ forall (k2 : nat) (c2 : Client),
         check_levels float_of_str int_of_str tie_rounds_up
           signal symbol position current_price k2
           levels' c2 = (Ok tt, levels', [], c2).
Proof.
  induction levels as [|tp rest IH]; intros k c levels' log c' H.
  - cbn [check_levels] in H. injection H as <- <- <-. split; reflexivity.
  - cbn [check_levels] in H. cbn [List.filter].
    destruct (is_hit tp) eqn:Ehit; cbn [negb andb].
    + destruct (check_levels float_of_str int_of_str tie_rounds_up
                 signal symbol position
                  current_price (S k) rest c) as [[[r1 rest'] log1] c1] eqn:Er.
      injection H as -> <- <- <-.
      destruct (IH _ _ _ _ _ Er) as [Hlen Hidem]. split; [exact Hlen|].
      intros k2 c2. cbn [check_levels]. rewrite Ehit, Hidem. reflexivity.
    + destruct (triggered signal current_price tp) eqn:Etr.
      * destruct (create_order float_of_str int_of_str tie_rounds_up
                    (take_profit_order signal symbol position tp) c)
          as [[res|e] c1] eqn:Ec; [|discriminate].
        destruct (create_order_spec _ _ _ _ _ _ _ Ec)
          as (_ & _ & _ & _ & _ & _ & _ & _ & _ & _ & _ & Hs & _).
        rewrite Hs in H.
        destruct (check_levels float_of_str int_of_str tie_rounds_up
                   signal symbol position
                    current_price (S k) rest _) as [[[r1 rest'] log1] c3] eqn:Er.
        injection H as -> <- <- <-.
        destruct (IH _ _ _ _ _ Er) as [Hlen Hidem].
        split; [cbn [length]; rewrite Hlen; reflexivity|].
        intros k2 c2. cbn [check_levels is_hit mark_hit]. rewrite Hidem. reflexivity.
      * destruct (check_levels float_of_str int_of_str tie_rounds_up
                   signal symbol position
                    current_price (S k) rest c) as [[[r1 rest'] log1] c1] eqn:Er.
        injection H as -> <- <- <-.
        destruct (IH _ _ _ _ _ Er) as [Hlen Hidem]. split; [exact Hlen|].
        intros k2 c2. cbn [check_levels]. rewrite Ehit, Etr, Hidem. reflexivity.
Qed.

End LadderFacts.

(** The candidate with entry 100 holds no position size and no leverage. *)
Lemma process_message_numbers_witness :
  position_size signal_rr_1_2 = 50 /\ leverage signal_rr_1_2 = 10%Z.
Proof.
  destruct (process_message_numbers no_float no_int false sumQ candidate_rr_1_2
              signal_rr_1_2 eq_refl) as (H1 & _ & H3 & _).
  split; [exact H1|exact (H3 eq_refl)].
Defined.

(** At 106 the loop over the ladder asks for one order, for the level that
    is not yet hit. *)
Lemma take_profit_loop_idempotent_witness :
  length (snd (fst (check_levels no_float no_int no_tie ladder_signal "BTCUSDT"
                      demo_position 106 0 (take_profit_levels ladder_signal)
                      demo_client))) = 1%nat.
Proof.
  exact (proj1 (take_profit_loop_idempotent no_float no_int no_tie ladder_signal "BTCUSDT"
                  demo_position 106 (take_profit_levels ladder_signal) 0%nat
                  demo_client
                  (snd (fst (fst (check_levels no_float no_int no_tie ladder_signal
                                    "BTCUSDT" demo_position 106 0
                                    (take_profit_levels ladder_signal) demo_client))))
                  (snd (fst (check_levels no_float no_int no_tie ladder_signal
                               "BTCUSDT" demo_position 106 0
                               (take_profit_levels ladder_signal) demo_client)))
                  (snd (check_levels no_float no_int no_tie ladder_signal
                          "BTCUSDT" demo_position 106 0
                          (take_profit_levels ladder_signal) demo_client))
                  ltac:(vm_compute; reflexivity))).
Defined.
